(** * Kafiza: the farmers / roasters repository layer and its connection cache

    A shallow embedding of the data-access code of the site:
    - the service classes ([lib/services/*.ts] and [lib/*.js]),
    - the route adapters ([pages/api/farmers/[id].ts],
      [pages/api/roasters/[id].ts], [pages/api/farmers/index.ts],
      [pages/api/*/index.js]),
    - the connection manager ([lib/mongodb.ts] and [lib/mongodb.js]).

    The document store is a list of documents in natural (insertion) order.
    Every store call of the code is a function on that list; the order in
    which a sorted cursor hands out documents with equal sort keys is the
    store's to choose, query by query.  The clock
    ([new Date()], read once per operation), the id the store gives a new
    document, and whether the store can be reached are explicit arguments. *)

From Stdlib Require Import String Ascii ZArith QArith List Bool Lia Permutation
  Sorted.
From Stdlib Require OrderedTypeEx.
Import ListNotations.
Open Scope string_scope.
Open Scope Z_scope.

Set Implicit Arguments.
Set Warnings "-register-all".

(** ** JavaScript values, as the handlers and the store see them *)

Inductive value : Type :=
| VUndefined
| VNull
| VBool (b : bool)
| VNum (q : Q)
| VStr (s : string)
| VDate (t : Z)
| VOid (hex : string)
| VArr (items : list value)
| VObj (fields : list (string * value)).

(** A document is the field list of an object, keys in insertion order. *)
Definition doc := list (string * value).

(** The outcome of code that may raise (a [TypeError], a driver error). *)
Inductive result (A : Type) : Type :=
| Ok (a : A)
| Throw.
Arguments Ok {A} a.
Arguments Throw {A}.

Definition bind {A B} (r : result A) (k : A -> result B) : result B :=
  match r with
  | Ok a => k a
  | Throw => Throw
  end.

Notation "x <- r ;; k" := (bind r (fun x => k))
  (at level 61, r at next level, right associativity).

Fixpoint mapM {A B} (f : A -> result B) (l : list A) : result (list B) :=
  match l with
  | [] => Ok []
  | a :: l' => b <- f a ;; bs <- mapM f l' ;; Ok (b :: bs)
  end.

(** [o[k]] on an own-property list. *)
Fixpoint getField (k : string) (fs : doc) : option value :=
  match fs with
  | [] => None
  | (k', v) :: fs' => if String.eqb k k' then Some v else getField k fs'
  end.

(** [o[k] = v]: an existing key keeps its place, a new key goes last. *)
Fixpoint setField (k : string) (v : value) (fs : doc) : doc :=
  match fs with
  | [] => [(k, v)]
  | (k', v') :: fs' =>
      if String.eqb k k' then (k, v) :: fs' else (k', v') :: setField k v fs'
  end.

(** [{...a, ...b}] and the store's [$set]: the fields of [b] assigned in order. *)
Definition assign (a b : doc) : doc :=
  fold_left (fun acc kv => setField (fst kv) (snd kv) acc) b a.

(** [Object.keys(o)] *)
Definition keys (d : doc) : list string := map fst d.

(** [Object.keys(o).length === 0] *)
Definition noKeys (o : doc) : bool :=
  match o with [] => true | _ => false end.

(** [Boolean(v)] *)
Definition truthy (v : value) : bool :=
  match v with
  | VUndefined | VNull => false
  | VBool b => b
  | VNum q => negb (Qeq_bool q 0)
  | VStr s => negb (String.eqb s "")
  | _ => true
  end.

Definition isUndefined (v : value) : bool :=
  match v with VUndefined => true | _ => false end.

Definition isNullish (v : value) : bool :=
  match v with VUndefined | VNull => true | _ => false end.

(** [v.k]: a [TypeError] on [undefined] and [null], [undefined] on a
    primitive or an array (the handlers read no built-in property name). *)
Definition prop (v : value) (k : string) : result value :=
  match v with
  | VUndefined | VNull => Throw
  | VObj fs => Ok (match getField k fs with Some x => x | None => VUndefined end)
  | _ => Ok VUndefined
  end.

(** [['a','b'].includes(v)] *)
Definition includes (allowed : list string) (v : value) : bool :=
  match v with
  | VStr s => existsb (String.eqb s) allowed
  | _ => false
  end.

(** What the driver writes for a value: [undefined] is serialised as [null]. *)
Fixpoint bson (v : value) : value :=
  match v with
  | VUndefined => VNull
  | VArr items => VArr (map bson items)
  | VObj fields =>
      VObj ((fix go (fs : doc) : doc :=
               match fs with
               | [] => []
               | (k, x) :: fs' => (k, bson x) :: go fs'
               end) fields)
  | _ => v
  end.

Definition bsonDoc (d : doc) : doc := map (fun kv => (fst kv, bson (snd kv))) d.

(** ** The queries the services send

    The clauses the services put in a filter; a filter is their
    conjunction.  [COrRegex paths q options] is
    [$or: [{p1: {$regex: q, $options: options}}, ...]]. *)
Inductive clause : Type :=
| CId (oid : string)
| CTrue (field : string)
| CStr (field : string) (s : string)
| COrRegex (paths : list (list string)) (q : string) (options : string).

Definition filter := list clause.

(** ** What the platform supplies

    [String.prototype.trim], [toLowerCase], [parseFloat], [parseInt] (without
    and with radix 10; [None] is [NaN]), the driver's [ObjectId] and the
    store's [$regex] belong to the runtime, the driver and the store, not to
    this repository: the code is read over any implementation of them.
    [regex_valid q] tells whether the store accepts the pattern [q];
    [regex_search q options s] is the store's search of the pattern [q],
    under [$options: options], in the text [s]; [RegExp_test p v] is
    [/p/.test(v)].

    [tie_order f sortBy dir skip limit ds] is the store's choice, for the
    cursor [find(f).sort({sortBy: dir}).skip(skip).limit(limit)] on the
    collection [ds], of the order in which documents with equal sort keys
    come: a code that [Store.arrange] reads as a rearrangement of the
    documents found, made before the sort.  Any store is some such choice,
    and nothing is assumed of it. *)
Class Platform : Type := {
  String_trim : string -> string;
  String_toLowerCase : string -> string;
  parseFloat : value -> option Q;
  parseInt : string -> option Z;
  parseInt10 : string -> option Z;
  ObjectId_isValid : string -> bool;
  ObjectId_new : string -> string;
  regex_valid : string -> bool;
  regex_search : string -> string -> string -> bool;
  RegExp_test : string -> value -> bool;
  tie_order : filter -> string -> Z -> Z -> Z -> list doc -> list nat
}.

(** ** The document store

    The collection is the list of its documents in natural order.  The
    filters and the update documents are the ones the services build: a
    conjunction of equalities on top-level fields and of one [$or] of
    [$regex] clauses, and a [$set] of top-level fields.  Documents follow
    the interfaces of [lib/types.ts]: [_id] is an object id and [isActive]
    a boolean. *)

Module Store.

(** The collection behind [getCollection]: [reachable = false] makes
    [getCollection] raise. *)
Record store : Type := {
  reachable : bool;
  docs : list doc
}.

Definition withDocs (st : store) (ds : list doc) : store :=
  {| reachable := reachable st; docs := ds |}.

(** The value at a dotted path, through embedded documents. *)
Fixpoint getPath (path : list string) (v : value) : option value :=
  match path with
  | [] => Some v
  | k :: rest =>
      match v with
      | VObj fs =>
          match getField k fs with
          | Some x => getPath rest x
          | None => None
          end
      | _ => None
      end
  end.

(** The strings a [$regex] clause is tried on: the string at the path, or
    the string elements of the array there. *)
Definition texts (path : list string) (d : doc) : list string :=
  match getPath path (VObj d) with
  | Some (VStr s) => [s]
  | Some (VArr items) =>
      flat_map (fun x => match x with VStr s => [s] | _ => [] end) items
  | _ => []
  end.

Definition isActive (d : doc) : bool :=
  match getField "isActive" d with
  | Some (VBool true) => true
  | _ => false
  end.

Definition hasId (oid : string) (d : doc) : bool :=
  match getField "_id" d with
  | Some (VOid o) => String.eqb o oid
  | _ => false
  end.

Section WithPlatform.
Context {P : Platform}.

Definition regexAt (q options : string) (d : doc) (path : list string) : bool :=
  existsb (regex_search q options) (texts path d).

Definition holds (c : clause) (d : doc) : bool :=
  match c with
  | CId oid => hasId oid d
  | CTrue f =>
      match getField f d with Some (VBool true) => true | _ => false end
  | CStr f s =>
      match getField f d with Some (VStr s') => String.eqb s' s | _ => false end
  | COrRegex paths q options => existsb (regexAt q options d) paths
  end.

Definition matches (f : filter) (d : doc) : bool :=
  forallb (fun c => holds c d) f.

(** The store parses a filter before running it: a bad pattern is an
    error whatever the documents are. *)
Definition accepted (f : filter) : bool :=
  forallb (fun c => match c with
                    | COrRegex _ q _ => regex_valid q
                    | _ => true
                    end) f.

Definition find (f : filter) (ds : list doc) : result (list doc) :=
  if accepted f then Ok (List.filter (matches f) ds) else Throw.

Definition countDocuments (f : filter) (ds : list doc) : result Z :=
  if accepted f then Ok (Z.of_nat (length (List.filter (matches f) ds)))
  else Throw.

Definition findOne (f : filter) (ds : list doc) : option doc :=
  List.find (matches f) ds.

(** [$set] on the first document the filter matches. *)
Fixpoint setFirst (f : filter) (u : doc) (ds : list doc)
  : option doc * list doc :=
  match ds with
  | [] => (None, [])
  | d :: ds' =>
      if matches f d then
        let d' := assign d (bsonDoc u) in (Some d', d' :: ds')
      else
        let '(r, ds'') := setFirst f u ds' in (r, d :: ds'')
  end.

(** [updateOne(f, {$set: u})]: [matchedCount] and the collection after. *)
Definition updateOne (f : filter) (u : doc) (ds : list doc) : Z * list doc :=
  match setFirst f u ds with
  | (Some _, ds') => (1, ds')
  | (None, ds') => (0, ds')
  end.

(** [findOneAndUpdate(f, {$set: u}, {returnDocument: 'after'})]: the
    document after the update, or nothing, and the collection after. *)
Definition findOneAndUpdate (f : filter) (u : doc) (ds : list doc)
  : option doc * list doc :=
  setFirst f u ds.

(** What the same call resolves to in the 3.x line of the driver: the reply
    of the command, with the document under [value] (the document after
    the update, which is what [returnDocument: 'after'] asks for, or
    [null]).  It is the line [lib/mongodb.js] connects with (its
    [bufferMaxEntries] option is refused from 4.0 on), so it is what the
    JavaScript services get: an object, whether a document matched or
    not. *)
Definition modifyResult (r : option doc) : value :=
  VObj [("lastErrorObject",
         VObj [("n", VNum (match r with Some _ => 1 | None => 0 end));
               ("updatedExisting",
                VBool (match r with Some _ => true | None => false end))]);
        ("value", match r with Some d => VObj d | None => VNull end);
        ("ok", VNum 1)].

End WithPlatform.

(** [insertOne(d)]: the store gives the document the id [fresh] and refuses
    an id it already holds.  The documents the services insert carry no
    [_id] of their own. *)
Definition insertOne (d : doc) (fresh : string) (ds : list doc)
  : result (list doc) :=
  if existsb (hasId fresh) ds then Throw
  else Ok (ds ++ [("_id", VOid fresh) :: bsonDoc d])%list.

(** *** Cursor: sort, skip, limit *)

(** The store's order on the scalars the documents hold: by type first
    (null and missing, numbers, strings, object ids, booleans, dates),
    then by value.  Documents and arrays are left in natural order. *)
Definition rank (v : value) : Z :=
  match v with
  | VUndefined | VNull => 1
  | VNum _ => 2
  | VStr _ => 3
  | VObj _ => 4
  | VArr _ => 5
  | VOid _ => 6
  | VBool _ => 7
  | VDate _ => 8
  end.

Definition cmpValue (a b : value) : comparison :=
  match a, b with
  | VNum x, VNum y => Qcompare x y
  | VStr x, VStr y => String.compare x y
  | VOid x, VOid y => String.compare x y
  | VBool x, VBool y => Bool.compare x y
  | VDate x, VDate y => Z.compare x y
  | _, _ => Z.compare (rank a) (rank b)
  end.

Definition sortKey (path : list string) (d : doc) : value :=
  match getPath path (VObj d) with
  | Some v => v
  | None => VNull
  end.

(** [before path dir a b]: [a] may stay in front of [b] under
    [sort({path: dir})]. *)
Definition before (path : list string) (dir : Z) (a b : doc) : bool :=
  match cmpValue (sortKey path a) (sortKey path b) with
  | Eq => true
  | Lt => 0 <? dir
  | Gt => dir <? 0
  end.

Fixpoint insertBy (le : doc -> doc -> bool) (x : doc) (l : list doc) : list doc :=
  match l with
  | [] => [x]
  | y :: l' => if le x y then x :: y :: l' else y :: insertBy le x l'
  end.

(** A stable sort: ties keep the order they come in. *)
Definition sortDocs (path : list string) (dir : Z) (l : list doc) : list doc :=
  fold_right (insertBy (before path dir)) [] l.

(** [x] put at place [n] of [l], or at its end. *)
Fixpoint insertAt (n : nat) (x : doc) (l : list doc) : list doc :=
  match n, l with
  | S n', y :: l' => y :: insertAt n' x l'
  | _, _ => x :: l
  end.

(** The rearrangement of [l] that a code names: each document is put at
    the place the code gives it among those that follow it.  Every code
    names a rearrangement and every rearrangement has a code; the empty
    code names [l] itself. *)
Fixpoint arrange (code : list nat) (l : list doc) : list doc :=
  match l with
  | [] => []
  | x :: l' => insertAt (hd O code) x (arrange (tl code) l')
  end.

(** [skip(n)]: the store refuses a negative skip. *)
Definition skip (n : Z) (l : list doc) : result (list doc) :=
  if n <? 0 then Throw else Ok (skipn (Z.to_nat n) l).

(** [limit(n)]: [0] is no limit, a negative [n] is [|n|]. *)
Definition limit (n : Z) (l : list doc) : list doc :=
  if n =? 0 then l else firstn (Z.to_nat (Z.abs n)) l.

(** ["a.b"] as [["a"; "b"]] *)
Fixpoint splitDots (acc : string) (s : string) : list string :=
  match s with
  | EmptyString => [acc]
  | String c s' =>
      if Ascii.eqb c "."%char then acc :: splitDots "" s'
      else splitDots (acc ++ String c "") s'
  end.

Section Cursor.
Context {P : Platform}.

(** The documents a sorted cursor runs over: the documents found, in the
    order of their sort keys, those with equal keys in the order the store
    chooses for this query. *)
Definition inOrder (f : filter) (sortBy : string) (dir : Z) (s n : Z)
           (ds : list doc) (found : list doc) : list doc :=
  sortDocs (splitDots "" sortBy) dir
           (arrange (tie_order f sortBy dir s n ds) found).

(** [find(f).sort({sortBy: dir}).skip(s).limit(n).toArray()] *)
Definition cursor (f : filter) (sortBy : string) (dir : Z) (s n : Z)
           (ds : list doc) : result (list doc) :=
  found <- find f ds ;;
  rest <- skip s (inOrder f sortBy dir s n ds found) ;;
  Ok (limit n rest).
End Cursor.

End Store.


(** ** Response envelope ([lib/types.ts]) *)

(** A JavaScript number that a division may have produced. *)
Inductive jsnum : Type :=
| Fin (z : Z)
| Infinity
| NaN.

(** [Math.ceil(a / b)] for [a >= 0] *)
Definition ceilDiv (a b : Z) : jsnum :=
  if b =? 0 then (if a =? 0 then NaN else Infinity)
  else Fin (- ((- a) / b)).

(** [p < n] *)
Definition ltNum (p : Z) (n : jsnum) : bool :=
  match n with
  | Fin z => p <? z
  | Infinity => true
  | NaN => false
  end.

Record Pagination : Type := {
  page : Z;
  limit : Z;
  total : Z;
  totalPages : jsnum;
  hasNext : bool;
  hasPrev : bool
}.

Record ApiResponse : Type := {
  success : bool;
  data : option value;
  error : option string;
  message : option string;
  pagination : option Pagination
}.

Record PaginationParams : Type := {
  p_page : option Z;
  p_limit : option Z;
  p_sortBy : option string;
  p_sortOrder : option string
}.

Definition ok (d : value) (msg : option string) : ApiResponse :=
  {| success := true; data := Some d; error := None; message := msg;
     pagination := None |}.

Definition fail (e : string) : ApiResponse :=
  {| success := false; data := None; error := Some e; message := None;
     pagination := None |}.

Definition emptyPagination : Pagination :=
  {| page := 1; limit := 10; total := 0; totalPages := Fin 0;
     hasNext := false; hasPrev := false |}.

Definition okPage (ds : list doc) (pg lim tot : Z) : ApiResponse :=
  let tp := ceilDiv tot lim in
  {| success := true; data := Some (VArr (map VObj ds)); error := None;
     message := None;
     pagination := Some {| page := pg; limit := lim; total := tot;
                           totalPages := tp; hasNext := ltNum pg tp;
                           hasPrev := 1 <? pg |} |}.

Definition deleted : value := VObj [("deleted", VBool true)].

(** The two resource kinds; the services differ in their strings only. *)
Inductive kind : Type := Farmer | Roaster.

Definition noun (k : kind) : string :=
  match k with Farmer => "farmer" | Roaster => "roaster" end.

Definition Noun (k : kind) : string :=
  match k with Farmer => "Farmer" | Roaster => "Roaster" end.

Definition orElse {A} (o : option A) (d : A) : A :=
  match o with Some a => a | None => d end.

(** ** The TypeScript services ([lib/services/farmers.ts], [lib/services/roasters.ts]) *)

Module TS.
Import Store.

Definition searchPaths (k : kind) : list (list string) :=
  match k with
  | Farmer => [["location"; "state"]; ["location"; "city"]; ["coffeeTypes"];
               ["certifications"]; ["farmName"]]
  | Roaster => [["location"; "city"]; ["location"; "region"]; ["businessType"];
                ["subscriptionTier"]; ["businessName"]]
  end.

Definition searchSortBy (k : kind) : string :=
  match k with Farmer => "rating" | Roaster => "totalOrders" end.

Definition failPage (e : string) : ApiResponse :=
  {| success := false; data := None; error := Some e; message := None;
     pagination := Some emptyPagination |}.

Section Services.
Context {P : Platform}.
Variable k : kind.

Definition create (st : store) (data : doc) (now : Z) (fresh : string)
  : ApiResponse * store :=
  if negb (reachable st) then (fail ("Failed to create " ++ noun k), st)
  else
    let newDoc := assign data [("createdAt", VDate now); ("updatedAt", VDate now);
                               ("totalOrders", VNum 0); ("isActive", VBool true)] in
    match insertOne newDoc fresh (docs st) with
    | Throw => (fail ("Failed to create " ++ noun k), st)
    | Ok ds =>
        (ok (VObj (setField "_id" (VOid fresh) newDoc))
            (Some (Noun k ++ " created successfully")),
         withDocs st ds)
    end.

Definition getById (st : store) (id : string) : ApiResponse :=
  if negb (reachable st) then fail ("Failed to fetch " ++ noun k)
  else if negb (ObjectId_isValid id) then fail ("Invalid " ++ noun k ++ " ID")
  else match findOne [CId (ObjectId_new id)] (docs st) with
       | None => fail (Noun k ++ " not found")
       | Some d => ok (VObj d) None
       end.

(** The body shared by the list and the search: count, then the page. *)
Definition paged (f : filter) (pg lim : Z) (sortBy : string) (sortOrder : string)
           (ds : list doc) : result ApiResponse :=
  let skip := (pg - 1) * lim in
  let sortDirection := if String.eqb sortOrder "asc" then 1 else -1 in
  tot <- countDocuments f ds ;;
  rows <- cursor f sortBy sortDirection skip lim ds ;;
  Ok (okPage rows pg lim tot).

Definition getList (st : store) (params : PaginationParams) : ApiResponse :=
  if negb (reachable st) then failPage ("Failed to fetch " ++ noun k ++ "s")
  else
    match paged [CTrue "isActive"]
                (orElse (p_page params) 1) (orElse (p_limit params) 10)
                (orElse (p_sortBy params) "createdAt")
                (orElse (p_sortOrder params) "desc") (docs st) with
    | Ok r => r
    | Throw => failPage ("Failed to fetch " ++ noun k ++ "s")
    end.

Definition update (st : store) (id : string) (updateData : doc) (now : Z)
  : ApiResponse * store :=
  if negb (reachable st) then (fail ("Failed to update " ++ noun k), st)
  else if negb (ObjectId_isValid id) then (fail ("Invalid " ++ noun k ++ " ID"), st)
  else
    let updateDoc := setField "updatedAt" (VDate now) updateData in
    match findOneAndUpdate [CId (ObjectId_new id)] updateDoc (docs st) with
    | (None, _) => (fail (Noun k ++ " not found"), st)
    | (Some d, ds) =>
        (ok (VObj d) (Some (Noun k ++ " updated successfully")), withDocs st ds)
    end.

Definition delete (st : store) (id : string) (now : Z) : ApiResponse * store :=
  if negb (reachable st) then (fail ("Failed to delete " ++ noun k), st)
  else if negb (ObjectId_isValid id) then (fail ("Invalid " ++ noun k ++ " ID"), st)
  else
    let '(matchedCount, ds) :=
      updateOne [CId (ObjectId_new id)]
                [("isActive", VBool false); ("updatedAt", VDate now)] (docs st) in
    if matchedCount =? 0 then (fail (Noun k ++ " not found"), st)
    else (ok deleted (Some (Noun k ++ " deleted successfully")), withDocs st ds).

Definition search (st : store) (query : string) (params : PaginationParams)
  : ApiResponse :=
  if negb (reachable st) then failPage ("Failed to search " ++ noun k ++ "s")
  else
    match paged [CTrue "isActive"; COrRegex (searchPaths k) query "i"]
                (orElse (p_page params) 1) (orElse (p_limit params) 10)
                (orElse (p_sortBy params) (searchSortBy k))
                (orElse (p_sortOrder params) "desc") (docs st) with
    | Ok r => r
    | Throw => failPage ("Failed to search " ++ noun k ++ "s")
    end.

(** [getRoastersByTier] of [lib/services/roasters.ts]: a sorted cursor
    with no skip and no limit. *)
Definition getRoastersByTier (st : store) (tier : string) : ApiResponse :=
  if negb (reachable st) then fail "Failed to fetch roasters by tier"
  else
    match cursor [CStr "subscriptionTier" tier; CTrue "isActive"]
                 "createdAt" (-1) 0 0 (docs st) with
    | Ok rows => ok (VArr (map VObj rows)) None
    | Throw => fail "Failed to fetch roasters by tier"
    end.

(** [updateSubscriptionTier] of [lib/services/roasters.ts] *)
Definition updateSubscriptionTier (st : store) (id : string) (tier : string)
           (now : Z) : ApiResponse * store :=
  if negb (reachable st) then (fail "Failed to update subscription tier", st)
  else if negb (ObjectId_isValid id) then (fail "Invalid roaster ID", st)
  else
    match findOneAndUpdate [CId (ObjectId_new id)]
                           [("subscriptionTier", VStr tier);
                            ("updatedAt", VDate now)] (docs st) with
    | (None, _) => (fail "Roaster not found", st)
    | (Some d, ds) =>
        (ok (VObj d) (Some "Subscription tier updated successfully"),
         withDocs st ds)
    end.

End Services.

Definition createRoaster {P : Platform} := create Roaster.
Definition createFarmer {P : Platform} := create Farmer.
Definition getRoasterById {P : Platform} := getById Roaster.
Definition getRoasters {P : Platform} := getList Roaster.
Definition updateRoaster {P : Platform} := update Roaster.
Definition deleteRoaster {P : Platform} := delete Roaster.
Definition searchRoasters {P : Platform} := search Roaster.
Definition getFarmerById {P : Platform} := getById Farmer.
Definition getFarmers {P : Platform} := getList Farmer.
Definition updateFarmer {P : Platform} := update Farmer.
Definition deleteFarmer {P : Platform} := delete Farmer.
Definition searchFarmers {P : Platform} := search Farmer.

End TS.

(** ** The JavaScript services ([lib/farmers.js], [lib/roasters.js]) *)

Module JS.
Import Store.

Definition searchPaths (k : kind) : list (list string) :=
  match k with
  | Farmer => [["name"]; ["location"]; ["coffeeVarieties"]; ["certifications"]]
  | Roaster => [["name"]; ["location"]; ["specialties"]]
  end.

Definition failPage (e : string) : ApiResponse :=
  {| success := false; data := Some (VArr []); error := Some e; message := None;
     pagination := Some emptyPagination |}.

(** [n || d] on a number: [undefined], [NaN] (both [None]) and [0] give [d]. *)
Definition orNum (o : option Z) (d : Z) : Z :=
  match o with
  | Some z => if z =? 0 then d else z
  | None => d
  end.

(** [if (params.sortBy)]: the field is there and is not the empty string. *)
Definition given (o : option string) : bool :=
  match o with
  | Some s => negb (String.eqb s "")
  | None => false
  end.

Section Services.
Context {P : Platform}.
Variable k : kind.

Definition create (st : store) (data : doc) (now : Z) (fresh : string)
  : ApiResponse * store :=
  if negb (reachable st) then (fail ("Failed to create " ++ noun k), st)
  else
    let newDoc := assign data [("createdAt", VDate now); ("updatedAt", VDate now)] in
    match insertOne newDoc fresh (docs st) with
    | Throw => (fail ("Failed to create " ++ noun k), st)
    | Ok ds =>
        (ok (match findOne [CId fresh] ds with
             | Some created => VObj created
             | None => VNull
             end)
            (Some (Noun k ++ " created successfully")),
         withDocs st ds)
    end.

Definition getById (st : store) (id : string) : ApiResponse :=
  if negb (ObjectId_isValid id) then fail ("Invalid " ++ noun k ++ " ID format")
  else if negb (reachable st) then fail ("Failed to fetch " ++ noun k)
  else match findOne [CId (ObjectId_new id); CTrue "isActive"] (docs st) with
       | None => fail (Noun k ++ " not found")
       | Some d => ok (VObj d) None
       end.

Definition paged (f : filter) (params : PaginationParams)
           (sortBy : string) (dir : Z) (ds : list doc) : result ApiResponse :=
  let pg := orNum (p_page params) 1 in
  let lim := Z.min (orNum (p_limit params) 10) 100 in
  let skip := (pg - 1) * lim in
  rows <- cursor f sortBy dir skip lim ds ;;
  tot <- countDocuments f ds ;;
  Ok (okPage rows pg lim tot).

Definition getList (st : store) (params : PaginationParams) : ApiResponse :=
  if negb (reachable st) then failPage ("Failed to fetch " ++ noun k ++ "s")
  else
    let sortBy := if given (p_sortBy params)
                  then orElse (p_sortBy params) "" else "createdAt" in
    let dir := if given (p_sortBy params)
               then (if String.eqb (orElse (p_sortOrder params) "") "desc"
                     then -1 else 1)
               else -1 in
    match paged [CTrue "isActive"] params sortBy dir (docs st) with
    | Ok r => r
    | Throw => failPage ("Failed to fetch " ++ noun k ++ "s")
    end.

Definition update (st : store) (id : string) (updateData : doc) (now : Z)
  : ApiResponse * store :=
  if negb (ObjectId_isValid id)
  then (fail ("Invalid " ++ noun k ++ " ID format"), st)
  else if negb (reachable st) then (fail ("Failed to update " ++ noun k), st)
  else
    let '(r, ds) :=
      findOneAndUpdate [CId (ObjectId_new id); CTrue "isActive"]
                       (setField "updatedAt" (VDate now) updateData)
                       (docs st) in
    let updateResult := modifyResult r in
    if negb (truthy updateResult)
    then (fail (Noun k ++ " not found or could not be updated"), st)
    else (ok updateResult (Some (Noun k ++ " updated successfully")),
          withDocs st ds).

Definition delete (st : store) (id : string) (now : Z) : ApiResponse * store :=
  if negb (ObjectId_isValid id)
  then (fail ("Invalid " ++ noun k ++ " ID format"), st)
  else if negb (reachable st) then (fail ("Failed to delete " ++ noun k), st)
  else
    let '(matchedCount, ds) :=
      updateOne [CId (ObjectId_new id)]
                [("isActive", VBool false); ("updatedAt", VDate now)] (docs st) in
    if matchedCount =? 0 then (fail (Noun k ++ " not found"), st)
    else (ok deleted (Some (Noun k ++ " deleted successfully")), withDocs st ds).

Definition search (st : store) (query : string) (params : PaginationParams)
  : ApiResponse :=
  if negb (reachable st) then failPage ("Failed to search " ++ noun k ++ "s")
  else
    match paged [CTrue "isActive"; COrRegex (searchPaths k) query "i"] params
                "createdAt" (-1) (docs st) with
    | Ok r => r
    | Throw => failPage ("Failed to search " ++ noun k ++ "s")
    end.

Definition getRoastersByTier (st : store) (tier : string) : ApiResponse :=
  if negb (existsb (String.eqb tier) ["basic"; "premium"; "enterprise"])
  then fail "Invalid subscription tier. Must be basic, premium, or enterprise"
  else if negb (reachable st)
  then {| success := false; data := Some (VArr []);
          error := Some "Failed to fetch roasters by tier"; message := None;
          pagination := None |}
  else
    match find [CStr "subscriptionTier" tier; CTrue "isActive"] (docs st) with
    | Ok rows => ok (VArr (map VObj rows)) None
    | Throw => {| success := false; data := Some (VArr []);
                  error := Some "Failed to fetch roasters by tier";
                  message := None; pagination := None |}
    end.

(** [updateSubscriptionTier] of [lib/roasters.js] *)
Definition updateSubscriptionTier (st : store) (id : string) (tier : string)
           (now : Z) : ApiResponse * store :=
  if negb (ObjectId_isValid id) then (fail "Invalid roaster ID format", st)
  else if negb (existsb (String.eqb tier) ["basic"; "premium"; "enterprise"])
  then (fail "Invalid subscription tier. Must be basic, premium, or enterprise",
        st)
  else if negb (reachable st)
  then (fail "Failed to update subscription tier", st)
  else
    let '(r, ds) :=
      findOneAndUpdate [CId (ObjectId_new id); CTrue "isActive"]
                       [("subscriptionTier", VStr tier);
                        ("updatedAt", VDate now)] (docs st) in
    let updateResult := modifyResult r in
    if negb (truthy updateResult)
    then (fail "Roaster not found or could not be updated", st)
    else (ok updateResult (Some "Subscription tier updated successfully"),
          withDocs st ds).

End Services.

Definition createRoaster {P : Platform} := create Roaster.
Definition createFarmer {P : Platform} := create Farmer.
Definition getRoasterById {P : Platform} := getById Roaster.
Definition getRoasters {P : Platform} := getList Roaster.
Definition updateRoaster {P : Platform} := update Roaster.
Definition deleteRoaster {P : Platform} := delete Roaster.
Definition searchRoasters {P : Platform} := search Roaster.
Definition getFarmerById {P : Platform} := getById Farmer.
Definition getFarmers {P : Platform} := getList Farmer.
Definition updateFarmer {P : Platform} := update Farmer.
Definition deleteFarmer {P : Platform} := delete Farmer.
Definition searchFarmers {P : Platform} := search Farmer.

End JS.


(** ** The route adapters *)

(** [res.status(code).json(r)], and [res.status(code).end()] with no body. *)
Record HttpResponse : Type := {
  status : Z;
  body : option ApiResponse
}.

Definition respond (code : Z) (r : ApiResponse) : HttpResponse :=
  {| status := code; body := Some r |}.

Definition respondEmpty (code : Z) : HttpResponse :=
  {| status := code; body := None |}.

Module Routes.
Import Store.

Section Adapters.
Context {P : Platform}.

(** [v.trim()]: a [TypeError] unless [v] is a string. *)
Definition trim (v : value) : result value :=
  match v with
  | VStr s => Ok (VStr (String_trim s))
  | _ => Throw
  end.

(** [v?.trim()] *)
Definition optTrim (v : value) : result value :=
  if isNullish v then Ok VUndefined else trim v.

(** [v.trim().toLowerCase()] *)
Definition trimLower (v : value) : result value :=
  match v with
  | VStr s => Ok (VStr (String_toLowerCase (String_trim s)))
  | _ => Throw
  end.

(** [if (x !== undefined) o[key] = f(x)] *)
Definition setIfDefined (key : string) (x : value) (f : value -> result value)
           (o : doc) : result doc :=
  if isUndefined x then Ok o else (y <- f x ;; Ok (setField key y o)).

(** The status the [[id]] routes give a service result. *)
Definition statusOf (k : kind) (r : ApiResponse) : Z :=
  if success r then 200
  else match error r with
       | Some e => if String.eqb e (Noun k ++ " not found") then 404 else 400
       | None => 400
       end.

(** [pages/api/roasters/[id].ts], [handleUpdateRoaster]: the update object
    built from the request body. *)
Definition roasterUpdateData (reqBody : value) : result doc :=
  businessName <- prop reqBody "businessName" ;;
  ownerName <- prop reqBody "ownerName" ;;
  location <- prop reqBody "location" ;;
  contact <- prop reqBody "contact" ;;
  businessType <- prop reqBody "businessType" ;;
  description <- prop reqBody "description" ;;
  subscriptionTier <- prop reqBody "subscriptionTier" ;;
  isActive <- prop reqBody "isActive" ;;
  u <- setIfDefined "businessName" businessName trim [] ;;
  u <- setIfDefined "ownerName" ownerName trim u ;;
  u <- (if isUndefined location then Ok u
        else
          city <- prop location "city" ;;
          l <- setIfDefined "city" city trim [] ;;
          region <- prop location "region" ;;
          l <- setIfDefined "region" region trim l ;;
          address <- prop location "address" ;;
          l <- setIfDefined "address" address trim l ;;
          Ok (setField "location" (VObj l) u)) ;;
  u <- (if isUndefined contact then Ok u
        else
          email <- prop contact "email" ;;
          c <- setIfDefined "email" email trimLower [] ;;
          phone <- prop contact "phone" ;;
          c <- setIfDefined "phone" phone trim c ;;
          website <- prop contact "website" ;;
          c <- setIfDefined "website" website optTrim c ;;
          Ok (setField "contact" (VObj c) u)) ;;
  let u := if negb (isUndefined businessType)
              && includes ["roastery"; "cafe"; "both"] businessType
           then setField "businessType" businessType u else u in
  u <- setIfDefined "description" description trim u ;;
  let u := if negb (isUndefined subscriptionTier)
              && includes ["basic"; "premium"; "enterprise"] subscriptionTier
           then setField "subscriptionTier" subscriptionTier u else u in
  let u := if isUndefined isActive then u
           else setField "isActive" (VBool (truthy isActive)) u in
  Ok u.

(** [pages/api/farmers/[id].ts], [handleUpdateFarmer] *)
Definition farmerUpdateData (reqBody : value) : result doc :=
  name <- prop reqBody "name" ;;
  farmName <- prop reqBody "farmName" ;;
  location <- prop reqBody "location" ;;
  coffeeTypes <- prop reqBody "coffeeTypes" ;;
  certifications <- prop reqBody "certifications" ;;
  contact <- prop reqBody "contact" ;;
  description <- prop reqBody "description" ;;
  images <- prop reqBody "images" ;;
  isActive <- prop reqBody "isActive" ;;
  rating <- prop reqBody "rating" ;;
  u <- setIfDefined "name" name trim [] ;;
  u <- setIfDefined "farmName" farmName trim u ;;
  u <- (if isUndefined location then Ok u
        else
          state <- prop location "state" ;;
          state' <- optTrim state ;;
          city <- prop location "city" ;;
          city' <- optTrim city ;;
          coordinates <- prop location "coordinates" ;;
          Ok (setField "location"
                (VObj [("state", state'); ("city", city');
                       ("coordinates",
                        if truthy coordinates then coordinates else VUndefined)])
                u)) ;;
  u <- match coffeeTypes with
       | VArr (t :: ts) =>
           l <- mapM trim (t :: ts) ;; Ok (setField "coffeeTypes" (VArr l) u)
       | _ => Ok u
       end ;;
  u <- match certifications with
       | VArr cs =>
           l <- mapM trim cs ;; Ok (setField "certifications" (VArr l) u)
       | _ => Ok u
       end ;;
  u <- (if isUndefined contact then Ok u
        else
          email <- prop contact "email" ;;
          c <- setIfDefined "email" email trimLower [] ;;
          phone <- prop contact "phone" ;;
          c <- setIfDefined "phone" phone optTrim c ;;
          whatsapp <- prop contact "whatsapp" ;;
          c <- setIfDefined "whatsapp" whatsapp optTrim c ;;
          Ok (setField "contact" (VObj c) u)) ;;
  u <- setIfDefined "description" description trim u ;;
  let u := match images with
           | VArr _ => setField "images" images u
           | _ => u
           end in
  let u := if isUndefined isActive then u
           else setField "isActive" (VBool (truthy isActive)) u in
  let u := if isUndefined rating then u
           else match parseFloat rating with
                | Some r =>
                    if Qle_bool 0 r && Qle_bool r 5
                    then setField "rating" (VNum r) u else u
                | None => u
                end in
  Ok u.

Definition updateDataOf (k : kind) : value -> result doc :=
  match k with
  | Farmer => farmerUpdateData
  | Roaster => roasterUpdateData
  end.

Definition handleGet (k : kind) (id : string) (st : store) : HttpResponse :=
  let r := TS.getById k st id in respond (statusOf k r) r.

Definition handleUpdate (k : kind) (id : string) (reqBody : value) (st : store)
           (now : Z) : HttpResponse * store :=
  if negb (truthy reqBody)
  then (respond 400 (fail "Request body is required"), st)
  else
    match updateDataOf k reqBody with
    | Throw => (respond 500 (fail ("Failed to update " ++ noun k)), st)
    | Ok updateData =>
        if noKeys updateData
        then (respond 400 (fail "No valid fields provided for update"), st)
        else
          let '(r, st') := TS.update k st id updateData now in
          (respond (statusOf k r) r, st')
    end.

Definition handleDelete (k : kind) (id : string) (st : store) (now : Z)
  : HttpResponse * store :=
  let '(r, st') := TS.delete k st id now in (respond (statusOf k r) r, st').

(** The default export of the [[id]] routes.  [id] is [None] when the query
    has no single string under [id]. *)
Definition handler (k : kind) (method : string) (id : option string)
           (reqBody : value) (st : store) (now : Z) : HttpResponse * store :=
  if String.eqb method "OPTIONS"
  then (respondEmpty 200, st)
  else
    match id with
    | None => (respond 400 (fail (Noun k ++ " ID is required")), st)
    | Some i =>
        if String.eqb i ""
        then (respond 400 (fail (Noun k ++ " ID is required")), st)
        else if String.eqb method "GET" then (handleGet k i st, st)
        else if String.eqb method "PUT" then handleUpdate k i reqBody st now
        else if String.eqb method "DELETE" then handleDelete k i st now
        else (respond 405 (fail ("Method " ++ method ++ " Not Allowed")), st)
    end.

Definition handleGetRoaster := handleGet Roaster.
Definition handleUpdateRoaster := handleUpdate Roaster.
Definition handleDeleteRoaster := handleDelete Roaster.
Definition handleGetFarmer := handleGet Farmer.
Definition handleUpdateFarmer := handleUpdate Farmer.
Definition handleDeleteFarmer := handleDelete Farmer.

(** The query string of the list routes; a parameter is [None] when absent. *)
Record ListQuery : Type := {
  q_page : option string;
  q_limit : option string;
  q_sortBy : option string;
  q_sortOrder : option string;
  q_search : option string;
  q_tier : option string
}.

(** [pages/api/farmers/index.ts], [handleGetFarmers] *)
Definition handleGetFarmers (q : ListQuery) (st : store) : HttpResponse :=
  let pageNum := parseInt10 (orElse (q_page q) "1") in
  let limitNum := parseInt10 (orElse (q_limit q) "10") in
  let sortBy := orElse (q_sortBy q) "createdAt" in
  let sortOrder := orElse (q_sortOrder q) "desc" in
  let search := orElse (q_search q) "" in
  match pageNum with
  | None => respond 400 (fail "Invalid page number")
  | Some pg =>
      if pg <? 1 then respond 400 (fail "Invalid page number")
      else
        match limitNum with
        | None => respond 400 (fail "Invalid limit (must be between 1 and 100)")
        | Some lim =>
            if (lim <? 1) || (100 <? lim)
            then respond 400 (fail "Invalid limit (must be between 1 and 100)")
            else
              let params := {| p_page := Some pg; p_limit := Some lim;
                               p_sortBy := Some sortBy;
                               p_sortOrder := Some sortOrder |} in
              if negb (String.eqb search "")
              then respond 200 (TS.searchFarmers st search params)
              else respond 200 (TS.getFarmers st params)
        end
  end.

(** [page ? parseInt(page) : undefined] *)
Definition parseGiven (o : option string) : option Z :=
  match o with
  | Some s => if String.eqb s "" then None else parseInt s
  | None => None
  end.

Definition jsParams (q : ListQuery) : PaginationParams :=
  {| p_page := parseGiven (q_page q); p_limit := parseGiven (q_limit q);
     p_sortBy := q_sortBy q; p_sortOrder := q_sortOrder q |}.

Definition statusOfList (r : ApiResponse) : Z :=
  if success r then 200 else 400.

(** [pages/api/farmers/index.js], [handleGetFarmers] *)
Definition handleGetFarmersJS (q : ListQuery) (st : store) : HttpResponse :=
  let result :=
    if negb (String.eqb (orElse (q_search q) "") "")
    then JS.searchFarmers st (orElse (q_search q) "") (jsParams q)
    else JS.getFarmers st (jsParams q) in
  respond (statusOfList result) result.

(** [pages/api/roasters/index.js], [handleGetRoasters] *)
Definition handleGetRoasters (q : ListQuery) (st : store) : HttpResponse :=
  let tier := orElse (q_tier q) "" in
  let result :=
    if negb (String.eqb tier "")
       && existsb (String.eqb tier) ["basic"; "premium"; "enterprise"]
    then JS.getRoastersByTier st tier
    else if negb (String.eqb (orElse (q_search q) "") "")
    then JS.searchRoasters st (orElse (q_search q) "") (jsParams q)
    else JS.getRoasters st (jsParams q) in
  respond (statusOfList result) result.

(** *** The create routes *)

Definition failWith (e m : string) : ApiResponse :=
  {| success := false; data := None; error := Some e; message := Some m;
     pagination := None |}.

Definition withMessage (r : ApiResponse) (m : string) : ApiResponse :=
  {| success := success r; data := data r; error := error r;
     message := Some m; pagination := pagination r |}.

(** [v?.k] *)
Definition optProp (v : value) (k : string) : result value :=
  if isNullish v then Ok VUndefined else prop v k.

(** [v || d] *)
Definition orValue (v d : value) : value := if truthy v then v else d.

(** [v ? v.trim() : ''] *)
Definition trimOrEmpty (v : value) : result value :=
  if truthy v then trim v else Ok (VStr "").

Definition isArray (v : value) : bool :=
  match v with VArr _ => true | _ => false end.

(** [typeof v !== 'number' || v < lo || v > hi] *)
Definition notNumberIn (v : value) (lo : Q) (hi : option Q) : bool :=
  match v with
  | VNum q =>
      negb (Qle_bool lo q)
      || match hi with Some h => negb (Qle_bool q h) | None => false end
  | _ => true
  end.

Definition emailRegex : string := "^[^\s@]+@[^\s@]+\.[^\s@]+$".

(** The [contactInfo] object the create routes of the JavaScript pages
    build. *)
Definition contactInfoOf (contactInfo email : value) : result value :=
  email' <- trimLower email ;;
  phone <- prop contactInfo "phone" ;;
  phone' <- trimOrEmpty phone ;;
  address <- prop contactInfo "address" ;;
  address' <- trimOrEmpty address ;;
  Ok (VObj [("email", email'); ("phone", phone'); ("address", address')]).

(** The outcome of reading a create body: an answer to send at once, or the
    data to hand to the service. *)
Definition checked := (HttpResponse + doc)%type.

(** [pages/api/roasters/index.js], [handleCreateRoaster]: the checks and the
    roaster data.  (The list [required] of the first answer is left out.) *)
Definition roasterCreateData (reqBody : value) : result checked :=
  name <- prop reqBody "name" ;;
  location <- prop reqBody "location" ;;
  subscriptionTier <- prop reqBody "subscriptionTier" ;;
  roastingCapacity <- prop reqBody "roastingCapacity" ;;
  specialties <- prop reqBody "specialties" ;;
  contactInfo <- prop reqBody "contactInfo" ;;
  email <- optProp contactInfo "email" ;;
  if negb (truthy name) || negb (truthy location) || negb (truthy email)
  then Ok (inl (respond 400
                  (failWith "Missing required fields"
                     "Name, location, and email are required to create a roaster")))
  else if negb (RegExp_test emailRegex email)
  then Ok (inl (respond 400 (failWith "Invalid email format"
                               "Please provide a valid email address")))
  else if truthy subscriptionTier
          && negb (includes ["basic"; "premium"; "enterprise"] subscriptionTier)
  then Ok (inl (respond 400
                  (failWith "Invalid subscription tier"
                     "Subscription tier must be basic, premium, or enterprise")))
  else if negb (isUndefined roastingCapacity)
          && notNumberIn roastingCapacity 0 None
  then Ok (inl (respond 400 (failWith "Invalid roasting capacity"
                               "Roasting capacity must be a positive number")))
  else if truthy specialties && negb (isArray specialties)
  then Ok (inl (respond 400 (failWith "Invalid specialties format"
                               "Specialties must be an array")))
  else
    name' <- trim name ;;
    location' <- trim location ;;
    contactInfo' <- contactInfoOf contactInfo email ;;
    Ok (inr [("name", name'); ("location", location');
             ("subscriptionTier", orValue subscriptionTier (VStr "basic"));
             ("roastingCapacity", orValue roastingCapacity (VNum 0));
             ("specialties", if isArray specialties then specialties else VArr []);
             ("contactInfo", contactInfo');
             ("isActive", VBool true)]).

(** [pages/api/farmers/index.js], [handleCreateFarmer] *)
Definition farmerCreateData (reqBody : value) : result checked :=
  name <- prop reqBody "name" ;;
  location <- prop reqBody "location" ;;
  farmSize <- prop reqBody "farmSize" ;;
  coffeeVarieties <- prop reqBody "coffeeVarieties" ;;
  certifications <- prop reqBody "certifications" ;;
  contactInfo <- prop reqBody "contactInfo" ;;
  rating <- prop reqBody "rating" ;;
  email <- optProp contactInfo "email" ;;
  if negb (truthy name) || negb (truthy location) || negb (truthy email)
  then Ok (inl (respond 400
                  (failWith "Missing required fields"
                     "Name, location, and email are required to create a farmer")))
  else if negb (RegExp_test emailRegex email)
  then Ok (inl (respond 400 (failWith "Invalid email format"
                               "Please provide a valid email address")))
  else if negb (isUndefined farmSize) && notNumberIn farmSize 0 None
  then Ok (inl (respond 400 (failWith "Invalid farm size"
                               "Farm size must be a positive number")))
  else if negb (isUndefined rating) && notNumberIn rating 0 (Some 5%Q)
  then Ok (inl (respond 400 (failWith "Invalid rating"
                               "Rating must be a number between 0 and 5")))
  else
    name' <- trim name ;;
    location' <- trim location ;;
    contactInfo' <- contactInfoOf contactInfo email ;;
    Ok (inr [("name", name'); ("location", location');
             ("farmSize", orValue farmSize (VNum 0));
             ("coffeeVarieties",
              if isArray coffeeVarieties then coffeeVarieties else VArr []);
             ("certifications",
              if isArray certifications then certifications else VArr []);
             ("contactInfo", contactInfo');
             ("rating", orValue rating (VNum 0));
             ("isActive", VBool true)]).

Definition createDataOf (k : kind) : value -> result checked :=
  match k with
  | Farmer => farmerCreateData
  | Roaster => roasterCreateData
  end.

(** The create handlers of [pages/api/farmers/index.js] and
    [pages/api/roasters/index.js]. *)
Definition handleCreate (k : kind) (reqBody : value) (st : store) (now : Z)
           (fresh : string) : HttpResponse * store :=
  match createDataOf k reqBody with
  | Throw =>
      (respond 500
         (failWith ("Failed to create " ++ noun k)
            ("An error occurred while creating the " ++ noun k ++ " record")),
       st)
  | Ok (inl answer) => (answer, st)
  | Ok (inr data) =>
      let '(result, st') := JS.create k st data now fresh in
      if success result
      then (respond 201 (withMessage result (Noun k ++ " created successfully")),
            st')
      else (respond 400 result, st')
  end.

Definition handleCreateRoaster := handleCreate Roaster.
Definition handleCreateFarmerJS := handleCreate Farmer.

(** [pages/api/farmers/index.ts], [handleCreateFarmer].  Past its checks the
    handler reads the undeclared [validImages]: the [ReferenceError] is
    caught and answered with 500, and the service is never called. *)
Definition handleCreateFarmer (reqBody : value) (st : store)
  : HttpResponse * store :=
  if negb (truthy reqBody)
  then (respond 400 (fail "Request body is required"), st)
  else
    match
      (name <- prop reqBody "name" ;;
       farmName <- prop reqBody "farmName" ;;
       location <- prop reqBody "location" ;;
       coffeeTypes <- prop reqBody "coffeeTypes" ;;
       contact <- prop reqBody "contact" ;;
       description <- prop reqBody "description" ;;
       if negb (truthy name) || negb (truthy farmName) || negb (truthy location)
          || negb (truthy coffeeTypes) || negb (truthy contact)
          || negb (truthy description)
       then Ok (respond 400
                  (fail "Missing required fields: name, farmName, location, coffeeTypes, contact, description"))
       else
         state <- prop location "state" ;;
         city <- prop location "city" ;;
         if negb (truthy state) || negb (truthy city)
         then Ok (respond 400 (fail "Location must include state and city"))
         else
           email <- prop contact "email" ;;
           if negb (truthy email)
           then Ok (respond 400 (fail "Contact must include email"))
           else
             match coffeeTypes with
             | VArr (_ :: _) => Throw
             | _ => Ok (respond 400
                          (fail "Coffee types must be a non-empty array"))
             end)
    with
    | Ok answer => (answer, st)
    | Throw => (respond 500 (fail "Failed to create farmer"), st)
    end.

(** *** [pages/api/roasters/index.ts] *)

(** [handleGetRoasters] of the TypeScript roasters route *)
Definition handleGetRoastersTS (q : ListQuery) (st : store) : HttpResponse :=
  let pageNum := parseInt10 (orElse (q_page q) "1") in
  let limitNum := parseInt10 (orElse (q_limit q) "10") in
  let sortBy := orElse (q_sortBy q) "createdAt" in
  let sortOrder := orElse (q_sortOrder q) "desc" in
  let search := orElse (q_search q) "" in
  let tier := orElse (q_tier q) "" in
  match pageNum with
  | None => respond 400 (fail "Invalid page number")
  | Some pg =>
      if pg <? 1 then respond 400 (fail "Invalid page number")
      else
        match limitNum with
        | None => respond 400 (fail "Invalid limit (must be between 1 and 100)")
        | Some lim =>
            if (lim <? 1) || (100 <? lim)
            then respond 400 (fail "Invalid limit (must be between 1 and 100)")
            else
              let params := {| p_page := Some pg; p_limit := Some lim;
                               p_sortBy := Some sortBy;
                               p_sortOrder := Some sortOrder |} in
              if negb (String.eqb tier "")
                 && existsb (String.eqb tier) ["basic"; "premium"; "enterprise"]
              then respond 200 (TS.getRoastersByTier st tier)
              else if negb (String.eqb search "")
              then respond 200 (TS.searchRoasters st search params)
              else respond 200 (TS.getRoasters st params)
        end
  end.

(** [handleCreateRoaster] of the TypeScript roasters route: the checks and
    the roaster data. *)
Definition roasterCreateDataTS (reqBody : value) : result checked :=
  businessName <- prop reqBody "businessName" ;;
  ownerName <- prop reqBody "ownerName" ;;
  location <- prop reqBody "location" ;;
  contact <- prop reqBody "contact" ;;
  businessType <- prop reqBody "businessType" ;;
  description <- prop reqBody "description" ;;
  subscriptionTier <- prop reqBody "subscriptionTier" ;;
  if negb (truthy businessName) || negb (truthy ownerName)
     || negb (truthy location) || negb (truthy contact)
     || negb (truthy businessType) || negb (truthy description)
  then Ok (inl (respond 400
                  (fail "Missing required fields: businessName, ownerName, location, contact, businessType, description")))
  else
    city <- prop location "city" ;;
    region <- prop location "region" ;;
    address <- prop location "address" ;;
    if negb (truthy city) || negb (truthy region) || negb (truthy address)
    then Ok (inl (respond 400
                    (fail "Location must include city, region, and address")))
    else
      email <- prop contact "email" ;;
      phone <- prop contact "phone" ;;
      if negb (truthy email) || negb (truthy phone)
      then Ok (inl (respond 400 (fail "Contact must include email and phone")))
      else if negb (includes ["roastery"; "cafe"; "both"] businessType)
      then Ok (inl (respond 400
                      (fail "Business type must be one of: roastery, cafe, both")))
      else if negb (includes ["basic"; "premium"; "enterprise"] subscriptionTier)
      then Ok (inl (respond 400
                      (fail "Subscription tier must be one of: basic, premium, enterprise")))
      else
        businessName' <- trim businessName ;;
        ownerName' <- trim ownerName ;;
        city' <- trim city ;;
        region' <- trim region ;;
        address' <- trim address ;;
        email' <- trimLower email ;;
        phone' <- trim phone ;;
        website <- prop contact "website" ;;
        website' <- optTrim website ;;
        description' <- trim description ;;
        Ok (inr [("businessName", businessName'); ("ownerName", ownerName');
                 ("location",
                  VObj [("city", city'); ("region", region');
                        ("address", address')]);
                 ("contact",
                  VObj [("email", email'); ("phone", phone');
                        ("website", orValue website' VUndefined)]);
                 ("businessType", businessType);
                 ("description", description');
                 ("subscriptionTier", subscriptionTier)]).

Definition handleCreateRoasterTS (reqBody : value) (st : store) (now : Z)
           (fresh : string) : HttpResponse * store :=
  if negb (truthy reqBody)
  then (respond 400 (fail "Request body is required"), st)
  else
    match roasterCreateDataTS reqBody with
    | Throw => (respond 500 (fail "Failed to create roaster"), st)
    | Ok (inl answer) => (answer, st)
    | Ok (inr roasterData) =>
        let '(result, st') := TS.createRoaster st roasterData now fresh in
        (respond (if success result then 201 else 400) result, st')
    end.

(** *** The default exports of the list-and-create routes *)

Definition indexHandler (method : string) (st : store)
           (onGet : HttpResponse) (onPost : HttpResponse * store)
  : HttpResponse * store :=
  if String.eqb method "OPTIONS" then (respondEmpty 200, st)
  else if String.eqb method "GET" then (onGet, st)
  else if String.eqb method "POST" then onPost
  else (respond 405 (fail ("Method " ++ method ++ " Not Allowed")), st).

(** [pages/api/farmers/index.ts] *)
Definition farmersIndex (method : string) (q : ListQuery) (reqBody : value)
           (st : store) : HttpResponse * store :=
  indexHandler method st (handleGetFarmers q st) (handleCreateFarmer reqBody st).

(** [pages/api/roasters/index.ts] *)
Definition roastersIndex (method : string) (q : ListQuery) (reqBody : value)
           (st : store) (now : Z) (fresh : string) : HttpResponse * store :=
  indexHandler method st (handleGetRoastersTS q st)
               (handleCreateRoasterTS reqBody st now fresh).

(** [pages/api/farmers/index.js] *)
Definition farmersIndexJS (method : string) (q : ListQuery) (reqBody : value)
           (st : store) (now : Z) (fresh : string) : HttpResponse * store :=
  indexHandler method st (handleGetFarmersJS q st)
               (handleCreateFarmerJS reqBody st now fresh).

(** [pages/api/roasters/index.js] *)
Definition roastersIndexJS (method : string) (q : ListQuery) (reqBody : value)
           (st : store) (now : Z) (fresh : string) : HttpResponse * store :=
  indexHandler method st (handleGetRoasters q st)
               (handleCreateRoaster reqBody st now fresh).

End Adapters.
End Routes.

(** ** The connection manager ([lib/mongodb.ts], [lib/mongodb.js])

    Calls run one after the other.  [up] tells whether the store answers
    during the call; a connection attempt made in the call is settled by it.
    A client is named by the number of the attempt that opened it, a
    database handle by its client; [attempts] counts the calls of
    [connect]. *)

Module Connection.

Inductive promise : Type :=
| Fulfilled (client : nat)
| Rejected.

Record cache : Type := {
  cachedClient : option nat;
  cachedDb : option nat;
  mongoClientPromise : option promise;
  mongoDbPromise : option nat;
  attempts : nat
}.

Definition empty : cache :=
  {| cachedClient := None; cachedDb := None; mongoClientPromise := None;
     mongoDbPromise := None; attempts := 0 |}.

(** [client.connect()] / [MongoClient.connect(uri, options)] *)
Definition connect (up : bool) (c : cache) : promise :=
  if up then Fulfilled (attempts c) else Rejected.

Definition await (p : promise) : result nat :=
  match p with
  | Fulfilled cl => Ok cl
  | Rejected => Throw
  end.

Definition setClient (c : cache) (cl : option nat) : cache :=
  {| cachedClient := cl; cachedDb := cachedDb c;
     mongoClientPromise := mongoClientPromise c;
     mongoDbPromise := mongoDbPromise c; attempts := attempts c |}.

Definition setDb (c : cache) (db : option nat) : cache :=
  {| cachedClient := cachedClient c; cachedDb := db;
     mongoClientPromise := mongoClientPromise c;
     mongoDbPromise := mongoDbPromise c; attempts := attempts c |}.

Definition setClientPromise (c : cache) (p : option promise) : cache :=
  {| cachedClient := cachedClient c; cachedDb := cachedDb c;
     mongoClientPromise := p;
     mongoDbPromise := mongoDbPromise c; attempts := attempts c |}.

Definition setDbPromise (c : cache) (p : option nat) : cache :=
  {| cachedClient := cachedClient c; cachedDb := cachedDb c;
     mongoClientPromise := mongoClientPromise c;
     mongoDbPromise := p; attempts := attempts c |}.

Definition countAttempt (c : cache) : cache :=
  {| cachedClient := cachedClient c; cachedDb := cachedDb c;
     mongoClientPromise := mongoClientPromise c;
     mongoDbPromise := mongoDbPromise c; attempts := S (attempts c) |}.

(** *** [lib/mongodb.ts] *)
Module TS.

Definition connectToClient (up : bool) (c : cache) : result nat * cache :=
  match cachedClient c with
  | Some cl => (Ok cl, c)
  | None =>
      match mongoClientPromise c with
      | Some p =>
          match await p with
          | Ok cl => (Ok cl, setClient c (Some cl))
          | Throw => (Throw, c)
          end
      | None =>
          let p := connect up c in
          let c := countAttempt (setClientPromise c (Some p)) in
          match await p with
          | Ok cl => (Ok cl, setClient c (Some cl))
          | Throw => (Throw, c)
          end
      end
  end.

Definition connectToDatabase (up : bool) (c : cache) : result nat * cache :=
  match cachedDb c with
  | Some db => (Ok db, c)
  | None =>
      match mongoDbPromise c with
      | Some db => (Ok db, setDb c (Some db))
      | None =>
          match connectToClient up c with
          | (Ok cl, c) => (Ok cl, setDb (setDbPromise c (Some cl)) (Some cl))
          | (Throw, c) => (Throw, c)
          end
      end
  end.

(** The handle is the database the collection is taken from. *)
Definition getCollection (up : bool) (c : cache) : result nat * cache :=
  connectToDatabase up c.

(** [closeConnection]: [closes] tells whether [client.close()] returns.
    The stored promises are left as they are. *)
Definition closeConnection (closes : bool) (c : cache) : result unit * cache :=
  match cachedClient c with
  | Some _ =>
      if closes then (Ok tt, setDb (setClient c None) None) else (Throw, c)
  | None => (Ok tt, c)
  end.

End TS.

(** *** [lib/mongodb.js] *)
Module JS.

Definition connectToClient (up : bool) (c : cache) : result nat * cache :=
  match cachedClient c with
  | Some cl => (Ok cl, c)
  | None =>
      let c := match mongoClientPromise c with
               | Some _ => c
               | None => countAttempt (setClientPromise c (Some (connect up c)))
               end in
      match mongoClientPromise c with
      | Some p =>
          match await p with
          | Ok cl => (Ok cl, setClient c (Some cl))
          | Throw => (Throw, setClientPromise c None)
          end
      | None => (Throw, c)
      end
  end.

Definition connectToDatabase (up : bool) (c : cache) : result nat * cache :=
  match cachedDb c with
  | Some db => (Ok db, c)
  | None =>
      let '(r, c) :=
        match mongoDbPromise c with
        | Some _ => (Ok tt, c)
        | None =>
            match connectToClient up c with
            | (Ok cl, c) => (Ok tt, setDbPromise c (Some cl))
            | (Throw, c) => (Throw, c)
            end
        end in
      match r, mongoDbPromise c with
      | Ok _, Some db =>
          let c := setDb c (Some db) in
          if up then (Ok db, c)
          else (Throw, setDb (setDbPromise c None) None)
      | _, _ => (Throw, c)
      end
  end.

Definition getCollection (up : bool) (c : cache) : result nat * cache :=
  connectToDatabase up c.

(** [closeConnection]: the client, the database and both promises are
    cleared when [client.close()] returns. *)
Definition closeConnection (closes : bool) (c : cache) : result unit * cache :=
  match cachedClient c with
  | Some _ =>
      if closes
      then (Ok tt,
            setDbPromise (setClientPromise (setDb (setClient c None) None) None)
                         None)
      else (Throw, c)
  | None => (Ok tt, c)
  end.

(** [isConnected]: connect, then ping; any failure is [false]. *)
Definition isConnected (up : bool) (c : cache) : bool * cache :=
  match connectToDatabase up c with
  | (Ok _, c') => (up, c')
  | (Throw, c') => (false, c')
  end.

End JS.

End Connection.

(** ** The health route ([pages/api/health.ts])

    The figures the runtime supplies for the answer. *)

Record HealthEnv : Type := {
  timestamp : string;
  uptime : Q;
  NODE_ENV : option string;
  npm_package_version : option string;
  dbElapsed : Z;
  totalElapsed : Z;
  heapUsedMB : Z;
  heapTotalMB : Z;
  externalMB : Z
}.

Module Health.

(** [process.env.X || d] *)
Definition envOr (o : option string) (d : string) : string :=
  match o with
  | Some s => if String.eqb s "" then d else s
  | None => d
  end.

Definition healthData (env : HealthEnv) (connected : bool) : value :=
  VObj [("status", VStr "healthy");
        ("timestamp", VStr (timestamp env));
        ("uptime", VNum (uptime env));
        ("environment", VStr (envOr (NODE_ENV env) "development"));
        ("version", VStr (envOr (npm_package_version env) "1.0.0"));
        ("checks",
         VObj [("database",
                VObj [("status",
                       VStr (if connected then "connected" else "error"));
                      ("responseTime",
                       VNum (inject_Z (if connected then dbElapsed env else 0)));
                      ("message",
                       VStr (if connected
                             then "Database connection successful"
                             else "Database connection failed"))])]);
        ("responseTime", VNum (inject_Z (totalElapsed env)));
        ("memory",
         VObj [("used", VNum (inject_Z (heapUsedMB env)));
               ("total", VNum (inject_Z (heapTotalMB env)));
               ("external", VNum (inject_Z (externalMB env)))])].

(** The route imports [connectToDatabase] from [lib/mongodb]; the handler
    is read over the function the import resolves to. *)
Definition handler
           (connectToDatabase : bool -> Connection.cache
                                -> result nat * Connection.cache)
           (method : string) (env : HealthEnv) (up : bool)
           (c : Connection.cache) : HttpResponse * Connection.cache :=
  if String.eqb method "OPTIONS" then (respondEmpty 200, c)
  else if negb (String.eqb method "GET")
  then (respond 405 (fail ("Method " ++ method ++ " Not Allowed")), c)
  else
    let '(r, c') := connectToDatabase up c in
    let isHealthy := match r with Ok _ => true | Throw => false end in
    (respond (if isHealthy then 200 else 503)
       {| success := isHealthy;
          data := Some (healthData env isHealthy);
          error := None;
          message := Some (if isHealthy then "All systems operational"
                           else "Some systems are experiencing issues");
          pagination := None |},
     c').

End Health.

(** ** A reference platform

    An executable platform for the examples: strings are read as ASCII
    (trimming and case folding leave other bytes alone), numerals are plain
    decimals, an [ObjectId] is written as 24 hexadecimal digits, and the
    store's regular expressions are the patterns made of literal characters
    and [.] (any character but a line feed), letters compared without
    regard to case under the option [i]; documents with equal sort keys
    come in natural order; [RegExp.test] knows the e-mail pattern of the
    create routes, on strings. *)

Module Reference.

Definition between (lo hi : nat) (c : ascii) : bool :=
  (Nat.leb lo (nat_of_ascii c) && Nat.leb (nat_of_ascii c) hi)%bool.

Definition lowerChar (c : ascii) : ascii :=
  if between 65 90 c then ascii_of_nat (nat_of_ascii c + 32) else c.

Fixpoint lower (s : string) : string :=
  match s with
  | EmptyString => EmptyString
  | String c s' => String (lowerChar c) (lower s')
  end.

Definition isSpace (c : ascii) : bool :=
  (between 9 13 c || Ascii.eqb c " "%char)%bool.

Fixpoint trimStart (s : string) : string :=
  match s with
  | EmptyString => EmptyString
  | String c s' => if isSpace c then trimStart s' else s
  end.

Fixpoint trimEnd (s : string) : string :=
  match s with
  | EmptyString => EmptyString
  | String c s' =>
      match trimEnd s' with
      | EmptyString => if isSpace c then EmptyString else String c EmptyString
      | t => String c t
      end
  end.

Definition trim (s : string) : string := trimEnd (trimStart s).

Definition isDigit (c : ascii) : bool := between 48 57 c.

Definition isHex (c : ascii) : bool :=
  (isDigit c || between 97 102 c || between 65 70 c)%bool.

Fixpoint allChars (p : ascii -> bool) (s : string) : bool :=
  match s with
  | EmptyString => true
  | String c s' => (p c && allChars p s')%bool
  end.

Definition isValid (s : string) : bool :=
  (Nat.eqb (String.length s) 24 && allChars isHex s)%bool.

(** The leading digits of [s], read in base ten after [acc]; the count of
    digits read and the rest of the string come with the value. *)
Fixpoint digits (acc : Z) (n : nat) (s : string) : Z * nat * string :=
  match s with
  | String c s' =>
      if isDigit c
      then digits (10 * acc + Z.of_nat (nat_of_ascii c - 48)) (S n) s'
      else (acc, n, s)
  | EmptyString => (acc, n, s)
  end.

Definition signed (s : string) : Z * string :=
  match s with
  | String "-"%char s' => (-1, s')
  | String "+"%char s' => (1, s')
  | _ => (1, s)
  end.

Definition readInt (s : string) : option Z :=
  let '(sg, s1) := signed (trimStart s) in
  let '(v, n, _) := digits 0 0 s1 in
  match n with
  | O => None
  | _ => Some (sg * v)
  end.

Definition readDecimal (s : string) : option Q :=
  let '(sg, s1) := signed (trimStart s) in
  let '(v, n, rest) := digits 0 0 s1 in
  let '(f, m, _) :=
    match rest with
    | String "."%char r => digits 0 0 r
    | _ => (0, O, rest)
    end in
  match n, m with
  | O, O => None
  | _, _ =>
      Some (inject_Z sg *
            (inject_Z v + Qmake f (Pos.of_nat (Nat.pow 10 m))))%Q
  end.

Definition readNumber (v : value) : option Q :=
  match v with
  | VNum q => Some q
  | VStr s => readDecimal s
  | _ => None
  end.

(** The e-mail pattern of the create routes: no white space and no [@] but
    the one between a local part and a domain, each non-empty, and a dot
    inside the domain. *)
Definition emailPattern : string := "^[^\s@]+@[^\s@]+\.[^\s@]+$".

Definition isWord (c : ascii) : bool :=
  (negb (isSpace c) && negb (Ascii.eqb c "@"%char))%bool.

Fixpoint dotThenMore (s : string) : bool :=
  match s with
  | EmptyString => false
  | String c s' =>
      ((Ascii.eqb c "."%char && negb (String.eqb s' "")) || dotThenMore s')%bool
  end.

Fixpoint emailFrom (seenLocal : bool) (s : string) : bool :=
  match s with
  | EmptyString => false
  | String c s' =>
      if Ascii.eqb c "@"%char
      then (seenLocal && allChars isWord s'
            && match s' with
               | EmptyString => false
               | String _ r => dotThenMore r
               end)%bool
      else (isWord c && emailFrom true s')%bool
  end.

Definition test (pattern : string) (v : value) : bool :=
  match v with
  | VStr s => (String.eqb pattern emailPattern && emailFrom false s)%bool
  | _ => false
  end.

Definition isMeta (c : ascii) : bool :=
  existsb (Ascii.eqb c)
    ["\"%char; "^"%char; "$"%char; "."%char; "|"%char; "?"%char; "*"%char;
     "+"%char; "("%char; ")"%char; "["%char; "]"%char; "{"%char; "}"%char].

Definition isDot (c : ascii) : bool := Ascii.eqb c "."%char.

Definition isLineFeed (c : ascii) : bool := Ascii.eqb c "010"%char.

Definition valid (q : string) : bool :=
  allChars (fun c => negb (isMeta c) || isDot c)%bool q.

(** The pattern [q] matches a prefix of [s], characters compared after
    [fold]. *)
Fixpoint matchHere (fold : ascii -> ascii) (q s : string) : bool :=
  match q, s with
  | EmptyString, _ => true
  | String _ _, EmptyString => false
  | String c q', String d s' =>
      ((if isDot c then negb (isLineFeed d)
        else Ascii.eqb (fold c) (fold d))
       && matchHere fold q' s')%bool
  end.

(** The pattern [q] matches somewhere in [s]. *)
Fixpoint search (fold : ascii -> ascii) (q s : string) : bool :=
  (matchHere fold q s
   || match s with
      | EmptyString => false
      | String _ s' => search fold q s'
      end)%bool.

Fixpoint hasOption (c : ascii) (options : string) : bool :=
  match options with
  | EmptyString => false
  | String o options' => (Ascii.eqb o c || hasOption c options')%bool
  end.

Definition regexSearch (q options s : string) : bool :=
  search (if hasOption "i"%char options then lowerChar else fun c => c) q s.

#[export] Instance platform : Platform := {|
  String_trim := trim;
  String_toLowerCase := lower;
  parseFloat := readNumber;
  parseInt := readInt;
  parseInt10 := readInt;
  ObjectId_isValid := isValid;
  ObjectId_new := lower;
  regex_valid := valid;
  regex_search := regexSearch;
  RegExp_test := test;
  tie_order := fun _ _ _ _ _ _ => []
|}.

End Reference.

(** ** Case-insensitive substring search, as the specification words it *)

Fixpoint ciPrefix (q s : string) : bool :=
  match q, s with
  | EmptyString, _ => true
  | String _ _, EmptyString => false
  | String c q', String d s' =>
      (Ascii.eqb (Reference.lowerChar c) (Reference.lowerChar d)
       && ciPrefix q' s')%bool
  end.

Fixpoint ciSubstring (q s : string) : bool :=
  (ciPrefix q s
   || match s with
      | EmptyString => false
      | String _ s' => ciSubstring q s'
      end)%bool.
(** ** Vocabulary of the statements *)

(** The envelope of an empty page [p] of a list of [tot] records. *)
Definition beyondPage (p lim tot : Z) : ApiResponse :=
  {| success := true; data := Some (VArr []); error := None; message := None;
     pagination := Some {| page := p; limit := lim; total := tot;
                           totalPages := ceilDiv tot lim;
                           hasNext := false; hasPrev := 1 <? p |} |}.

(** A parsed page number the farmers route refuses: not a number, or below 1. *)
Definition badPage (o : option Z) : bool :=
  match o with
  | None => true
  | Some p => p <? 1
  end.

(** A parsed limit the farmers route refuses: not a number, or outside
    [1, 100]. *)
Definition badLimit (o : option Z) : bool :=
  match o with
  | None => true
  | Some l => (l <? 1) || (100 <? l)
  end.

(** The pagination the JavaScript services work with. *)
Definition clamped (params : PaginationParams) : PaginationParams :=
  {| p_page := Some (JS.orNum (p_page params) 1);
     p_limit := Some (Z.min (JS.orNum (p_limit params) 10) 100);
     p_sortBy := p_sortBy params;
     p_sortOrder := p_sortOrder params |}.

(** ** Sample data for the examples *)

Module Sample.

Definition idA : string := "507f1f77bcf86cd799439011".
Definition idB : string := "507f1f77bcf86cd799439012".

Definition roasterA : doc :=
  [("_id", VOid idA); ("businessName", VStr "Flight Coffee");
   ("location", VObj [("city", VStr "Wellington"); ("region", VStr "Wellington")]);
   ("businessType", VStr "roastery"); ("subscriptionTier", VStr "basic");
   ("isActive", VBool true); ("totalOrders", VNum 5);
   ("createdAt", VDate 100); ("updatedAt", VDate 100)].

Definition roasterB : doc :=
  [("_id", VOid idB); ("businessName", VStr "Little Cup");
   ("location", VObj [("city", VStr "Auckland"); ("region", VStr "Auckland")]);
   ("businessType", VStr "cafe"); ("subscriptionTier", VStr "premium");
   ("isActive", VBool true); ("totalOrders", VNum 0);
   ("createdAt", VDate 200); ("updatedAt", VDate 200)].

Definition roasters : Store.store :=
  {| Store.reachable := true; Store.docs := [roasterA; roasterB] |}.

Definition farmerA : doc :=
  [("_id", VOid idA); ("name", VStr "Ana"); ("location", VStr "São Paulo");
   ("coffeeVarieties", VArr [VStr "Bourbon"]); ("certifications", VArr []);
   ("isActive", VBool true); ("createdAt", VDate 100); ("updatedAt", VDate 100)].

Definition farmers : Store.store :=
  {| Store.reachable := true; Store.docs := [farmerA] |}.

(** A second farmer, as the JavaScript pages store them. *)
Definition farmerB : doc :=
  [("_id", VOid idB); ("name", VStr "Bia"); ("location", VStr "Minas Gerais");
   ("coffeeVarieties", VArr [VStr "Catuai"]); ("certifications", VArr []);
   ("isActive", VBool true); ("createdAt", VDate 200); ("updatedAt", VDate 200)].

Definition twoFarmers : Store.store :=
  {| Store.reachable := true; Store.docs := [farmerA; farmerB] |}.

(** A farmer as the TypeScript pages store them. *)
Definition farmerT : doc :=
  [("_id", VOid idA); ("name", VStr "Ana"); ("farmName", VStr "Boa Vista");
   ("location",
    VObj [("state", VStr "SP"); ("city", VStr "Santos");
          ("coordinates", VObj [("lat", VNum (-24)); ("lng", VNum (-46))])]);
   ("coffeeTypes", VArr [VStr "Bourbon"]);
   ("description", VStr "Shade grown");
   ("isActive", VBool true); ("rating", VNum 4); ("totalOrders", VNum 3);
   ("createdAt", VDate 100); ("updatedAt", VDate 100)].

Definition farmersT : Store.store :=
  {| Store.reachable := true; Store.docs := [farmerT] |}.

(** A body for the PUT of [pages/api/farmers/[id].ts] that names the city
    only. *)
Definition putCity : value :=
  VObj [("location", VObj [("city", VStr " Campinas ")])].

(** The id the store gives to the next record. *)
Definition idC : string := "507f1f77bcf86cd799439013".

(** A body for the create route of [pages/api/roasters/index.js]. *)
Definition newRoaster : value :=
  VObj [("name", VStr " Havana Coffee ");
        ("location", VStr "Wellington");
        ("subscriptionTier", VStr "premium");
        ("contactInfo", VObj [("email", VStr "Hello@Havana.nz")])].

(** A body for the create route of [pages/api/roasters/index.ts]. *)
Definition newRoasterTS : value :=
  VObj [("businessName", VStr "Havana Coffee");
        ("ownerName", VStr "Geoff");
        ("location", VObj [("city", VStr "Wellington");
                           ("region", VStr "Wellington");
                           ("address", VStr "163 Tory Street")]);
        ("contact", VObj [("email", VStr "Hello@Havana.nz");
                          ("phone", VStr "04 384 7041")]);
        ("businessType", VStr "roastery");
        ("description", VStr "Roasters since 1989");
        ("subscriptionTier", VStr "premium");
        ("isActive", VBool false);
        ("totalOrders", VNum 12)].

(** A body for the PUT of [pages/api/roasters/[id].ts]. *)
Definition putBody : value :=
  VObj [("description", VStr " Roasters of the capital ");
        ("subscriptionTier", VStr "enterprise");
        ("totalOrders", VNum 99)].

(** The figures of one health check. *)
Definition env : HealthEnv :=
  {| timestamp := "2025-01-01T00:00:00.000Z"; uptime := 12;
     NODE_ENV := Some "production"; npm_package_version := None;
     dbElapsed := 3; totalElapsed := 4;
     heapUsedMB := 50; heapTotalMB := 80; externalMB := 2 |}.

Definition noParams : PaginationParams :=
  {| p_page := None; p_limit := None; p_sortBy := None; p_sortOrder := None |}.

Definition pageOf (p l : Z) : PaginationParams :=
  {| p_page := Some p; p_limit := Some l; p_sortBy := None; p_sortOrder := None |}.

End Sample.

(** The rows of a list answer. *)
Definition rowsOf (r : ApiResponse) : list value :=
  match data r with
  | Some (VArr rows) => rows
  | _ => []
  end.

(** The ids of the stored records, in store order. *)
Definition idsOf (st : Store.store) : list (option value) :=
  map (getField "_id") (Store.docs st).

(** The record's [subscriptionTier] is the string [tier]. *)
Definition hasTier (tier : string) (d : doc) : bool :=
  match getField "subscriptionTier" d with
  | Some (VStr s) => String.eqb s tier
  | _ => false
  end.

(** The tiers a subscription can have. *)
Definition tiers : list string := ["basic"; "premium"; "enterprise"].

(** Every value an update object has under [key] passes [good]. *)
Definition typedAt (key : string) (good : value -> bool) (u : doc) : Prop :=
  forall v, getField key u = Some v -> good v = true.

(** A number between 0 and 5. *)
Definition ratingInRange (v : value) : bool :=
  match v with
  | VNum r => Qle_bool 0 r && Qle_bool r 5
  | _ => false
  end.

(** A page of at least 1, or none, and a limit between 1 and 100, or none. *)
Definition pageInRange (params : PaginationParams) : bool :=
  match p_page params with None => true | Some p => 1 <=? p end
  && match p_limit params with
     | None => true
     | Some l => (1 <=? l) && (l <=? 100)
     end.

(** No sort at all, or a sort field with the order [asc] or [desc]. *)
Definition sortSpelledOut (params : PaginationParams) : bool :=
  match p_sortBy params, p_sortOrder params with
  | None, None => true
  | Some s, Some o =>
      negb (String.eqb s "") && (String.eqb o "asc" || String.eqb o "desc")
  | _, _ => false
  end.

(** The number of active records. *)
Definition activeCount (st : Store.store) : Z :=
  Z.of_nat (length (List.filter Store.isActive (Store.docs st))).

Module Spec.
Import Store.
Open Scope list_scope.

(** The fields a PUT body can reach, by resource kind. *)
Definition updatable (k : kind) : list string :=
  match k with
  | Farmer => ["name"; "farmName"; "location"; "coffeeTypes"; "certifications";
               "contact"; "description"; "images"; "isActive"; "rating"]
  | Roaster => ["businessName"; "ownerName"; "location"; "contact";
                "businessType"; "description"; "subscriptionTier"; "isActive"]
  end.

(** The [isActive] a PUT body asks for: [Boolean(body.isActive)] when the
    body has the field. *)
Definition isActiveOf (reqBody : value) : option value :=
  match prop reqBody "isActive" with
  | Ok v => if isUndefined v then None else Some (VBool (truthy v))
  | Throw => None
  end.

(** An update object with distinct keys among [allowed], whose [isActive]
    is [a]. *)
Definition shaped (allowed : list string) (a : option value) (u : doc) : Prop :=
  NoDup (keys u) /\ incl (keys u) allowed /\ getField "isActive" u = a.

(** A key the store reads as the name of a top-level field: not [_id],
    which the store does not let an update change, no dotted path and no
    operator. *)
Definition fieldName (key : string) : bool :=
  negb (String.eqb key "_id")
  && Reference.allChars
       (fun c => negb (Ascii.eqb c "."%char) && negb (Ascii.eqb c "$"%char)) key.

(** The record after the update of the services: [$set] of the data and of
    [updatedAt]. *)
Definition updated (d u : doc) (now : Z) : doc :=
  assign d (bsonDoc (setField "updatedAt" (VDate now) u)).

(** The record [d] after [$set: u] at time [now], field by field. *)
Definition merged (d u : doc) (now : Z) (d' : doc) : Prop :=
  forall key,
    getField key d' =
    if String.eqb key "updatedAt" then Some (VDate now)
    else match getField key u with
         | Some v => Some (bson v)
         | None => getField key d
         end.

(** The fields the PUT routes trim. *)
Definition trimmed (k : kind) : list string :=
  match k with
  | Farmer => ["name"; "farmName"; "description"]
  | Roaster => ["businessName"; "ownerName"; "description"]
  end.

(** What a trimming statement leaves in the update object for the value
    [x] of the body: the trimmed string, or nothing when the body has
    nothing there. *)
Definition trimmedOf {P : Platform} (x : value) : option value :=
  match x with
  | VStr s => Some (VStr (String_trim s))
  | _ => None
  end.

Definition trimmedAt {P : Platform} (reqBody : value) (key : string)
  : option value :=
  match prop reqBody key with
  | Ok x => trimmedOf x
  | Throw => None
  end.

(** The update document of the delete operations. *)
Definition deleteDoc (now : Z) : doc :=
  [("isActive", VBool false); ("updatedAt", VDate now)].

Definition softDeleted (now : Z) (d : doc) : doc :=
  assign d (bsonDoc (deleteDoc now)).

(** What the delete of either service does on a reachable store, for a
    well-formed id. *)
Definition deleteOutcome (k : kind) (st : store) (oid : string) (now : Z)
           (out : ApiResponse * store) : Prop :=
  ((forall x, In x (docs st) -> hasId oid x = false)
   /\ out = (fail (Noun k ++ " not found")%string, st))
  \/ (exists pre d post,
        docs st = pre ++ d :: post
        /\ (forall x, In x pre -> hasId oid x = false)
        /\ hasId oid d = true
        /\ out = (ok deleted (Some (Noun k ++ " deleted successfully")%string),
                  withDocs st (pre ++ softDeleted now d :: post))).

(** The matching rule of the specification: the record is active and the
    query occurs, whatever the case of its letters, in a text at one of the
    paths. *)
Definition hit (paths : list (list string)) (q : string) (d : doc) : bool :=
  isActive d
  && existsb (fun p => existsb (ciSubstring q) (texts p d)) paths.

(** What the search filter of the services selects: the record is active
    and the store's search of the pattern [q], under the option [i], finds
    it in a text at one of the paths. *)
Definition selected {P : Platform} (paths : list (list string)) (q : string)
           (d : doc) : bool :=
  isActive d
  && existsb (fun p => existsb (regex_search q "i") (texts p d)) paths.

(** [rows] is what a cursor with this sort, skip and limit may hand out of
    the documents [candidates]: the documents in the order of their sort
    keys, those with equal keys in some order, then the skip and the
    limit. *)
Definition isPage (path : list string) (dir : Z) (s n : Z)
           (candidates rows : list doc) : Prop :=
  exists all,
    Permutation all candidates
    /\ Sorted (fun a b => before path dir a b = true) all
    /\ rows = limit n (skipn (Z.to_nat s) all).

(** No two different documents of the list have equal sort keys. *)
Definition distinctKeys (path : list string) (l : list doc) : Prop :=
  forall a b, In a l -> In b l ->
              cmpValue (sortKey path a) (sortKey path b) = Eq -> a = b.

(** The record has a text at one of the paths. *)
Definition hasText (paths : list (list string)) (d : doc) : bool :=
  existsb (fun p => match texts p d with [] => false | _ => true end) paths.

End Spec.

(** * Properties *)

Open Scope list_scope.

(** ** Objects *)

Lemma getField_setField_eq k v d : getField k (setField k v d) = Some v.
Proof.
  induction d as [|[k' v'] d IH]; simpl.
  - now rewrite String.eqb_refl.
  - destruct (String.eqb k k') eqn:E; simpl.
    + now rewrite String.eqb_refl.
    + now rewrite E.
Qed.

Lemma getField_setField_ne k k' v d :
  k <> k' -> getField k (setField k' v d) = getField k d.
Proof.
  intros Hne. induction d as [|[k2 v2] d IH]; simpl.
  - apply String.eqb_neq in Hne. now rewrite Hne.
  - destruct (String.eqb k' k2) eqn:E; simpl.
    + apply String.eqb_eq in E. subst k2.
      apply String.eqb_neq in Hne. now rewrite Hne.
    + destruct (String.eqb k k2); auto.
Qed.

Lemma getField_None_keys k d : getField k d = None <-> ~ In k (keys d).
Proof.
  induction d as [|[k' v'] d IH]; simpl.
  - tauto.
  - destruct (String.eqb k k') eqn:E.
    + apply String.eqb_eq in E. subst. split; [discriminate | tauto].
    + apply String.eqb_neq in E. rewrite IH. split; intros H.
      * intros [H1 | H1]; [congruence | tauto].
      * tauto.
Qed.

Lemma keys_setField k v d x :
  In x (keys (setField k v d)) <-> x = k \/ In x (keys d).
Proof.
  induction d as [|[k' v'] d IH]; simpl.
  - intuition.
  - destruct (String.eqb k k') eqn:E; simpl.
    + apply String.eqb_eq in E. subst. intuition.
    + rewrite IH. intuition.
Qed.

Lemma NoDup_setField k v d : NoDup (keys d) -> NoDup (keys (setField k v d)).
Proof.
  induction d as [|[k' v'] d IH]; simpl; intros H.
  - constructor; [simpl; tauto | constructor].
  - inversion H as [|? ? Hn Hd]; subst.
    destruct (String.eqb k k') eqn:E; simpl.
    + apply String.eqb_eq in E. subst. now constructor.
    + apply String.eqb_neq in E. constructor; [|now apply IH].
      fold (keys (setField k v d)). rewrite keys_setField.
      intros [H1 | H1]; [congruence | tauto].
Qed.

Lemma keys_bsonDoc d : keys (bsonDoc d) = keys d.
Proof.
  unfold keys, bsonDoc. rewrite map_map. now apply map_ext.
Qed.

Lemma getField_bsonDoc k d : getField k (bsonDoc d) = option_map bson (getField k d).
Proof.
  induction d as [|[k' v'] d IH]; simpl; [reflexivity|].
  destruct (String.eqb k k'); auto.
Qed.

Lemma getField_assign_absent k d u :
  getField k u = None -> getField k (assign d u) = getField k d.
Proof.
  unfold assign. revert d. induction u as [|[k' v'] u IH]; simpl; intros d H.
  - reflexivity.
  - destruct (String.eqb k k') eqn:E; [discriminate|].
    rewrite IH by assumption.
    apply getField_setField_ne. now apply String.eqb_neq.
Qed.

Lemma getField_assign_present k v d u :
  NoDup (keys u) -> getField k u = Some v -> getField k (assign d u) = Some v.
Proof.
  unfold assign. revert d. induction u as [|[k' v'] u IH]; simpl; intros d Hnd H.
  - discriminate.
  - inversion Hnd as [|? ? Hn Hd]; subst.
    destruct (String.eqb k k') eqn:E.
    + apply String.eqb_eq in E. subst k'. injection H as ->.
      change (getField k (assign (setField k v d) u) = Some v).
      rewrite getField_assign_absent.
      * apply getField_setField_eq.
      * now apply getField_None_keys.
    + now apply IH.
Qed.

(** The fields of a document after [$set: u]. *)
Lemma getField_set k d u :
  NoDup (keys u) ->
  getField k (assign d (bsonDoc u)) =
  match getField k u with
  | Some v => Some (bson v)
  | None => getField k d
  end.
Proof.
  intros Hnd. destruct (getField k u) as [v|] eqn:E.
  - apply getField_assign_present.
    + now rewrite keys_bsonDoc.
    + rewrite getField_bsonDoc, E. reflexivity.
  - apply getField_assign_absent. rewrite getField_bsonDoc, E. reflexivity.
Qed.

(** ** The store *)

Section StoreFacts.
Context {P : Platform}.
Import Store.

Lemma setFirst_found f u pre d post :
  (forall x, In x pre -> matches f x = false) ->
  matches f d = true ->
  setFirst f u (pre ++ d :: post)
  = (Some (assign d (bsonDoc u)), pre ++ assign d (bsonDoc u) :: post).
Proof.
  intros Hpre Hd. induction pre as [|x pre IH]; simpl.
  - now rewrite Hd.
  - rewrite (Hpre x) by (simpl; auto).
    rewrite IH by (intros y Hy; apply Hpre; simpl; auto). reflexivity.
Qed.

Lemma setFirst_missing f u ds :
  (forall x, In x ds -> matches f x = false) ->
  setFirst f u ds = (None, ds).
Proof.
  intros H. induction ds as [|x ds IH]; simpl; [reflexivity|].
  rewrite (H x) by (simpl; auto).
  rewrite IH by (intros y Hy; apply H; simpl; auto). reflexivity.
Qed.

(** Any collection splits at the first document a filter matches. *)
Lemma first_match f ds :
  (forall x, In x ds -> matches f x = false)
  \/ exists pre d post,
       ds = pre ++ d :: post
       /\ (forall x, In x pre -> matches f x = false)
       /\ matches f d = true.
Proof.
  induction ds as [|x ds IH].
  - left. intros x [].
  - destruct (matches f x) eqn:E.
    + right. exists [], x, ds. repeat split; auto. intros y [].
    + destruct IH as [IH | (pre & d & post & -> & Hpre & Hd)].
      * left. intros y [<- | Hy]; auto.
      * right. exists (x :: pre), d, post. repeat split; auto.
        intros y [<- | Hy]; auto.
Qed.

Lemma findOne_found f pre d post :
  (forall x, In x pre -> matches f x = false) ->
  matches f d = true ->
  findOne f (pre ++ d :: post) = Some d.
Proof.
  intros Hpre Hd. unfold findOne. induction pre as [|x pre IH]; simpl.
  - now rewrite Hd.
  - rewrite (Hpre x) by (simpl; auto).
    apply IH. intros y Hy. apply Hpre. simpl. auto.
Qed.

Lemma findOne_missing f ds :
  (forall x, In x ds -> matches f x = false) -> findOne f ds = None.
Proof.
  intros H. unfold findOne. induction ds as [|x ds IH]; simpl; [reflexivity|].
  rewrite (H x) by (simpl; auto). apply IH. intros y Hy. apply H. simpl. auto.
Qed.

Lemma findOne_sound f ds d : findOne f ds = Some d -> In d ds /\ matches f d = true.
Proof.
  unfold findOne. intros H. apply find_some in H. exact H.
Qed.

Lemma matches_id oid d : matches [CId oid] d = hasId oid d.
Proof. simpl. apply andb_true_r. Qed.

Lemma matches_active d : matches [CTrue "isActive"] d = isActive d.
Proof. simpl. unfold isActive. now rewrite andb_true_r. Qed.

Lemma matches_id_active oid d :
  matches [CId oid; CTrue "isActive"] d = (hasId oid d && isActive d)%bool.
Proof. simpl. unfold isActive. now rewrite andb_true_r. Qed.

Lemma hasId_set oid d u :
  getField "_id" u = None -> hasId oid (assign d (bsonDoc u)) = hasId oid d.
Proof.
  intros H. unfold hasId. rewrite getField_assign_absent; [reflexivity|].
  rewrite getField_bsonDoc, H. reflexivity.
Qed.

(** *** Sorting

    Sorting rearranges, and neither adds nor drops a document. *)
Lemma insertBy_perm le x l : Permutation (insertBy le x l) (x :: l).
Proof.
  induction l as [|y l IH]; simpl; [reflexivity|].
  destruct (le x y); [reflexivity|].
  rewrite IH. apply perm_swap.
Qed.

Lemma sortDocs_perm path dir l : Permutation (sortDocs path dir l) l.
Proof.
  unfold sortDocs. induction l as [|x l IH]; simpl; [reflexivity|].
  rewrite insertBy_perm. now constructor.
Qed.

Lemma sortDocs_length path dir l : length (sortDocs path dir l) = length l.
Proof. apply Permutation_length, sortDocs_perm. Qed.

Lemma sortDocs_In path dir l x : In x (sortDocs path dir l) <-> In x l.
Proof.
  split; apply Permutation_in;
    [apply sortDocs_perm | apply Permutation_sym, sortDocs_perm].
Qed.

Lemma insertAt_perm n x l : Permutation (insertAt n x l) (x :: l).
Proof.
  revert l. induction n as [|n IH]; intros l; [destruct l; reflexivity|].
  destruct l as [|y l]; simpl; [reflexivity|].
  rewrite IH. apply perm_swap.
Qed.

(** Whatever the code, the store hands out the documents found, each
    once. *)
Lemma arrange_perm code l : Permutation (arrange code l) l.
Proof.
  revert code. induction l as [|x l IH]; intros code; simpl; [reflexivity|].
  rewrite insertAt_perm. constructor. apply IH.
Qed.

Lemma insertAt_middle x (l1 l2 : list doc) :
  insertAt (length l1) x (l1 ++ l2) = l1 ++ x :: l2.
Proof.
  induction l1 as [|y l1 IH]; simpl; [destruct l2; reflexivity|].
  now rewrite IH.
Qed.

(** And every order of the documents found is the one some code names:
    the codes stand for all the choices a store can make. *)
Lemma arrange_any (l l' : list doc) :
  Permutation l l' -> exists code, arrange code l = l'.
Proof.
  revert l'. induction l as [|x l IH]; intros l' Hp.
  - apply Permutation_nil in Hp. subst l'. now exists [].
  - assert (Hin : In x l') by (apply (Permutation_in _ Hp); simpl; auto).
    apply in_split in Hin. destruct Hin as (l1 & l2 & ->).
    apply Permutation_cons_app_inv in Hp.
    destruct (IH _ Hp) as [code Hc].
    exists (length l1 :: code). simpl. rewrite Hc. apply insertAt_middle.
Qed.

Lemma inOrder_perm f sortBy dir s n ds found :
  Permutation (inOrder f sortBy dir s n ds found) found.
Proof.
  unfold inOrder. rewrite sortDocs_perm. apply arrange_perm.
Qed.

Lemma inOrder_length f sortBy dir s n ds found :
  length (inOrder f sortBy dir s n ds found) = length found.
Proof. apply Permutation_length, inOrder_perm. Qed.

Lemma inOrder_In f sortBy dir s n ds found x :
  In x (inOrder f sortBy dir s n ds found) <-> In x found.
Proof.
  split; apply Permutation_in;
    [apply inOrder_perm | apply Permutation_sym, inOrder_perm].
Qed.

(** Insertion keeps a list in order when any two documents compare one
    way or the other. *)
Lemma insertBy_sorted (le : doc -> doc -> bool) x l :
  (forall a b, le a b = false -> le b a = true) ->
  Sorted (fun a b => le a b = true) l ->
  Sorted (fun a b => le a b = true) (insertBy le x l).
Proof.
  intros Htot Hs. induction l as [|y l IH]; simpl.
  - repeat constructor.
  - apply Sorted_inv in Hs. destruct Hs as [Hs Hh].
    destruct (le x y) eqn:E.
    + constructor; [constructor; assumption | constructor; assumption].
    + constructor; [now apply IH|].
      destruct l as [|z l]; simpl.
      * constructor. now apply Htot.
      * destruct (le x z); constructor.
        -- now apply Htot.
        -- now apply HdRel_inv in Hh.
Qed.

Lemma cmpValue_antisym a b : cmpValue b a = CompOpp (cmpValue a b).
Proof.
  destruct a, b; simpl; try reflexivity.
  - destruct b, b0; reflexivity.
  - now rewrite <- Qcompare_antisym.
  - now rewrite String.compare_antisym.
  - apply Z.compare_antisym.
  - now rewrite String.compare_antisym.
Qed.

Lemma before_total path dir a b :
  dir <> 0 -> before path dir a b = false -> before path dir b a = true.
Proof.
  intros Hd. unfold before. rewrite (cmpValue_antisym (sortKey path a)).
  destruct (cmpValue (sortKey path a) (sortKey path b)); simpl; lia.
Qed.

Lemma sortDocs_sorted path dir l :
  dir <> 0 -> Sorted (fun a b => before path dir a b = true) (sortDocs path dir l).
Proof.
  intros Hd. unfold sortDocs. induction l as [|x l IH]; simpl.
  - constructor.
  - apply insertBy_sorted; [|assumption].
    intros a b. now apply before_total.
Qed.

(** The sort leaves a list that is in order as it is. *)
Lemma sortDocs_fixed path dir l :
  Sorted (fun a b => before path dir a b = true) l -> sortDocs path dir l = l.
Proof.
  unfold sortDocs. induction l as [|x l IH]; intros Hs; [reflexivity|].
  apply Sorted_inv in Hs. destruct Hs as [Hs Hh]. simpl. rewrite (IH Hs).
  destruct l as [|y l]; [reflexivity|].
  apply HdRel_inv in Hh. simpl. now rewrite Hh.
Qed.

(** Every order of the documents found that agrees with the sort is the
    outcome of some choice of the store. *)
Lemma sorted_order_chosen path dir (found all : list doc) :
  Permutation found all ->
  Sorted (fun a b => before path dir a b = true) all ->
  exists code, sortDocs path dir (arrange code found) = all.
Proof.
  intros Hp Hs. destruct (arrange_any Hp) as [code Hc].
  exists code. rewrite Hc. now apply sortDocs_fixed.
Qed.

Lemma inOrder_sorted f sortBy dir s n ds found :
  dir <> 0 ->
  Sorted (fun a b => before (splitDots "" sortBy) dir a b = true)
         (inOrder f sortBy dir s n ds found).
Proof. intros Hd. unfold inOrder. now apply sortDocs_sorted. Qed.

Lemma Sorted_skipn (R : doc -> doc -> Prop) n l :
  Sorted R l -> Sorted R (skipn n l).
Proof.
  revert l. induction n as [|n IH]; intros l Hs; [assumption|].
  destruct l as [|x l]; [constructor|]. simpl. apply IH.
  now apply Sorted_inv in Hs.
Qed.

Lemma Sorted_firstn (R : doc -> doc -> Prop) n l :
  Sorted R l -> Sorted R (firstn n l).
Proof.
  revert l. induction n as [|n IH]; intros l Hs; [constructor|].
  destruct l as [|x l]; [constructor|]. simpl.
  apply Sorted_inv in Hs. destruct Hs as [Hs Hh].
  constructor; [now apply IH|].
  destruct l as [|y l]; [rewrite firstn_nil; constructor|].
  destruct n; simpl; constructor. now apply HdRel_inv in Hh.
Qed.

Lemma Sorted_limit (R : doc -> doc -> Prop) n l :
  Sorted R l -> Sorted R (limit n l).
Proof.
  intros Hs. unfold limit. destruct (n =? 0); [assumption|].
  now apply Sorted_firstn.
Qed.

(** *** The order of the sort keys is a total preorder *)

Lemma String_le_trans a b c :
  String.compare a b <> Gt -> String.compare b c <> Gt ->
  String.compare a c <> Gt.
Proof.
  intros H1 H2.
  destruct (String.compare a b) eqn:E1; [| |congruence].
  - apply String.compare_eq_iff in E1. now subst.
  - destruct (String.compare b c) eqn:E2; [| |congruence].
    + apply String.compare_eq_iff in E2. subst. congruence.
    + apply OrderedTypeEx.String_as_OT.cmp_lt in E1.
      apply OrderedTypeEx.String_as_OT.cmp_lt in E2.
      pose proof (@OrderedTypeEx.String_as_OT.lt_trans a b c E1 E2) as H.
      apply OrderedTypeEx.String_as_OT.cmp_lt in H.
      unfold OrderedTypeEx.String_as_OT.cmp in H. congruence.
Qed.

Lemma Bool_le_trans a b c :
  Bool.compare a b <> Gt -> Bool.compare b c <> Gt -> Bool.compare a c <> Gt.
Proof. destruct a, b, c; simpl; congruence. Qed.

Lemma Z_le_trans a b c :
  Z.compare a b <> Gt -> Z.compare b c <> Gt -> Z.compare a c <> Gt.
Proof.
  intros H1 H2.
  destruct (Z.compare_spec a b), (Z.compare_spec b c), (Z.compare_spec a c);
    try congruence; lia.
Qed.

Lemma Q_le_trans a b c :
  Qcompare a b <> Gt -> Qcompare b c <> Gt -> Qcompare a c <> Gt.
Proof.
  intros H1 H2. apply Qle_alt in H1. apply Qle_alt in H2. apply Qle_alt.
  now apply Qle_trans with b.
Qed.

Lemma cmpValue_le_trans a b c :
  cmpValue a b <> Gt -> cmpValue b c <> Gt -> cmpValue a c <> Gt.
Proof.
  destruct a, b, c;
    try solve [ simpl; intros;
                first [ eapply Q_le_trans; eassumption
                      | eapply String_le_trans; eassumption
                      | eapply Bool_le_trans; eassumption
                      | eapply Z_le_trans; eassumption ] ];
    vm_compute; intros; congruence.
Qed.

Lemma cmpValue_ge_trans a b c :
  cmpValue a b <> Lt -> cmpValue b c <> Lt -> cmpValue a c <> Lt.
Proof.
  intros H1 H2.
  assert (G1 : cmpValue b a <> Gt).
  { rewrite (cmpValue_antisym a b). destruct (cmpValue a b); simpl; congruence. }
  assert (G2 : cmpValue c b <> Gt).
  { rewrite (cmpValue_antisym b c). destruct (cmpValue b c); simpl; congruence. }
  pose proof (@cmpValue_le_trans c b a G2 G1) as G.
  rewrite (cmpValue_antisym a c) in G.
  destruct (cmpValue a c); simpl in G; congruence.
Qed.

Lemma before_trans path dir a b c :
  dir <> 0 ->
  before path dir a b = true -> before path dir b c = true ->
  before path dir a c = true.
Proof.
  intros Hd. unfold before. intros H1 H2.
  destruct (Z_lt_le_dec 0 dir) as [Hpos | Hneg].
  - assert (G1 : cmpValue (sortKey path a) (sortKey path b) <> Gt).
    { destruct (cmpValue (sortKey path a) (sortKey path b));
        try congruence. apply Z.ltb_lt in H1. lia. }
    assert (G2 : cmpValue (sortKey path b) (sortKey path c) <> Gt).
    { destruct (cmpValue (sortKey path b) (sortKey path c));
        try congruence. apply Z.ltb_lt in H2. lia. }
    pose proof (@cmpValue_le_trans _ _ _ G1 G2) as G.
    destruct (cmpValue (sortKey path a) (sortKey path c));
      [reflexivity | apply Z.ltb_lt; lia | congruence].
  - assert (G1 : cmpValue (sortKey path a) (sortKey path b) <> Lt).
    { destruct (cmpValue (sortKey path a) (sortKey path b));
        try congruence. apply Z.ltb_lt in H1. lia. }
    assert (G2 : cmpValue (sortKey path b) (sortKey path c) <> Lt).
    { destruct (cmpValue (sortKey path b) (sortKey path c));
        try congruence. apply Z.ltb_lt in H2. lia. }
    pose proof (@cmpValue_ge_trans _ _ _ G1 G2) as G.
    destruct (cmpValue (sortKey path a) (sortKey path c));
      [reflexivity | congruence | apply Z.ltb_lt; lia].
Qed.

(** Two documents that may each stay in front of the other have equal
    sort keys. *)
Lemma before_both path dir a b :
  dir <> 0 ->
  before path dir a b = true -> before path dir b a = true ->
  cmpValue (sortKey path a) (sortKey path b) = Eq.
Proof.
  intros Hd. unfold before. rewrite (cmpValue_antisym (sortKey path a)).
  destruct (cmpValue (sortKey path a) (sortKey path b)); simpl;
    [reflexivity| |]; intros H1 H2;
    apply Z.ltb_lt in H1; apply Z.ltb_lt in H2; lia.
Qed.

(** Without ties there is one order: two sorted arrangements of the same
    documents are the same list. *)
Lemma sorted_unique path dir (l1 l2 : list doc) :
  dir <> 0 ->
  Spec.distinctKeys path l1 ->
  Permutation l1 l2 ->
  Sorted (fun a b => before path dir a b = true) l1 ->
  Sorted (fun a b => before path dir a b = true) l2 ->
  l1 = l2.
Proof.
  intros Hd Hk Hp H1 H2.
  assert (Htrans : Relations_1.Transitive
                     (fun a b => before path dir a b = true)).
  { intros a b c. now apply before_trans. }
  apply Sorted_StronglySorted in H1; [|assumption].
  apply Sorted_StronglySorted in H2; [|assumption].
  revert l2 Hp H2. induction H1 as [|h1 t1 Hs1 IH Hf1]; intros l2 Hp H2.
  - apply Permutation_nil in Hp. now subst.
  - destruct H2 as [|h2 t2 Hs2 Hf2].
    + apply Permutation_sym, Permutation_nil in Hp. discriminate.
    + assert (Heq : h1 = h2).
      { assert (In1 : In h2 (h1 :: t1))
          by (apply (Permutation_in _ (Permutation_sym Hp)); simpl; auto).
        assert (In2 : In h1 (h2 :: t2))
          by (apply (Permutation_in _ Hp); simpl; auto).
        destruct In1 as [E | In1]; [assumption|].
        destruct In2 as [E | In2]; [now symmetry|].
        apply Hk; [simpl; auto | simpl; auto |].
        apply (@before_both path dir h1 h2 Hd).
        - rewrite Forall_forall in Hf1. now apply Hf1.
        - rewrite Forall_forall in Hf2. now apply Hf2. }
      subst h2. f_equal. apply IH.
      * intros a b Ha Hb. apply Hk; simpl; auto.
      * now apply Permutation_cons_inv in Hp.
      * assumption.
Qed.

(** *** Cursors *)

Lemma firstn_incl (n : nat) (l : list doc) x : In x (firstn n l) -> In x l.
Proof.
  intros H. rewrite <- (firstn_skipn n l). apply in_or_app. now left.
Qed.

Lemma skipn_incl (n : nat) (l : list doc) x : In x (skipn n l) -> In x l.
Proof.
  intros H. rewrite <- (firstn_skipn n l). apply in_or_app. now right.
Qed.

Lemma limit_In n l x : In x (limit n l) -> In x l.
Proof.
  unfold limit. destruct (n =? 0); [auto|]. apply firstn_incl.
Qed.

(** A cursor runs when the store accepts the filter and the skip is not
    negative, and hands out a page of the documents the filter matches. *)
Lemma cursor_page f sortBy dir s n ds :
  accepted f = true -> 0 <= s ->
  cursor f sortBy dir s n ds
  = Ok (limit n (skipn (Z.to_nat s)
                   (inOrder f sortBy dir s n ds (List.filter (matches f) ds)))).
Proof.
  intros Ha Hs. unfold cursor, find, skip. rewrite Ha. cbn [bind].
  assert (E : (s <? 0) = false) by lia. rewrite E. reflexivity.
Qed.

Lemma cursor_isPage f sortBy dir s n ds rows :
  dir <> 0 ->
  cursor f sortBy dir s n ds = Ok rows ->
  Spec.isPage (splitDots "" sortBy) dir s n (List.filter (matches f) ds) rows.
Proof.
  intros Hd. unfold cursor, find, skip.
  destruct (accepted f); cbn [bind]; [|discriminate].
  destruct (s <? 0); cbn [bind]; [discriminate|].
  intros [= <-].
  exists (inOrder f sortBy dir s n ds (List.filter (matches f) ds)).
  split; [apply inOrder_perm|]. split; [now apply inOrder_sorted | reflexivity].
Qed.

(** A cursor with a negative skip is refused. *)
Lemma cursor_negative f sortBy dir s n ds :
  s < 0 -> cursor f sortBy dir s n ds = Throw.
Proof.
  intros Hs. unfold cursor, find, skip.
  destruct (accepted f); cbn [bind]; [|reflexivity].
  assert (E : (s <? 0) = true) by lia. now rewrite E.
Qed.

(** What a successful cursor holds comes from the collection and
    satisfies the filter. *)
Lemma cursor_sound f sortBy dir s n ds rows d :
  cursor f sortBy dir s n ds = Ok rows ->
  In d rows -> In d ds /\ matches f d = true.
Proof.
  unfold cursor, find, skip. destruct (accepted f); simpl; [|discriminate].
  destruct (s <? 0); simpl; [discriminate|].
  intros H Hd. injection H as <-.
  apply limit_In, skipn_incl in Hd.
  apply inOrder_In in Hd. now apply filter_In in Hd.
Qed.

(** A page that starts at or after the last match is empty. *)
Lemma cursor_beyond f sortBy dir s n ds :
  accepted f = true ->
  Z.of_nat (length (List.filter (matches f) ds)) <= s ->
  cursor f sortBy dir s n ds = Ok [].
Proof.
  intros Ha Hs. rewrite cursor_page by (assumption || lia).
  rewrite skipn_all2 by (rewrite inOrder_length; lia).
  unfold limit. destruct (n =? 0); [reflexivity|]. now rewrite firstn_nil.
Qed.

Lemma cursor_runs f sortBy dir s n ds :
  accepted f = true -> 0 <= s -> exists rows, cursor f sortBy dir s n ds = Ok rows.
Proof.
  intros Ha Hs. rewrite cursor_page by assumption. eauto.
Qed.

(** With limit at least 1 the page is a slice. *)
Lemma cursor_rows f sortBy dir s n ds :
  accepted f = true -> 0 <= s -> 1 <= n ->
  cursor f sortBy dir s n ds
  = Ok (firstn (Z.to_nat n)
          (skipn (Z.to_nat s)
             (inOrder f sortBy dir s n ds (List.filter (matches f) ds)))).
Proof.
  intros Ha Hs Hn. rewrite cursor_page by assumption. unfold limit.
  assert (E2 : (n =? 0) = false) by lia. rewrite E2.
  now rewrite Z.abs_eq by lia.
Qed.

Lemma page_length (l : list doc) s n :
  0 <= s -> 1 <= n ->
  Z.of_nat (length (firstn (Z.to_nat n) (skipn (Z.to_nat s) l)))
  = Z.min n (Z.max 0 (Z.of_nat (length l) - s)).
Proof.
  intros Hs Hn. rewrite length_firstn, length_skipn. lia.
Qed.

(** Without ties the page does not depend on the store's choice. *)
Lemma isPage_unique path dir s n candidates rows1 rows2 :
  dir <> 0 ->
  Spec.distinctKeys path candidates ->
  Spec.isPage path dir s n candidates rows1 ->
  Spec.isPage path dir s n candidates rows2 ->
  rows1 = rows2.
Proof.
  intros Hd Hk (all1 & Hp1 & Hs1 & ->) (all2 & Hp2 & Hs2 & ->).
  assert (E : all1 = all2).
  { apply (@sorted_unique path dir all1 all2 Hd); try assumption.
    - intros a b Ha Hb.
      apply Hk; [apply (Permutation_in _ Hp1 Ha) | apply (Permutation_in _ Hp1 Hb)].
    - rewrite Hp1. now symmetry. }
  now rewrite E.
Qed.


End StoreFacts.

(** ** Soft delete *)

Section DeleteFacts.
Context {P : Platform}.
Import Store Spec.

Lemma softDeleted_hasId oid now d : hasId oid (softDeleted now d) = hasId oid d.
Proof. apply hasId_set. reflexivity. Qed.

Lemma softDeleted_inactive now d : isActive (softDeleted now d) = false.
Proof.
  unfold isActive, softDeleted. rewrite getField_set.
  - reflexivity.
  - repeat constructor; simpl; intuition discriminate.
Qed.

Lemma softDeleted_field now d key :
  getField key (softDeleted now d) =
  if String.eqb key "isActive" then Some (VBool false)
  else if String.eqb key "updatedAt" then Some (VDate now)
  else getField key d.
Proof.
  unfold softDeleted. rewrite getField_set.
  - simpl. destruct (String.eqb key "isActive"); [reflexivity|].
    destruct (String.eqb key "updatedAt"); reflexivity.
  - repeat constructor; simpl; intuition discriminate.
Qed.

Lemma updateOne_found oid now pre d post :
  (forall x, In x pre -> hasId oid x = false) ->
  hasId oid d = true ->
  updateOne [CId oid] (deleteDoc now) (pre ++ d :: post)
  = (1, pre ++ softDeleted now d :: post).
Proof.
  intros Hpre Hd. unfold updateOne. rewrite setFirst_found.
  - reflexivity.
  - intros x Hx. rewrite matches_id. auto.
  - now rewrite matches_id.
Qed.

Lemma updateOne_missing oid now ds :
  (forall x, In x ds -> hasId oid x = false) ->
  updateOne [CId oid] (deleteDoc now) ds = (0, ds).
Proof.
  intros H. unfold updateOne. rewrite setFirst_missing; [reflexivity|].
  intros x Hx. rewrite matches_id. auto.
Qed.

Lemma first_id oid ds :
  (forall x, In x ds -> hasId oid x = false)
  \/ exists pre d post,
       ds = pre ++ d :: post
       /\ (forall x, In x pre -> hasId oid x = false)
       /\ hasId oid d = true.
Proof.
  destruct (first_match [CId oid] ds) as [H | (pre & d & post & -> & Hp & Hd)].
  - left. intros x Hx. rewrite <- matches_id. auto.
  - right. exists pre, d, post. rewrite matches_id in Hd. repeat split; auto.
    intros x Hx. rewrite <- matches_id. auto.
Qed.

Lemma TS_delete_outcome k st id now :
  reachable st = true -> ObjectId_isValid id = true ->
  deleteOutcome k st (ObjectId_new id) now (TS.delete k st id now).
Proof.
  intros Hr Hv. unfold TS.delete. rewrite Hr, Hv. simpl negb. cbv iota.
  fold (deleteDoc now).
  destruct (first_id (ObjectId_new id) (docs st))
    as [H | (pre & d & post & E & Hp & Hd)].
  - left. split; [assumption|]. now rewrite updateOne_missing.
  - right. exists pre, d, post. repeat split; auto.
    rewrite E, updateOne_found by assumption. reflexivity.
Qed.

Lemma JS_delete_outcome k st id now :
  reachable st = true -> ObjectId_isValid id = true ->
  deleteOutcome k st (ObjectId_new id) now (JS.delete k st id now).
Proof.
  intros Hr Hv. unfold JS.delete. rewrite Hr, Hv. simpl negb. cbv iota.
  fold (deleteDoc now).
  destruct (first_id (ObjectId_new id) (docs st))
    as [H | (pre & d & post & E & Hp & Hd)].
  - left. split; [assumption|]. now rewrite updateOne_missing.
  - right. exists pre, d, post. repeat split; auto.
    rewrite E, updateOne_found by assumption. reflexivity.
Qed.

(** A successful delete leaves a record with the id in place, so the next
    delete finds it again. *)
Lemma deleteOutcome_twice k st oid now out
      (del : store -> Z -> ApiResponse * store) :
  (forall st' now', reachable st' = true ->
                    deleteOutcome k st' oid now' (del st' now')) ->
  reachable st = true ->
  (exists d, In d (docs st) /\ hasId oid d = true) ->
  out = del st now ->
  fst out = ok deleted (Some (Noun k ++ " deleted successfully")%string)
  /\ length (docs (snd out)) = length (docs st)
  /\ forall now2,
       fst (del (snd out) now2)
       = ok deleted (Some (Noun k ++ " deleted successfully")%string).
Proof.
  intros Hdel Hr (d0 & Hin & Hid) ->.
  destruct (Hdel st now Hr) as [[Hnone _] | (pre & d & post & E & Hp & Hd & ->)].
  - rewrite (Hnone d0 Hin) in Hid. discriminate.
  - simpl. split; [reflexivity|]. split.
    + rewrite E, !length_app. reflexivity.
    + intros now2.
      destruct (Hdel (withDocs st (pre ++ softDeleted now d :: post)) now2 Hr)
        as [[Hnone _] | (pre' & d' & post' & _ & _ & _ & ->)].
      * simpl in Hnone.
        specialize (Hnone (softDeleted now d)).
        rewrite softDeleted_hasId, Hd in Hnone.
        assert (true = false) by (apply Hnone, in_or_app; simpl; auto).
        discriminate.
      * reflexivity.
Qed.

End DeleteFacts.

Section DeleteTwice.
Context {P : Platform}.
Import Store Spec.

Lemma deleteOutcome_missing_iff k st oid now out :
  deleteOutcome k st oid now out ->
  fst out = fail (Noun k ++ " not found")%string
  <-> forall x, In x (docs st) -> hasId oid x = false.
Proof.
  intros [[Hnone ->] | (pre & d & post & E & Hp & Hd & ->)]; simpl.
  - tauto.
  - split; [discriminate|]. intros H.
    assert (Hx : hasId oid d = false)
      by (apply H; rewrite E; apply in_or_app; simpl; auto).
    congruence.
Qed.

(** C3. Delete is idempotent.  On a reachable store and for a well-formed
    id, the delete of the TypeScript and of the JavaScript services answers
    "not found" exactly when no stored record carries the id, whatever the
    [isActive] flags are; when some record carries it, the delete succeeds
    with [{deleted: true}], and so does a second delete that follows. *)
Theorem delete_idempotent (k : kind) (st : store) (id : string) (now1 now2 : Z) :
  reachable st = true ->
  ObjectId_isValid id = true ->
  let oid := ObjectId_new id in
  let done := ok deleted (Some (Noun k ++ " deleted successfully")%string) in
  let missing := fail (Noun k ++ " not found")%string in
  (fst (TS.delete k st id now1) = missing
   <-> forall x, In x (docs st) -> hasId oid x = false)
  /\ (fst (JS.delete k st id now1) = missing
      <-> forall x, In x (docs st) -> hasId oid x = false)
  /\ ((exists d, In d (docs st) /\ hasId oid d = true) ->
      fst (TS.delete k st id now1) = done
      /\ fst (TS.delete k (snd (TS.delete k st id now1)) id now2) = done
      /\ fst (JS.delete k st id now1) = done
      /\ fst (JS.delete k (snd (JS.delete k st id now1)) id now2) = done).
Proof.
  intros Hr Hv oid done missing.
  split; [|split].
  - apply deleteOutcome_missing_iff with (now := now1).
    now apply TS_delete_outcome.
  - apply deleteOutcome_missing_iff with (now := now1).
    now apply JS_delete_outcome.
  - intros Hex.
    assert (HT : forall st' now', reachable st' = true ->
                   deleteOutcome k st' oid now' (TS.delete k st' id now'))
      by (intros; now apply TS_delete_outcome).
    assert (HJ : forall st' now', reachable st' = true ->
                   deleteOutcome k st' oid now' (JS.delete k st' id now'))
      by (intros; now apply JS_delete_outcome).
    destruct (deleteOutcome_twice st now1 (fun s n => TS.delete k s id n) HT Hr Hex
                (eq_refl (TS.delete k st id now1))) as (H1 & _ & H2).
    destruct (deleteOutcome_twice st now1 (fun s n => JS.delete k s id n) HJ Hr Hex
                (eq_refl (JS.delete k st id now1))) as (H3 & _ & H4).
    repeat split; auto.
Qed.

End DeleteTwice.

(** ** Identifiers *)

Section InvalidId.
Context {P : Platform}.
Import Store Routes.

(** C6. An id the driver does not accept is a validation failure.  The
    JavaScript services answer "Invalid ... ID format" before they touch the
    store; the TypeScript services answer "Invalid ... ID" on a reachable
    store.  The [[id]] routes map the result to status 400 for GET, PUT and
    DELETE, whether the store is reachable or not, and leave the store as
    it was; the PUT route does so for every body from which the update
    object can be built. *)
Theorem invalid_id_is_validation_failure
        (k : kind) (id : string) (st : store) (data : doc) (reqBody : value)
        (now : Z) :
  ObjectId_isValid id = false ->
  (JS.getById k st id = fail ("Invalid " ++ noun k ++ " ID format")%string
   /\ JS.update k st id data now
      = (fail ("Invalid " ++ noun k ++ " ID format")%string, st)
   /\ JS.delete k st id now
      = (fail ("Invalid " ++ noun k ++ " ID format")%string, st))
  /\ (reachable st = true ->
      TS.getById k st id = fail ("Invalid " ++ noun k ++ " ID")%string
      /\ TS.update k st id data now
         = (fail ("Invalid " ++ noun k ++ " ID")%string, st)
      /\ TS.delete k st id now
         = (fail ("Invalid " ++ noun k ++ " ID")%string, st))
  /\ status (handleGet k id st) = 400
  /\ (status (fst (handleDelete k id st now)) = 400
      /\ snd (handleDelete k id st now) = st)
  /\ (snd (handleUpdate k id reqBody st now) = st
      /\ status (fst (handleUpdate k id reqBody st now)) <> 404
      /\ (updateDataOf k reqBody <> Throw ->
          status (fst (handleUpdate k id reqBody st now)) = 400)).
Proof.
  intros Hv.
  split; [|split; [|split; [|split]]].
  - unfold JS.getById, JS.update, JS.delete. rewrite Hv. simpl. auto.
  - intros Hr. unfold TS.getById, TS.update, TS.delete.
    rewrite Hv, Hr. simpl. auto.
  - unfold handleGet, TS.getById. rewrite Hv.
    destruct k, (reachable st); reflexivity.
  - unfold handleDelete, TS.delete. rewrite Hv.
    destruct k, (reachable st); split; reflexivity.
  - unfold handleUpdate, TS.update. rewrite Hv.
    destruct (truthy reqBody); simpl; [|repeat split; auto; lia].
    destruct (updateDataOf k reqBody) as [u|]; simpl.
    + destruct (noKeys u); simpl; [repeat split; auto; lia|].
      destruct k, (reachable st); simpl; repeat split; auto; try lia;
        vm_compute; discriminate.
    + repeat split; [lia | congruence].
Qed.

End InvalidId.

(** ** Pages *)

Section Pages.
Context {P : Platform}.
Import Store.

Lemma ltNum_beyond p lim tot :
  1 <= lim -> tot <= (p - 1) * lim -> ltNum p (ceilDiv tot lim) = false.
Proof.
  intros Hl Ht. unfold ceilDiv.
  assert (E : (lim =? 0) = false) by lia. rewrite E. simpl.
  apply Z.ltb_ge.
  assert (- (p - 1) <= (- tot) / lim).
  { apply Z.div_le_lower_bound; [lia|]. nia. }
  lia.
Qed.

Lemma filter_active ds :
  List.filter (matches [CTrue "isActive"]) ds = List.filter isActive ds.
Proof. apply filter_ext. intros d. apply matches_active. Qed.

Lemma countDocuments_active ds :
  countDocuments [CTrue "isActive"] ds
  = Ok (Z.of_nat (length (List.filter isActive ds))).
Proof. unfold countDocuments. simpl accepted. cbv iota. now rewrite filter_active. Qed.

Lemma okPage_beyond p lim tot :
  1 <= lim -> tot <= (p - 1) * lim -> okPage [] p lim tot = beyondPage p lim tot.
Proof.
  intros Hl Ht. unfold okPage, beyondPage. simpl. now rewrite ltNum_beyond.
Qed.

(** C10. A page beyond the last one is not an error.  On a reachable store,
    for a page [p >= 1] and a limit [lim >= 1] (the limit the service works
    with: the given one or the default 10, and in the JavaScript services
    capped at 100) such that [(p - 1) * lim] is at least the number of
    active records, the list of both services succeeds with an empty data
    array, [hasNext = false] and [hasPrev = (p > 1)]. *)
Theorem page_beyond_last (k : kind) (st : store) (params : PaginationParams)
        (p : Z) :
  reachable st = true ->
  p_page params = Some p ->
  1 <= p ->
  let tot := Z.of_nat (length (List.filter isActive (docs st))) in
  (forall lim, lim = orElse (p_limit params) 10 ->
               1 <= lim -> tot <= (p - 1) * lim ->
               TS.getList k st params = beyondPage p lim tot)
  /\ (forall lim, lim = Z.min (JS.orNum (p_limit params) 10) 100 ->
                  1 <= lim -> tot <= (p - 1) * lim ->
                  JS.getList k st params = beyondPage p lim tot).
Proof.
  intros Hr Hp Hp1 tot. split; intros lim -> Hl Ht.
  - unfold TS.getList, TS.paged. rewrite Hr, Hp. simpl negb. cbv iota.
    rewrite countDocuments_active. unfold orElse at 1. cbn [bind].
    rewrite cursor_beyond; [|reflexivity|].
    + cbn [bind]. now apply okPage_beyond.
    + rewrite filter_active. exact Ht.
  - unfold JS.getList, JS.paged. rewrite Hr, Hp. simpl negb. cbv iota.
    assert (Ep : JS.orNum (Some p) 1 = p).
    { unfold JS.orNum. assert (E : (p =? 0) = false) by lia. now rewrite E. }
    rewrite Ep.
    rewrite cursor_beyond; [|reflexivity|].
    + cbn [bind]. rewrite countDocuments_active. cbn [bind].
      now apply okPage_beyond.
    + rewrite filter_active. exact Ht.
Qed.

End Pages.

(** ** Pagination parameters *)

Section Validation.
Context {P : Platform}.
Import Store Routes Spec.

Lemma orNum_nonzero o d : d <> 0 -> JS.orNum o d <> 0.
Proof.
  intros Hd. unfold JS.orNum. destruct o as [z|]; [|assumption].
  destruct (z =? 0) eqn:E; [assumption | lia].
Qed.

Lemma orNum_fixed z d : z <> 0 -> JS.orNum (Some z) d = z.
Proof.
  intros Hz. unfold JS.orNum.
  assert (E : (z =? 0) = false) by lia. now rewrite E.
Qed.

Lemma clamped_page params :
  JS.orNum (p_page (clamped params)) 1 = JS.orNum (p_page params) 1.
Proof.
  unfold clamped. cbn [p_page]. apply orNum_fixed. now apply orNum_nonzero.
Qed.

Lemma clamped_limit params :
  Z.min (JS.orNum (p_limit (clamped params)) 10) 100
  = Z.min (JS.orNum (p_limit params) 10) 100.
Proof.
  unfold clamped. cbn [p_limit]. rewrite orNum_fixed.
  - lia.
  - pose proof (@orNum_nonzero (p_limit params) 10). lia.
Qed.

(** The list of the JavaScript services on a reachable store: it answers
    with a page when the skip it computes is not negative, and with its
    failure when it is. *)
Lemma JS_getList_runs k st params :
  reachable st = true ->
  let p := JS.orNum (p_page params) 1 in
  let lim := Z.min (JS.orNum (p_limit params) 10) 100 in
  let sortBy := if JS.given (p_sortBy params)
                then orElse (p_sortBy params) "" else "createdAt" in
  let dir := if JS.given (p_sortBy params)
             then (if String.eqb (orElse (p_sortOrder params) "") "desc"
                   then -1 else 1)
             else -1 in
  (0 <= (p - 1) * lim ->
   exists rows,
     JS.getList k st params = okPage rows p lim (activeCount st)
     /\ isPage (splitDots "" sortBy) dir ((p - 1) * lim) lim
               (List.filter isActive (docs st)) rows)
  /\ ((p - 1) * lim < 0 ->
      JS.getList k st params = JS.failPage ("Failed to fetch " ++ noun k ++ "s")).
Proof.
  intros Hr p lim sortBy dir. unfold JS.getList, JS.paged. rewrite Hr.
  simpl negb. cbv iota. fold p lim sortBy dir. split; intros Hs.
  - destruct (@cursor_runs P [CTrue "isActive"] sortBy dir ((p - 1) * lim)
                lim (docs st) eq_refl Hs) as [rows Hrows].
    rewrite Hrows. cbn [bind]. rewrite countDocuments_active. cbn [bind].
    exists rows. split; [reflexivity|].
    rewrite <- filter_active.
    apply (@cursor_isPage P [CTrue "isActive"] sortBy dir ((p - 1) * lim)
             lim (docs st) rows); [|assumption].
    subst dir. destruct (JS.given _); [destruct (String.eqb _ _)|]; lia.
  - now rewrite cursor_negative.
Qed.

(** C5, amended.  The TypeScript farmers list route refuses a page that is
    not a number or is below 1, and a limit that is not a number or lies
    outside [1, 100], with status 400.  The JavaScript list validates
    nothing: it reads a missing or zero page as 1, a missing or zero limit
    as 10, caps the limit at 100, and runs the query with these values
    (its answer is the one for the values so read).  On a reachable store
    the query succeeds, with the page and the limit so read in the answer
    and a page of the active records as rows, whenever the skip computed
    from them is not negative; when it is
    negative (a negative page, say) the store refuses the query, the
    service answers with its generic failure, and the farmers route of the
    JavaScript pages sends 400. *)
Theorem pagination_parameters (k : kind) (q : ListQuery) (st : store)
        (params : PaginationParams) :
  (badPage (parseInt10 (orElse (q_page q) "1")) = true ->
   handleGetFarmers q st = respond 400 (fail "Invalid page number"))
  /\ (badPage (parseInt10 (orElse (q_page q) "1")) = false ->
      badLimit (parseInt10 (orElse (q_limit q) "10")) = true ->
      handleGetFarmers q st
      = respond 400 (fail "Invalid limit (must be between 1 and 100)"))
  /\ JS.getList k st params = JS.getList k st (clamped params)
  /\ (reachable st = true ->
      let p := JS.orNum (p_page params) 1 in
      let lim := Z.min (JS.orNum (p_limit params) 10) 100 in
      let sortBy := if JS.given (p_sortBy params)
                    then orElse (p_sortBy params) "" else "createdAt" in
      let dir := if JS.given (p_sortBy params)
                 then (if String.eqb (orElse (p_sortOrder params) "") "desc"
                       then -1 else 1)
                 else -1 in
      (0 <= (p - 1) * lim ->
       exists rows,
         JS.getList k st params = okPage rows p lim (activeCount st)
         /\ isPage (splitDots "" sortBy) dir ((p - 1) * lim) lim
                   (List.filter isActive (docs st)) rows
         /\ forall d, In d rows -> In d (docs st) /\ isActive d = true)
      /\ ((p - 1) * lim < 0 ->
          JS.getList k st params
          = JS.failPage ("Failed to fetch " ++ noun k ++ "s")))
  /\ (reachable st = true ->
      orElse (q_search q) "" = "" ->
      let p := JS.orNum (p_page (jsParams q)) 1 in
      let lim := Z.min (JS.orNum (p_limit (jsParams q)) 10) 100 in
      status (handleGetFarmersJS q st)
      = if 0 <=? (p - 1) * lim then 200 else 400).
Proof.
  split; [|split; [|split; [|split]]].
  - unfold handleGetFarmers, badPage.
    destruct (parseInt10 (orElse (q_page q) "1")) as [p|]; [|reflexivity].
    intros ->. reflexivity.
  - unfold handleGetFarmers, badPage, badLimit.
    destruct (parseInt10 (orElse (q_page q) "1")) as [p|]; [|discriminate].
    intros ->.
    destruct (parseInt10 (orElse (q_limit q) "10")) as [l|]; [|reflexivity].
    intros ->. reflexivity.
  - unfold JS.getList, JS.paged.
    rewrite clamped_page, clamped_limit. reflexivity.
  - intros Hr p lim sortBy dir.
    destruct (@JS_getList_runs k st params Hr) as [Hok Hfail].
    split; [|exact Hfail].
    intros Hs. destruct (Hok Hs) as (rows & E & Hpage).
    exists rows. split; [exact E|]. split; [exact Hpage|].
    destruct Hpage as (all & Hp & _ & Hrows).
    intros d Hd. subst rows. apply limit_In, skipn_incl in Hd.
    apply (Permutation_in _ Hp) in Hd. apply filter_In in Hd. exact Hd.
  - intros Hr Hq p lim. unfold handleGetFarmersJS. rewrite Hq.
    simpl negb. cbv iota. unfold JS.getFarmers.
    destruct (@JS_getList_runs Farmer st (jsParams q) Hr) as [Hok Hfail].
    fold p lim in Hok, Hfail.
    destruct (0 <=? (p - 1) * lim) eqn:E.
    + apply Z.leb_le in E. destruct (Hok E) as (rows & -> & _). reflexivity.
    + apply Z.leb_gt in E. rewrite (Hfail E). reflexivity.
Qed.

End Validation.

(** C5 as stated fails: asked for 500 records a page, the JavaScript list
    succeeds and answers with the limit 100, and the roasters route sends
    that answer with status 200. *)
Lemma list_clamps_limit :
  let r := JS.getRoasters (P := Reference.platform) Sample.roasters
                          (Sample.pageOf 1 500) in
  let q := {| Routes.q_page := Some "1"; Routes.q_limit := Some "500";
              Routes.q_sortBy := None; Routes.q_sortOrder := None;
              Routes.q_search := None; Routes.q_tier := None |} in
  badLimit (Some 500) = true
  /\ success r = true
  /\ option_map limit (pagination r) = Some 100
  /\ data r = Some (VArr [VObj Sample.roasterB; VObj Sample.roasterA])
  /\ Routes.handleGetRoasters (P := Reference.platform) q Sample.roasters
     = respond 200 r.
Proof. vm_compute. repeat split. Qed.

(** ** The update object of the PUT routes *)

Section UpdateData.
Context {P : Platform}.
Import Store Routes Spec.

Lemma shaped_nil W : shaped W None [].
Proof.
  repeat split; simpl; [constructor | intros x []].
Qed.

Lemma shaped_set W a key v u :
  shaped W a u -> In key W -> key <> "isActive" ->
  shaped W a (setField key v u).
Proof.
  intros (Hn & Hi & Ha) Hk Hne. repeat split.
  - now apply NoDup_setField.
  - intros x Hx. apply keys_setField in Hx. destruct Hx as [-> | Hx]; auto.
  - rewrite getField_setField_ne; auto.
Qed.

Lemma shaped_setIfDefined W a key x f u u' :
  setIfDefined key x f u = Ok u' ->
  shaped W a u -> In key W -> key <> "isActive" -> shaped W a u'.
Proof.
  unfold setIfDefined. intros H Hs Hk Hne.
  destruct (isUndefined x).
  - injection H as <-. assumption.
  - destruct (f x) as [y|]; simpl in H; [|discriminate].
    injection H as <-. now apply shaped_set.
Qed.

Lemma shaped_isActive W a v u :
  shaped W a u -> In "isActive" W ->
  shaped W (Some v) (setField "isActive" v u).
Proof.
  intros (Hn & Hi & Ha) Hk. repeat split.
  - now apply NoDup_setField.
  - intros x Hx. apply keys_setField in Hx. destruct Hx as [-> | Hx]; auto.
  - apply getField_setField_eq.
Qed.

Ltac crunch :=
  repeat match goal with
    | H : bind ?r _ = Ok _ |- _ =>
        destruct r eqn:?; cbn [bind] in H; [|discriminate H]
    | H : (if ?c then _ else _) = Ok _ |- _ => destruct c eqn:?
    | H : Ok _ = Ok _ |- _ => injection H as H; subst
    | H : Throw = Ok _ |- _ => discriminate H
    | H : match ?v with _ => _ end = Ok _ |- _ => destruct v
    end.

Ltac in_list := simpl; tauto.

Ltac shape :=
  repeat first
    [ assumption
    | apply shaped_nil
    | match goal with
      | |- shaped _ (Some _) (setField "isActive" _ _) =>
          apply shaped_isActive with (a := None); [ | in_list ]
      | H : setIfDefined _ _ _ ?u = Ok ?u' |- shaped _ _ ?u' =>
          eapply shaped_setIfDefined; [ exact H | | in_list | discriminate ]
      | |- shaped _ _ (setField _ _ _) =>
          apply shaped_set; [ | in_list | discriminate ]
      | |- shaped _ _ (if ?c then _ else _) => destruct c
      | |- shaped _ _ (match ?c with _ => _ end) => destruct c
      end ].

(** One statement of a handler at a time: the update object it leaves is
    shaped like the one it found. *)
Ltac step W H :=
  match type of H with
  | bind ?r _ = Ok _ =>
      let E := fresh "E" in
      let x := fresh "x" in
      destruct r as [x|] eqn:E; cbn [bind] in H; [|discriminate H];
      match type of x with
      | value => idtac
      | _ =>
          let S := fresh "S" in
          assert (S : shaped W None x) by (clear H; crunch; shape);
          clear E
      end
  end.

Lemma roasterUpdateData_shaped reqBody u :
  roasterUpdateData reqBody = Ok u ->
  shaped (updatable Roaster) (isActiveOf reqBody) u.
Proof.
  unfold roasterUpdateData. intros H.
  repeat step (updatable Roaster) H.
  injection H as <-. unfold isActiveOf.
  match goal with E : prop _ "isActive" = Ok _ |- _ => rewrite E end.
  shape.
Qed.

Lemma farmerUpdateData_shaped reqBody u :
  farmerUpdateData reqBody = Ok u ->
  shaped (updatable Farmer) (isActiveOf reqBody) u.
Proof.
  unfold farmerUpdateData. intros H.
  repeat step (updatable Farmer) H.
  injection H as <-. unfold isActiveOf.
  match goal with E : prop _ "isActive" = Ok _ |- _ => rewrite E end.
  shape.
Qed.

Lemma updateData_shaped k reqBody u :
  updateDataOf k reqBody = Ok u -> shaped (updatable k) (isActiveOf reqBody) u.
Proof.
  destruct k; [apply farmerUpdateData_shaped | apply roasterUpdateData_shaped].
Qed.

End UpdateData.

(** ** The update object, field by field *)

Section UpdateObject.
Context {P : Platform}.
Import Store Routes Spec.

Lemma setIfDefined_other key key' x f u u' :
  setIfDefined key' x f u = Ok u' -> key <> key' ->
  getField key u' = getField key u.
Proof.
  unfold setIfDefined. intros H Hne.
  destruct (isUndefined x).
  - now injection H as <-.
  - destruct (f x) as [y|]; simpl in H; [|discriminate].
    injection H as <-. now apply getField_setField_ne.
Qed.

(** A field the handler trims: set to the trimmed string when the body
    has a string there, left out when the body has nothing there. *)
Lemma setIfDefined_trim key x u u' :
  setIfDefined key x trim u = Ok u' -> getField key u = None ->
  getField key u' = trimmedOf x.
Proof.
  unfold setIfDefined, trimmedOf. intros H Hn.
  destruct x; simpl in H; try discriminate.
  - now injection H as <-.
  - injection H as <-. apply getField_setField_eq.
Qed.

Ltac crunch_o :=
  repeat match goal with
    | H : bind ?r _ = Ok _ |- _ =>
        destruct r eqn:?; cbn [bind] in H; [|discriminate H]
    | H : (if ?c then _ else _) = Ok _ |- _ => destruct c eqn:?
    | H : Ok _ = Ok _ |- _ => injection H as H; subst
    | H : Throw = Ok _ |- _ => discriminate H
    | H : match ?v with _ => _ end = Ok _ |- _ => destruct v
    end.

(** The field is not touched by the statement at hand. *)
Ltac kept :=
  repeat first
    [ assumption
    | reflexivity
    | match goal with
      | H : setIfDefined _ _ _ ?u = Ok ?u' |- getField _ ?u' = _ =>
          erewrite setIfDefined_other; [ | exact H | discriminate ]
      | |- getField _ (setField _ _ _) = _ =>
          rewrite getField_setField_ne by discriminate
      | |- getField _ (if ?c then _ else _) = _ => destruct c
      | |- getField _ (match ?c with _ => _ end) = _ => destruct c
      end ].

(** One statement of a handler at a time, for the field [key]: the
    statement that trims it sets it, every other one leaves it as it
    is. *)
Ltac walk key H :=
  match type of H with
  | bind ?r _ = Ok _ =>
      let E := fresh "E" in
      let x := fresh "x" in
      destruct r as [x|] eqn:E; cbn [bind] in H; [|discriminate H];
      match type of x with
      | value => idtac
      | _ =>
          let S' := fresh "S" in
          match type of E with
          | setIfDefined key ?v trim ?u = Ok _ =>
              assert (S' : getField key x = trimmedOf v)
                by (eapply setIfDefined_trim; [exact E | kept])
          | _ =>
              match goal with
              | S0 : getField key _ = ?w |- _ =>
                  assert (S' : getField key x = w)
                    by (clear H; crunch_o; kept);
                  clear S0
              | _ =>
                  assert (S' : getField key x = None)
                    by (clear H; crunch_o; kept)
              end
          end;
          clear E
      end
  end.

Ltac walked key H :=
  repeat walk key H;
  injection H as <-;
  match goal with
  | S0 : getField key ?x = ?w |- _ => rewrite <- S0
  end; kept.

Lemma farmer_trimmed reqBody u key :
  farmerUpdateData reqBody = Ok u -> In key (trimmed Farmer) ->
  getField key u = trimmedAt reqBody key.
Proof.
  unfold farmerUpdateData, trimmedAt. intros H Hk. simpl in Hk.
  destruct Hk as [<- | [<- | [<- | []]]];
    [walked "name" H | walked "farmName" H | walked "description" H].
Qed.

Lemma roaster_trimmed reqBody u key :
  roasterUpdateData reqBody = Ok u -> In key (trimmed Roaster) ->
  getField key u = trimmedAt reqBody key.
Proof.
  unfold roasterUpdateData, trimmedAt. intros H Hk. simpl in Hk.
  destruct Hk as [<- | [<- | [<- | []]]];
    [walked "businessName" H | walked "ownerName" H | walked "description" H].
Qed.

Lemma updateData_trimmed k reqBody u key :
  updateDataOf k reqBody = Ok u -> In key (trimmed k) ->
  getField key u = trimmedAt reqBody key.
Proof.
  destruct k; [apply farmer_trimmed | apply roaster_trimmed].
Qed.

(** The farmers route builds [location] anew from the three parts it
    reads: a part the body leaves out is [undefined] in the update
    object. *)
Lemma farmer_location reqBody u loc :
  farmerUpdateData reqBody = Ok u -> prop reqBody "location" = Ok loc ->
  if isUndefined loc then getField "location" u = None
  else exists state city coordinates state' city',
      prop loc "state" = Ok state /\ optTrim state = Ok state' /\
      prop loc "city" = Ok city /\ optTrim city = Ok city' /\
      prop loc "coordinates" = Ok coordinates /\
      getField "location" u
      = Some (VObj [("state", state'); ("city", city');
                    ("coordinates",
                     if truthy coordinates then coordinates
                     else VUndefined)]).
Proof.
  unfold farmerUpdateData. intros H Hl. rewrite Hl in H.
  destruct (isUndefined loc) eqn:Hu.
  - do 11 walk "location" H. rewrite Hu in H. cbn [bind] in H.
    repeat walk "location" H.
    injection H as <-.
    match goal with
    | S0 : getField "location" ?x = ?w |- _ => rewrite <- S0
    end; kept.
  - do 11 walk "location" H. rewrite Hu in H.
    destruct (prop loc "state") as [state|] eqn:Es; cbn [bind] in H;
      [|discriminate H].
    destruct (optTrim state) as [state'|] eqn:Es'; cbn [bind] in H;
      [|discriminate H].
    destruct (prop loc "city") as [city|] eqn:Ec; cbn [bind] in H;
      [|discriminate H].
    destruct (optTrim city) as [city'|] eqn:Ec'; cbn [bind] in H;
      [|discriminate H].
    destruct (prop loc "coordinates") as [coordinates|] eqn:Eo;
      cbn [bind] in H; [|discriminate H].
    exists state, city, coordinates, state', city'.
    repeat (split; [first [reflexivity | assumption]|]).
    match goal with
    | S1 : getField "location" _ = None |- _ => clear S1
    end.
    match type of H with
    | context [setField "location" ?v ?x] =>
        remember (setField "location" v x) as u0 eqn:Eu;
        assert (Hset : getField "location" u0 = Some v)
          by (subst u0; apply getField_setField_eq);
        clear Eu
    end.
    repeat walk "location" H.
    injection H as <-.
    match goal with
    | S1 : getField "location" ?x = ?w |- _ => rewrite <- S1
    end; kept.
Qed.

End UpdateObject.
(** ** Update *)

Section UpdateFacts.
Context {P : Platform}.
Import Store Routes Spec.

Lemma updated_merged d u now : NoDup (keys u) -> merged d u now (updated d u now).
Proof.
  intros Hn key. unfold updated.
  rewrite getField_set by now apply NoDup_setField.
  destruct (String.eqb key "updatedAt") eqn:E.
  - apply String.eqb_eq in E. subst key.
    now rewrite getField_setField_eq.
  - apply String.eqb_neq in E. now rewrite getField_setField_ne.
Qed.

Lemma TS_update_found k st id u now pre d post :
  reachable st = true -> ObjectId_isValid id = true ->
  docs st = pre ++ d :: post ->
  (forall x, In x pre -> hasId (ObjectId_new id) x = false) ->
  hasId (ObjectId_new id) d = true ->
  TS.update k st id u now
  = (ok (VObj (updated d u now)) (Some (Noun k ++ " updated successfully")%string),
     withDocs st (pre ++ updated d u now :: post)).
Proof.
  intros Hr Hv E Hp Hd. unfold TS.update, findOneAndUpdate.
  rewrite Hr, Hv, E. simpl negb. cbv iota.
  rewrite setFirst_found.
  - reflexivity.
  - intros x Hx. rewrite matches_id. auto.
  - now rewrite matches_id.
Qed.

Lemma TS_update_missing k st id u now :
  reachable st = true -> ObjectId_isValid id = true ->
  (forall x, In x (docs st) -> hasId (ObjectId_new id) x = false) ->
  TS.update k st id u now = (fail (Noun k ++ " not found")%string, st).
Proof.
  intros Hr Hv H. unfold TS.update, findOneAndUpdate.
  rewrite Hr, Hv. simpl negb. cbv iota.
  rewrite setFirst_missing; [reflexivity|].
  intros x Hx. rewrite matches_id. auto.
Qed.

(** The JavaScript service answers with what the driver resolves to. *)
Lemma JS_update_found k st id u now pre d post :
  reachable st = true -> ObjectId_isValid id = true ->
  docs st = pre ++ d :: post ->
  (forall x, In x pre -> hasId (ObjectId_new id) x = false) ->
  hasId (ObjectId_new id) d = true ->
  isActive d = true ->
  JS.update k st id u now
  = (ok (modifyResult (Some (updated d u now)))
        (Some (Noun k ++ " updated successfully")%string),
     withDocs st (pre ++ updated d u now :: post)).
Proof.
  intros Hr Hv E Hp Hd Ha. unfold JS.update, findOneAndUpdate.
  rewrite Hr, Hv, E. simpl negb. cbv iota.
  rewrite setFirst_found.
  - reflexivity.
  - intros x Hx. rewrite matches_id_active, (Hp x Hx). reflexivity.
  - now rewrite matches_id_active, Hd, Ha.
Qed.

(** C4, amended.  Update merges top-level fields, and the services take
    an empty field set.  Take a reachable store, a well-formed id and the
    first record [d] with that id, active.
    (1) For update data whose keys are distinct field names, the empty
    data among them, the update of both services succeeds, replaces [d] in
    place and changes nothing else; the stored record has each supplied
    field as a whole, [updatedAt] at the clock, and every other field as
    before.  The TypeScript service returns the stored record, the
    JavaScript service the reply of the driver with the record under
    [value].
    (2) With no data the services still succeed: the record keeps every
    field but [updatedAt].
    (3) The PUT route builds its update object from the body: a field it
    trims is set to the trimmed string of the body and is absent when the
    body has nothing there.  The route answers 400 "No valid fields
    provided for update" without touching the store when the object has
    no key, and hands it to the TypeScript service otherwise, with the
    effect of (1).
    (4) The farmers route builds [location] anew from the [state], [city]
    and [coordinates] of the body, so that a part the body leaves out
    replaces the stored one by nothing. *)
Theorem update_is_partial (k : kind) (st : store) (id : string) (now : Z)
        (pre : list doc) (d : doc) (post : list doc) :
  reachable st = true ->
  ObjectId_isValid id = true ->
  docs st = pre ++ d :: post ->
  (forall x, In x pre -> hasId (ObjectId_new id) x = false) ->
  hasId (ObjectId_new id) d = true ->
  isActive d = true ->
  let says := Some (Noun k ++ " updated successfully")%string in
  let after d' := withDocs st (pre ++ d' :: post) in
  (forall data,
      NoDup (keys data) -> forallb fieldName (keys data) = true ->
      exists d',
        TS.update k st id data now = (ok (VObj d') says, after d')
        /\ JS.update k st id data now
           = (ok (modifyResult (Some d')) says, after d')
        /\ merged d data now d')
  /\ (exists d',
         TS.update k st id [] now = (ok (VObj d') says, after d')
         /\ JS.update k st id [] now
            = (ok (modifyResult (Some d')) says, after d')
         /\ forall key,
             getField key d'
             = if String.eqb key "updatedAt" then Some (VDate now)
               else getField key d)
  /\ (forall reqBody u,
         truthy reqBody = true -> updateDataOf k reqBody = Ok u ->
         (forall key, In key (trimmed k) ->
                      getField key u = trimmedAt reqBody key)
         /\ (noKeys u = true ->
             handleUpdate k id reqBody st now
             = (respond 400 (fail "No valid fields provided for update"), st))
         /\ (noKeys u = false ->
             exists d',
               handleUpdate k id reqBody st now
               = (respond 200 (ok (VObj d') says), after d')
               /\ merged d u now d'))
  /\ (forall reqBody u loc,
         k = Farmer ->
         updateDataOf k reqBody = Ok u ->
         prop reqBody "location" = Ok loc -> isUndefined loc = false ->
         exists state city coordinates state' city',
           prop loc "state" = Ok state /\ optTrim state = Ok state' /\
           prop loc "city" = Ok city /\ optTrim city = Ok city' /\
           prop loc "coordinates" = Ok coordinates /\
           getField "location" u
           = Some (VObj [("state", state'); ("city", city');
                         ("coordinates",
                          if truthy coordinates then coordinates
                          else VUndefined)])).
Proof.
  intros Hr Hv E Hp Hd Ha says after. split; [|split; [|split]].
  - intros data Hn _. exists (updated d data now). split; [|split].
    + now apply TS_update_found.
    + now apply JS_update_found.
    + now apply updated_merged.
  - exists (updated d [] now). split; [|split].
    + now apply TS_update_found.
    + now apply JS_update_found.
    + intros key. rewrite (@updated_merged d [] now (NoDup_nil _) key).
      reflexivity.
  - intros reqBody u Ht Hu. split; [|split].
    + intros key Hk. now apply (@updateData_trimmed P k reqBody u key).
    + intros Hk. unfold handleUpdate. rewrite Ht, Hu. simpl negb.
      cbv iota. rewrite Hk. reflexivity.
    + intros Hk. unfold handleUpdate. rewrite Ht, Hu. simpl negb.
      cbv iota. rewrite Hk.
      exists (updated d u now). split.
      * rewrite (@TS_update_found k st id u now pre d post) by assumption.
        destruct k; reflexivity.
      * apply updated_merged. now destruct (updateData_shaped _ _ Hu).
  - intros reqBody u loc -> Hu Hl Hn.
    pose proof (@farmer_location P reqBody u loc Hu Hl) as H.
    rewrite Hn in H. exact H.
Qed.

End UpdateFacts.

(** ** Who writes [createdAt], [updatedAt] and [isActive] *)

Section ManagedFields.
Context {P : Platform}.
Import Store Routes Spec.

Lemma TS_update_effect k st id u now :
  snd (TS.update k st id u now) = st
  \/ exists pre d post,
       docs st = pre ++ d :: post
       /\ snd (TS.update k st id u now)
          = withDocs st (pre ++ updated d u now :: post).
Proof.
  destruct (reachable st) eqn:Hr; [|left; unfold TS.update; now rewrite Hr].
  destruct (ObjectId_isValid id) eqn:Hv;
    [|left; unfold TS.update; now rewrite Hr, Hv].
  destruct (first_id (ObjectId_new id) (docs st))
    as [H | (pre & d & post & E & Hp & Hd)].
  - left. now rewrite TS_update_missing.
  - right. exists pre, d, post. split; [assumption|].
    now rewrite (@TS_update_found P k st id u now pre d post).
Qed.

Lemma TS_delete_effect k st id now :
  snd (TS.delete k st id now) = st
  \/ exists pre d post,
       docs st = pre ++ d :: post
       /\ snd (TS.delete k st id now)
          = withDocs st (pre ++ softDeleted now d :: post).
Proof.
  destruct (reachable st) eqn:Hr; [|left; unfold TS.delete; now rewrite Hr].
  destruct (ObjectId_isValid id) eqn:Hv;
    [|left; unfold TS.delete; now rewrite Hr, Hv].
  destruct (@TS_delete_outcome P k st id now Hr Hv)
    as [[_ ->] | (pre & d & post & E & _ & _ & ->)].
  - now left.
  - right. exists pre, d, post. auto.
Qed.

Lemma isActiveOf_bson reqBody a : isActiveOf reqBody = Some a -> bson a = a.
Proof.
  unfold isActiveOf. destruct (prop reqBody "isActive") as [v|]; [|discriminate].
  destruct (isUndefined v); [discriminate|]. now intros [= <-].
Qed.

Lemma updatable_not_createdAt k : ~ In "createdAt" (updatable k).
Proof. destruct k; simpl; intuition discriminate. Qed.

(** What a request to an [[id]] route writes. *)
Lemma id_route_fields (k : kind) (method : string) (id : option string)
      (reqBody : value) (st : store) (now : Z) :
  let out := handler k method id reqBody st now in
  snd out = st
  \/ exists pre d d' post,
       docs st = pre ++ d :: post
       /\ snd out = withDocs st (pre ++ d' :: post)
       /\ getField "createdAt" d' = getField "createdAt" d
       /\ getField "updatedAt" d' = Some (VDate now)
       /\ getField "isActive" d' =
          if String.eqb method "DELETE" then Some (VBool false)
          else match isActiveOf reqBody with
               | Some a => Some a
               | None => getField "isActive" d
               end.
Proof.
  unfold handler.
  destruct (String.eqb method "OPTIONS"); [now left|].
  destruct id as [i|]; [|now left].
  destruct (String.eqb i ""); [now left|].
  destruct (String.eqb method "GET"); [now left|].
  destruct (String.eqb method "PUT") eqn:Eput.
  - apply String.eqb_eq in Eput. subst method. simpl String.eqb. cbv iota.
    unfold handleUpdate.
    destruct (truthy reqBody); simpl negb; cbv iota; [|now left].
    destruct (updateDataOf k reqBody) as [u|] eqn:Hu; [|now left].
    destruct (noKeys u); [now left|].
    destruct (updateData_shaped _ _ Hu) as (Hn & Hi & Ha).
    destruct (TS_update_effect k st i u now)
      as [H | (pre & d & post & E & H)].
    + left. destruct (TS.update k st i u now). exact H.
    + right. exists pre, d, (updated d u now), post.
      split; [assumption|]. split; [destruct (TS.update k st i u now); exact H|].
      pose proof (@updated_merged d u now Hn) as Hm.
      split; [|split].
      * rewrite (Hm "createdAt"). simpl String.eqb. cbv iota.
        assert (Hc : getField "createdAt" u = None).
        { apply getField_None_keys. intros Hc.
          exact (@updatable_not_createdAt k (Hi _ Hc)). }
        now rewrite Hc.
      * now rewrite (Hm "updatedAt").
      * rewrite (Hm "isActive"). simpl String.eqb. cbv iota. rewrite Ha.
        destruct (isActiveOf reqBody) as [a|] eqn:Ea; [|reflexivity].
        now rewrite (@isActiveOf_bson reqBody a Ea).
  - destruct (String.eqb method "DELETE") eqn:Edel; [|now left].
    unfold handleDelete.
    destruct (TS_delete_effect k st i now)
      as [H | (pre & d & post & E & H)].
    + left. destruct (TS.delete k st i now). exact H.
    + right. exists pre, d, (softDeleted now d), post.
      split; [assumption|]. split; [destruct (TS.delete k st i now); exact H|].
      rewrite !softDeleted_field. simpl. auto.
Qed.


Ltac crunch_create :=
  repeat match goal with
    | H : bind ?r _ = Ok _ |- _ =>
        destruct r eqn:?; cbn [bind] in H; [|discriminate H]
    | H : (if ?c then _ else _) = Ok _ |- _ => destruct c eqn:?
    | H : Ok (inl _) = Ok (inr _) |- _ => discriminate H
    | H : Ok (inr _) = Ok (inr _) |- _ => injection H as H; subst
    end.

Lemma createData_isActive k reqBody data :
  createDataOf k reqBody = Ok (inr data) ->
  getField "isActive" data = Some (VBool true).
Proof.
  destruct k; simpl; unfold farmerCreateData, roasterCreateData; intros H;
    crunch_create; reflexivity.
Qed.

Lemma created_fields data now fresh :
  getField "isActive" data = Some (VBool true) ->
  let d := ("_id", VOid fresh)
           :: bsonDoc (assign data [("createdAt", VDate now);
                                    ("updatedAt", VDate now)]) in
  getField "createdAt" d = Some (VDate now)
  /\ getField "updatedAt" d = Some (VDate now)
  /\ getField "isActive" d = Some (VBool true).
Proof.
  intros Ha d. subst d.
  assert (Hcons : forall key rest,
             key <> "_id" ->
             getField key (("_id", VOid fresh) :: rest) = getField key rest).
  { intros key rest Hk. simpl. apply String.eqb_neq in Hk. now rewrite Hk. }
  rewrite !Hcons by discriminate.
  rewrite !getField_bsonDoc. unfold assign. simpl fold_left.
  rewrite getField_setField_ne by discriminate.
  rewrite !getField_setField_eq.
  rewrite !getField_setField_ne by discriminate.
  now rewrite Ha.
Qed.

(** What a create route writes. *)
Lemma create_route_fields (k : kind) (reqBody : value) (st : store) (now : Z)
      (fresh : string) :
  let out := handleCreate k reqBody st now fresh in
  snd out = st
  \/ exists d,
       snd out = withDocs st (docs st ++ [d])
       /\ getField "createdAt" d = Some (VDate now)
       /\ getField "updatedAt" d = Some (VDate now)
       /\ getField "isActive" d = Some (VBool true).
Proof.
  unfold handleCreate.
  destruct (createDataOf k reqBody) as [[answer|data]|] eqn:E;
    [now left| |now left].
  pose proof (createData_isActive _ _ E) as Ha.
  unfold JS.create.
  destruct (reachable st); simpl negb; cbv iota; [|now left].
  unfold insertOne. destruct (existsb (hasId fresh) (docs st)); [now left|].
  right. eexists. split; [reflexivity|].
  now apply created_fields.
Qed.

(** C2, amended.  No input of a request sets [createdAt] or [updatedAt],
    and only the body of a PUT sets [isActive].  (1) A request to an [[id]]
    route, whatever its method, id and body, leaves the store as it was or
    replaces one record in place; the replacing record has the [createdAt]
    of the replaced one and the clock as [updatedAt]; its [isActive] is
    [false] after a DELETE, and after a PUT it is [Boolean(body.isActive)]
    when the body has the field and unchanged otherwise.  (2) A POST to a
    JavaScript create route leaves the store as it was or appends one
    record whose [createdAt] and [updatedAt] are the clock and whose
    [isActive] is [true].  (3) A POST to the TypeScript farmers route
    writes nothing. *)
Theorem managed_fields (k : kind) (method : string) (id : option string)
        (reqBody : value) (st : store) (now : Z) (fresh : string) :
  (let out := handler k method id reqBody st now in
   snd out = st
   \/ exists pre d d' post,
        docs st = pre ++ d :: post
        /\ snd out = withDocs st (pre ++ d' :: post)
        /\ getField "createdAt" d' = getField "createdAt" d
        /\ getField "updatedAt" d' = Some (VDate now)
        /\ getField "isActive" d' =
           if String.eqb method "DELETE" then Some (VBool false)
           else match isActiveOf reqBody with
                | Some a => Some a
                | None => getField "isActive" d
                end)
  /\ (let out := handleCreate k reqBody st now fresh in
      snd out = st
      \/ exists d,
           snd out = withDocs st (docs st ++ [d])
           /\ getField "createdAt" d = Some (VDate now)
           /\ getField "updatedAt" d = Some (VDate now)
           /\ getField "isActive" d = Some (VBool true))
  /\ snd (handleCreateFarmer reqBody st) = st.
Proof.
  split; [apply id_route_fields|]. split; [apply create_route_fields|].
  unfold handleCreateFarmer.
  destruct (truthy reqBody); simpl negb; cbv iota; [|reflexivity].
  match goal with |- snd (match ?r with _ => _ end) = _ => destruct r end;
    reflexivity.
Qed.

End ManagedFields.

(** C2 as stated fails: a PUT whose body is [{isActive: false}] writes
    [isActive = false] on the stored record, and a PUT whose body is
    [{isActive: true}] brings a deleted record back. *)
Lemma put_sets_isActive :
  let off := Routes.handler (P := Reference.platform) Roaster "PUT"
               (Some Sample.idA) (VObj [("isActive", VBool false)])
               Sample.roasters 300 in
  let gone := Routes.handler (P := Reference.platform) Roaster "DELETE"
                (Some Sample.idB) VUndefined Sample.roasters 300 in
  let back := Routes.handler (P := Reference.platform) Roaster "PUT"
                (Some Sample.idB) (VObj [("isActive", VBool true)])
                (snd gone) 400 in
  status (fst off) = 200
  /\ map (getField "isActive") (Store.docs (snd off))
     = [Some (VBool false); Some (VBool true)]
  /\ map (getField "isActive") (Store.docs (snd gone))
     = [Some (VBool true); Some (VBool false)]
  /\ status (fst back) = 200
  /\ map (getField "isActive") (Store.docs (snd back))
     = [Some (VBool true); Some (VBool true)].
Proof. vm_compute. repeat split. Qed.

(** ** Search *)

Section SearchFacts.
Context {P : Platform}.
Import Store Spec.

Lemma matches_search paths q d :
  matches [CTrue "isActive"; COrRegex paths q "i"] d = selected paths q d.
Proof.
  unfold selected, isActive. simpl. now rewrite andb_true_r.
Qed.

Lemma accepted_search paths q :
  accepted [CTrue "isActive"; COrRegex paths q "i"] = regex_valid q.
Proof. simpl. now rewrite andb_true_r. Qed.

Lemma filter_search paths q ds :
  List.filter (matches [CTrue "isActive"; COrRegex paths q "i"]) ds
  = List.filter (selected paths q) ds.
Proof. apply filter_ext. intros d. apply matches_search. Qed.

(** The count and the page of a search the store accepts. *)
Lemma search_page paths q sortBy dir s lim ds :
  regex_valid q = true -> dir <> 0 -> 0 <= s ->
  let f := [CTrue "isActive"; COrRegex paths q "i"] in
  let hits := List.filter (selected paths q) ds in
  countDocuments f ds = Ok (Z.of_nat (length hits))
  /\ exists rows,
       cursor f sortBy dir s lim ds = Ok rows
       /\ isPage (splitDots "" sortBy) dir s lim hits rows.
Proof.
  intros Hq Hd Hs f hits. split.
  - unfold countDocuments. subst f hits.
    now rewrite accepted_search, Hq, filter_search.
  - destruct (@cursor_runs P f sortBy dir s lim ds) as [rows Hrows].
    + subst f. now rewrite accepted_search.
    + assumption.
    + exists rows. split; [assumption|].
      subst hits. rewrite <- filter_search.
      now apply (@cursor_isPage P f sortBy dir s lim ds rows).
Qed.

(** A search the store refuses. *)
Lemma search_refused paths q sortBy dir s lim ds :
  regex_valid q = false ->
  let f := [CTrue "isActive"; COrRegex paths q "i"] in
  countDocuments f ds = Throw /\ cursor f sortBy dir s lim ds = Throw.
Proof.
  intros Hq f. unfold countDocuments, cursor, find. subst f.
  now rewrite accepted_search, Hq.
Qed.

(** The page of a single candidate. *)
Lemma isPage_one path dir n d rows :
  isPage path dir 0 n [d] rows -> rows = limit n [d].
Proof.
  intros (all & Hp & _ & ->).
  apply Permutation_sym, Permutation_length_1_inv in Hp. now subst all.
Qed.

(** The candidates of a page that starts at the first and is long enough
    are all on it. *)
Lemma isPage_all path dir n candidates rows :
  isPage path dir 0 n candidates rows ->
  Z.of_nat (length candidates) <= Z.abs n \/ n = 0 ->
  Permutation rows candidates.
Proof.
  intros (all & Hp & _ & ->) Hn. simpl. unfold limit.
  destruct (n =? 0) eqn:E; [assumption|].
  rewrite firstn_all2; [assumption|].
  rewrite (Permutation_length Hp). lia.
Qed.

End SearchFacts.

Section SearchRule.
Context {P : Platform}.
Import Store Spec.

(** C7, amended.  The search hands the query text to the store as a
    regular expression with the option [i].  On a reachable store:
    (1) when the store accepts the pattern and the skip is not negative,
    the search of both services counts exactly the records that are active
    and have, at one of the search paths of the resource kind, a text the
    pattern matches, and returns a page of these records: they are put in
    the order of the sort key (records with equal keys in an order the
    store chooses), the skip is dropped and the limit taken.  On a first
    page that is long enough every such record is returned.
    (2) When the store refuses the pattern, both searches fail. *)
Theorem search_rule (k : kind) (st : store) (q : string)
        (params : PaginationParams) :
  reachable st = true ->
  (regex_valid q = true ->
   (let pg := orElse (p_page params) 1 in
    let lim := orElse (p_limit params) 10 in
    let hits := List.filter (selected (TS.searchPaths k) q) (docs st) in
    let path := splitDots "" (orElse (p_sortBy params) (TS.searchSortBy k)) in
    let dir := if String.eqb (orElse (p_sortOrder params) "desc") "asc"
               then 1 else -1 in
    0 <= (pg - 1) * lim ->
    exists rows,
      TS.search k st q params = okPage rows pg lim (Z.of_nat (length hits))
      /\ isPage path dir ((pg - 1) * lim) lim hits rows
      /\ (forall d, In d rows ->
                    In d (docs st) /\ selected (TS.searchPaths k) q d = true)
      /\ (pg = 1 -> Z.of_nat (length hits) <= Z.abs lim \/ lim = 0 ->
          Permutation rows hits))
   /\ (let pg := JS.orNum (p_page params) 1 in
       let lim := Z.min (JS.orNum (p_limit params) 10) 100 in
       let hits := List.filter (selected (JS.searchPaths k) q) (docs st) in
       0 <= (pg - 1) * lim ->
       exists rows,
         JS.search k st q params = okPage rows pg lim (Z.of_nat (length hits))
         /\ isPage ["createdAt"] (-1) ((pg - 1) * lim) lim hits rows
         /\ (forall d, In d rows ->
                       In d (docs st) /\ selected (JS.searchPaths k) q d = true)
         /\ (pg = 1 -> Z.of_nat (length hits) <= Z.abs lim \/ lim = 0 ->
             Permutation rows hits)))
  /\ (regex_valid q = false ->
      TS.search k st q params
      = TS.failPage ("Failed to search " ++ noun k ++ "s")
      /\ JS.search k st q params
         = JS.failPage ("Failed to search " ++ noun k ++ "s")).
Proof.
  intros Hr. split.
  - intros Hq. split.
    + intros pg lim hits path dir Hs.
      assert (Hd : dir <> 0) by (subst dir; destruct (String.eqb _ _); lia).
      destruct (@search_page P (TS.searchPaths k) q
                  (orElse (p_sortBy params) (TS.searchSortBy k)) dir
                  ((pg - 1) * lim) lim (docs st) Hq Hd Hs)
        as (Hc & rows & Hrows & Hpage).
      exists rows. split; [|split; [assumption|split]].
      * unfold TS.search, TS.paged. rewrite Hr. simpl negb. cbv iota.
        fold pg lim dir. rewrite Hc. cbn [bind]. rewrite Hrows. reflexivity.
      * intros d Hd'.
        destruct (@cursor_sound P _ _ _ _ _ _ _ d Hrows Hd') as [H1 H2].
        split; [assumption|]. now rewrite <- matches_search.
      * intros Hpg Hfit. subst pg. rewrite Hpg in Hpage. simpl in Hpage.
        now apply (@isPage_all path dir lim hits rows).
    + intros pg lim hits Hs.
      destruct (@search_page P (JS.searchPaths k) q "createdAt" (-1)
                  ((pg - 1) * lim) lim (docs st) Hq ltac:(lia) Hs)
        as (Hc & rows & Hrows & Hpage).
      exists rows. split; [|split; [assumption|split]].
      * unfold JS.search, JS.paged. rewrite Hr. simpl negb. cbv iota.
        fold pg lim. rewrite Hrows. cbn [bind]. rewrite Hc. reflexivity.
      * intros d Hd'.
        destruct (@cursor_sound P _ _ _ _ _ _ _ d Hrows Hd') as [H1 H2].
        split; [assumption|]. now rewrite <- matches_search.
      * intros Hpg Hfit. subst pg. rewrite Hpg in Hpage. simpl in Hpage.
        now apply (@isPage_all ["createdAt"] (-1) lim hits rows).
  - intros Hq. split.
    + unfold TS.search, TS.paged. rewrite Hr. simpl negb. cbv iota.
      destruct (@search_refused P (TS.searchPaths k) q
                  (orElse (p_sortBy params) (TS.searchSortBy k))
                  (if String.eqb (orElse (p_sortOrder params) "desc") "asc"
                   then 1 else -1)
                  ((orElse (p_page params) 1 - 1) * orElse (p_limit params) 10)
                  (orElse (p_limit params) 10) (docs st) Hq) as [Hc _].
      rewrite Hc. reflexivity.
    + unfold JS.search, JS.paged. rewrite Hr. simpl negb. cbv iota.
      destruct (@search_refused P (JS.searchPaths k) q "createdAt" (-1)
                  ((JS.orNum (p_page params) 1 - 1)
                   * Z.min (JS.orNum (p_limit params) 10) 100)
                  (Z.min (JS.orNum (p_limit params) 10) 100) (docs st) Hq)
        as [_ Hc].
      rewrite Hc. reflexivity.
Qed.

End SearchRule.

(** The record located in "São Paulo" is found by "paulo" and by "PAULO",
    the roaster of Wellington by "WELLINGTON"; the text "(" is no pattern,
    and the search for it fails. *)
Lemma search_rule_witness :
  Store.reachable Sample.farmers = true
  /\ JS.searchFarmers (P := Reference.platform) Sample.farmers "paulo"
                      Sample.noParams
     = okPage [Sample.farmerA] 1 10 1
  /\ JS.searchFarmers (P := Reference.platform) Sample.farmers "PAULO"
                      Sample.noParams
     = okPage [Sample.farmerA] 1 10 1
  /\ TS.searchRoasters (P := Reference.platform) Sample.roasters "WELLINGTON"
                       Sample.noParams
     = okPage [Sample.roasterA] 1 10 1
  /\ JS.searchFarmers (P := Reference.platform) Sample.farmers "("
                      Sample.noParams
     = JS.failPage "Failed to search farmers".
Proof.
  split; [reflexivity|]. split; [|split; [|split]].
  - destruct (@search_rule Reference.platform Farmer Sample.farmers "paulo"
                Sample.noParams eq_refl) as [H _].
    destruct (H eq_refl) as [_ HJ].
    destruct HJ as (rows & Hrows & Hpage & _); [simpl; lia|].
    apply (@isPage_one _ _ _ Sample.farmerA) in Hpage.
    rewrite Hpage in Hrows. exact Hrows.
  - destruct (@search_rule Reference.platform Farmer Sample.farmers "PAULO"
                Sample.noParams eq_refl) as [H _].
    destruct (H eq_refl) as [_ HJ].
    destruct HJ as (rows & Hrows & Hpage & _); [simpl; lia|].
    apply (@isPage_one _ _ _ Sample.farmerA) in Hpage.
    rewrite Hpage in Hrows. exact Hrows.
  - destruct (@search_rule Reference.platform Roaster Sample.roasters
                "WELLINGTON" Sample.noParams eq_refl) as [H _].
    destruct (H eq_refl) as [HT _].
    destruct HT as (rows & Hrows & Hpage & _); [simpl; lia|].
    apply (@isPage_one _ _ _ Sample.roasterA) in Hpage.
    rewrite Hpage in Hrows. exact Hrows.
  - destruct (@search_rule Reference.platform Farmer Sample.farmers "("
                Sample.noParams eq_refl) as [_ H].
    destruct (H eq_refl) as [_ HJ]. exact HJ.
Defined.

(** C7 as stated fails: the query "p.ulo" does not occur in any text of the
    record, yet the search returns the record, because the store reads the
    query as a pattern. *)
Lemma search_reads_patterns :
  Spec.hit (JS.searchPaths Farmer) "p.ulo" Sample.farmerA = false
  /\ JS.searchFarmers (P := Reference.platform) Sample.farmers "p.ulo"
                      Sample.noParams
     = okPage [Sample.farmerA] 1 10 1.
Proof. vm_compute. split; reflexivity. Qed.

(** ** The search for the empty text *)

Lemma existsb_same {A} (f g : A -> bool) (l : list A) :
  (forall x, f x = g x) -> existsb f l = existsb g l.
Proof.
  intros H. induction l as [|x l IH]; simpl; [reflexivity|].
  now rewrite H, IH.
Qed.

Section EmptySearch.
Context {P : Platform}.
Import Store Spec.

(** Where the empty pattern matches every text, the record is selected
    when it is active and has a text to search. *)
Lemma selected_empty paths d :
  (forall s, regex_search "" "i" s = true) ->
  selected paths "" d = (isActive d && hasText paths d)%bool.
Proof.
  intros He. unfold selected, hasText. f_equal. apply existsb_same.
  intros p. destruct (texts p d) as [|s l]; [reflexivity|].
  simpl. now rewrite He.
Qed.

Lemma filter_empty_search paths ds :
  (forall s, regex_search "" "i" s = true) ->
  (forall d, In d ds -> isActive d = true -> hasText paths d = true) ->
  List.filter (selected paths "") ds = List.filter isActive ds.
Proof.
  intros He H. apply filter_ext_in. intros d Hd.
  rewrite selected_empty by assumption.
  destruct (isActive d) eqn:E; [|reflexivity].
  now rewrite (H d Hd E).
Qed.

(** The list of the TypeScript services on a reachable store. *)
Lemma TS_getList_runs k st params :
  reachable st = true ->
  let pg := orElse (p_page params) 1 in
  let lim := orElse (p_limit params) 10 in
  let sortBy := orElse (p_sortBy params) "createdAt" in
  let dir := if String.eqb (orElse (p_sortOrder params) "desc") "asc"
             then 1 else -1 in
  (0 <= (pg - 1) * lim ->
   exists rows,
     TS.getList k st params = okPage rows pg lim (activeCount st)
     /\ isPage (splitDots "" sortBy) dir ((pg - 1) * lim) lim
               (List.filter isActive (docs st)) rows)
  /\ ((pg - 1) * lim < 0 ->
      TS.getList k st params = TS.failPage ("Failed to fetch " ++ noun k ++ "s")).
Proof.
  intros Hr pg lim sortBy dir. unfold TS.getList, TS.paged. rewrite Hr.
  simpl negb. cbv iota. fold pg lim sortBy dir.
  rewrite countDocuments_active. cbn [bind]. split; intros Hs.
  - destruct (@cursor_runs P [CTrue "isActive"] sortBy dir ((pg - 1) * lim)
                lim (docs st) eq_refl Hs) as [rows Hrows].
    rewrite Hrows. cbn [bind].
    exists rows. split; [reflexivity|].
    rewrite <- filter_active.
    apply (@cursor_isPage P [CTrue "isActive"] sortBy dir ((pg - 1) * lim)
             lim (docs st) rows); [|assumption].
    subst dir. destruct (String.eqb _ _); lia.
  - now rewrite cursor_negative.
Qed.

(** C8, amended.  Take a store that accepts the empty pattern and matches
    it with every text, reachable, whose active records each have a text
    at one of the search paths.
    (1) When the skip computed from the page and the limit is not
    negative, the search for the empty text and the list both succeed,
    with the same pagination metadata, the total being the number of
    active records; each returns a page of the active records under its
    own sort.  The sorts are those of the TypeScript services when the
    pagination names the sort field (the defaults differ), and of the
    JavaScript services when it names none, or names [createdAt] with the
    order [desc] (the search always sorts so).  When the sorts are the
    same and no two active records have equal sort keys, the two results
    are equal.
    (2) When the skip is negative both fail, each with its own message. *)
Theorem empty_search_is_list (k : kind) (st : store) (params : PaginationParams) :
  reachable st = true ->
  regex_valid "" = true ->
  (forall s, regex_search "" "i" s = true) ->
  let actives := List.filter isActive (docs st) in
  ((forall d, In d (docs st) -> isActive d = true ->
              hasText (TS.searchPaths k) d = true) ->
   let pg := orElse (p_page params) 1 in
   let lim := orElse (p_limit params) 10 in
   let dir := if String.eqb (orElse (p_sortOrder params) "desc") "asc"
              then 1 else -1 in
   (0 <= (pg - 1) * lim ->
    exists found listed,
      TS.search k st "" params
      = okPage found pg lim (Z.of_nat (length actives))
      /\ TS.getList k st params
         = okPage listed pg lim (Z.of_nat (length actives))
      /\ isPage (splitDots "" (orElse (p_sortBy params) (TS.searchSortBy k)))
                dir ((pg - 1) * lim) lim actives found
      /\ isPage (splitDots "" (orElse (p_sortBy params) "createdAt"))
                dir ((pg - 1) * lim) lim actives listed
      /\ (p_sortBy params <> None ->
          distinctKeys (splitDots "" (orElse (p_sortBy params) "createdAt"))
                       actives ->
          TS.search k st "" params = TS.getList k st params))
   /\ ((pg - 1) * lim < 0 ->
       TS.search k st "" params
       = TS.failPage ("Failed to search " ++ noun k ++ "s")
       /\ TS.getList k st params
          = TS.failPage ("Failed to fetch " ++ noun k ++ "s")))
  /\ ((forall d, In d (docs st) -> isActive d = true ->
                 hasText (JS.searchPaths k) d = true) ->
      let pg := JS.orNum (p_page params) 1 in
      let lim := Z.min (JS.orNum (p_limit params) 10) 100 in
      let sortBy := if JS.given (p_sortBy params)
                    then orElse (p_sortBy params) "" else "createdAt" in
      let dir := if JS.given (p_sortBy params)
                 then (if String.eqb (orElse (p_sortOrder params) "") "desc"
                       then -1 else 1)
                 else -1 in
      (0 <= (pg - 1) * lim ->
       exists found listed,
         JS.search k st "" params
         = okPage found pg lim (Z.of_nat (length actives))
         /\ JS.getList k st params
            = okPage listed pg lim (Z.of_nat (length actives))
         /\ isPage ["createdAt"] (-1) ((pg - 1) * lim) lim actives found
         /\ isPage (splitDots "" sortBy) dir ((pg - 1) * lim) lim actives
                   listed
         /\ (JS.given (p_sortBy params) = false
             \/ (p_sortBy params = Some "createdAt"
                 /\ p_sortOrder params = Some "desc") ->
             distinctKeys ["createdAt"] actives ->
             JS.search k st "" params = JS.getList k st params))
      /\ ((pg - 1) * lim < 0 ->
          JS.search k st "" params
          = JS.failPage ("Failed to search " ++ noun k ++ "s")
          /\ JS.getList k st params
             = JS.failPage ("Failed to fetch " ++ noun k ++ "s"))).
Proof.
  intros Hr Hv He actives. split.
  - intros Ht pg lim dir.
    assert (Hd : dir <> 0) by (subst dir; destruct (String.eqb _ _); lia).
    destruct (@TS_getList_runs k st params Hr) as [HL HLneg].
    fold pg lim dir in HL, HLneg. split.
    + intros Hs.
      destruct (@search_page P (TS.searchPaths k) ""
                  (orElse (p_sortBy params) (TS.searchSortBy k)) dir
                  ((pg - 1) * lim) lim (docs st) Hv Hd Hs)
        as (Hc & found & Hfound & Hpage).
      rewrite (@filter_empty_search (TS.searchPaths k) (docs st) He Ht)
        in Hc, Hpage.
      destruct (HL Hs) as (listed & Hlisted & Hpage').
      assert (Hsearch : TS.search k st "" params
                        = okPage found pg lim (Z.of_nat (length actives))).
      { unfold TS.search, TS.paged. rewrite Hr. simpl negb. cbv iota.
        fold pg lim dir. rewrite Hc. cbn [bind]. rewrite Hfound.
        reflexivity. }
      exists found, listed.
      split; [assumption|]. split; [assumption|].
      split; [assumption|]. split; [assumption|].
      intros Hsb Hk. rewrite Hsearch, Hlisted. unfold activeCount.
      fold actives. f_equal.
      destruct (p_sortBy params) as [sb|] eqn:Esb; [|congruence].
      simpl orElse in *.
      apply (@isPage_unique (splitDots "" sb) dir ((pg - 1) * lim) lim
               actives found listed Hd Hk Hpage Hpage').
    + intros Hs. split; [|now apply HLneg].
      unfold TS.search, TS.paged. rewrite Hr. simpl negb. cbv iota.
      fold pg lim dir.
      destruct (countDocuments _ (docs st)); cbn [bind]; [|reflexivity].
      now rewrite cursor_negative.
  - intros Ht pg lim sortBy dir.
    destruct (@JS_getList_runs P k st params Hr) as [HL HLneg].
    fold pg lim sortBy dir in HL, HLneg. split.
    + intros Hs.
      destruct (@search_page P (JS.searchPaths k) "" "createdAt" (-1)
                  ((pg - 1) * lim) lim (docs st) Hv ltac:(lia) Hs)
        as (Hc & found & Hfound & Hpage).
      rewrite (@filter_empty_search (JS.searchPaths k) (docs st) He Ht)
        in Hc, Hpage.
      destruct (HL Hs) as (listed & Hlisted & Hpage').
      assert (Hsearch : JS.search k st "" params
                        = okPage found pg lim (Z.of_nat (length actives))).
      { unfold JS.search, JS.paged. rewrite Hr. simpl negb. cbv iota.
        fold pg lim. rewrite Hfound. cbn [bind]. rewrite Hc.
        reflexivity. }
      exists found, listed.
      split; [assumption|]. split; [assumption|].
      split; [assumption|]. split; [assumption|].
      intros Hsame Hk. rewrite Hsearch, Hlisted. unfold activeCount.
      fold actives. f_equal.
      assert (E : splitDots "" sortBy = ["createdAt"] /\ dir = -1).
      { subst sortBy dir. destruct Hsame as [Hg | [Hsb Hso]].
        - rewrite Hg. split; reflexivity.
        - rewrite Hsb, Hso. split; reflexivity. }
      destruct E as [E1 E2]. rewrite E1, E2 in Hpage'.
      apply (@isPage_unique ["createdAt"] (-1) ((pg - 1) * lim) lim
               actives found listed ltac:(lia) Hk Hpage Hpage').
    + intros Hs. split; [|now apply HLneg].
      unfold JS.search, JS.paged. rewrite Hr. simpl negb. cbv iota.
      fold pg lim. now rewrite cursor_negative.
Qed.

End EmptySearch.

(** The two roasters listed and searched by [createdAt] in the TypeScript
    service, the two farmers with no sort field in the JavaScript one. *)
Lemma empty_search_is_list_witness :
  let byCreation := {| p_page := Some 1; p_limit := Some 10;
                       p_sortBy := Some "createdAt"; p_sortOrder := None |} in
  TS.searchRoasters (P := Reference.platform) Sample.roasters "" byCreation
  = TS.getRoasters (P := Reference.platform) Sample.roasters byCreation
  /\ JS.searchFarmers (P := Reference.platform) Sample.twoFarmers ""
                      (Sample.pageOf 1 10)
     = JS.getFarmers (P := Reference.platform) Sample.twoFarmers
                     (Sample.pageOf 1 10).
Proof.
  assert (He : forall s, regex_search (Platform := Reference.platform)
                                      "" "i" s = true)
    by (intros s; destruct s; reflexivity).
  split.
  - destruct (@empty_search_is_list Reference.platform Roaster Sample.roasters
                {| p_page := Some 1; p_limit := Some 10;
                   p_sortBy := Some "createdAt"; p_sortOrder := None |}
                eq_refl eq_refl He) as [HT _].
    destruct HT as [H _].
    + intros d [<- | [<- | []]] _; reflexivity.
    + destruct H as (found & listed & _ & _ & _ & _ & Heq); [simpl; lia|].
      apply Heq; [discriminate|].
      intros a b [<- | [<- | []]] [<- | [<- | []]] E;
        first [reflexivity | discriminate E].
  - destruct (@empty_search_is_list Reference.platform Farmer
                Sample.twoFarmers (Sample.pageOf 1 10) eq_refl eq_refl He)
      as [_ HJ].
    destruct HJ as [H _].
    + intros d [<- | [<- | []]] _; reflexivity.
    + destruct H as (found & listed & _ & _ & _ & _ & Heq); [simpl; lia|].
      apply Heq; [left; reflexivity|].
      intros a b [<- | [<- | []]] [<- | [<- | []]] E;
        first [reflexivity | discriminate E].
Defined.

(** C8 as stated fails: with no pagination given, the TypeScript list sorts
    by [createdAt] and the search by [totalOrders], so the same two records
    come in opposite orders. *)
Lemma empty_search_sorts_otherwise :
  let listed := TS.getRoasters (P := Reference.platform) Sample.roasters
                               Sample.noParams in
  let found := TS.searchRoasters (P := Reference.platform) Sample.roasters ""
                                 Sample.noParams in
  data listed = Some (VArr [VObj Sample.roasterB; VObj Sample.roasterA])
  /\ data found = Some (VArr [VObj Sample.roasterA; VObj Sample.roasterB])
  /\ pagination found = pagination listed
  /\ found <> listed.
Proof. vm_compute. repeat split. discriminate. Qed.

(** ** Reads after a delete *)

Section ReadPaths.
Context {P : Platform}.
Import Store Spec.

Lemma matches_active_first f d :
  matches (CTrue "isActive" :: f) d = true -> isActive d = true.
Proof.
  simpl. unfold isActive. intros H. apply andb_true_iff in H.
  now destruct H as [H _].
Qed.

Lemma TS_paged_active f pg lim sortBy sortOrder ds r :
  TS.paged (CTrue "isActive" :: f) pg lim sortBy sortOrder ds = Ok r ->
  exists rows,
    data r = Some (VArr (map VObj rows))
    /\ forall d, In d rows -> In d ds /\ isActive d = true.
Proof.
  unfold TS.paged. intros H.
  destruct (countDocuments (CTrue "isActive" :: f) ds) as [tot|];
    cbn [bind] in H; [|discriminate].
  destruct (cursor (CTrue "isActive" :: f) sortBy
              (if String.eqb sortOrder "asc" then 1 else -1)
              ((pg - 1) * lim) lim ds) as [rows|] eqn:E;
    cbn [bind] in H; [|discriminate].
  injection H as <-. exists rows. split; [reflexivity|].
  intros d Hd.
  destruct (@cursor_sound P _ _ _ _ _ _ _ d E Hd) as [H1 H2].
  split; [assumption|]. now apply matches_active_first with (f := f).
Qed.

Lemma JS_paged_active f params sortBy dir ds r :
  JS.paged (CTrue "isActive" :: f) params sortBy dir ds = Ok r ->
  exists rows,
    data r = Some (VArr (map VObj rows))
    /\ forall d, In d rows -> In d ds /\ isActive d = true.
Proof.
  unfold JS.paged. intros H.
  destruct (cursor (CTrue "isActive" :: f) sortBy dir
              ((JS.orNum (p_page params) 1 - 1)
               * Z.min (JS.orNum (p_limit params) 10) 100)
              (Z.min (JS.orNum (p_limit params) 10) 100) ds) as [rows|] eqn:E;
    cbn [bind] in H; [|discriminate].
  destruct (countDocuments (CTrue "isActive" :: f) ds) as [tot|];
    cbn [bind] in H; [|discriminate].
  injection H as <-. exists rows. split; [reflexivity|].
  intros d Hd.
  destruct (@cursor_sound P _ _ _ _ _ _ _ d E Hd) as [H1 H2].
  split; [assumption|]. now apply matches_active_first with (f := f).
Qed.

(** The lists and the searches of both services return active records
    only, whatever the query and the pagination. *)
Lemma lists_return_active k st q params r :
  (r = TS.getList k st params \/ r = TS.search k st q params
   \/ r = JS.getList k st params \/ r = JS.search k st q params) ->
  success r = true ->
  exists rows,
    data r = Some (VArr (map VObj rows))
    /\ forall d, In d rows -> In d (docs st) /\ isActive d = true.
Proof.
  intros [-> | [-> | [-> | ->]]];
    unfold TS.getList, TS.search, JS.getList, JS.search;
    (destruct (reachable st); simpl negb; cbv iota; [|discriminate]).
  - destruct (TS.paged _ _ _ _ _ _) as [r|] eqn:E; [|discriminate].
    intros _. now apply TS_paged_active in E.
  - destruct (TS.paged _ _ _ _ _ _) as [r|] eqn:E; [|discriminate].
    intros _. now apply TS_paged_active in E.
  - destruct (JS.paged _ _ _ _ _) as [r|] eqn:E; [|discriminate].
    intros _. now apply JS_paged_active in E.
  - destruct (JS.paged _ _ _ _ _) as [r|] eqn:E; [|discriminate].
    intros _. now apply JS_paged_active in E.
Qed.

(** The get-by-id of the JavaScript services returns active records only. *)
Lemma JS_getById_active k st id d :
  JS.getById k st id = ok (VObj d) None -> In d (docs st) /\ isActive d = true.
Proof.
  unfold JS.getById.
  destruct (ObjectId_isValid id); simpl negb; cbv iota; [|discriminate].
  destruct (reachable st); simpl negb; cbv iota; [|discriminate].
  destruct (findOne _ _) as [d'|] eqn:E; [|discriminate].
  intros [= <-]. apply findOne_sound in E. destruct E as [H1 H2].
  split; [assumption|]. rewrite matches_id_active in H2.
  apply andb_true_iff in H2. tauto.
Qed.

(** The get-by-id of the TypeScript services returns the first record with
    the id, whatever its [isActive] flag: after a successful delete, the
    deleted record. *)
Lemma TS_getById_after_delete k st id now :
  reachable st = true -> ObjectId_isValid id = true ->
  success (fst (TS.delete k st id now)) = true ->
  exists d,
    TS.getById k (snd (TS.delete k st id now)) id = ok (VObj d) None
    /\ In d (docs (snd (TS.delete k st id now)))
    /\ isActive d = false.
Proof.
  intros Hr Hv.
  destruct (@TS_delete_outcome P k st id now Hr Hv)
    as [[_ ->] | (pre & d & post & E & Hp & Hd & ->)]; [discriminate|].
  intros _. exists (softDeleted now d). simpl. split; [|split].
  - unfold TS.getById. simpl. rewrite Hr, Hv. simpl.
    rewrite findOne_found; [reflexivity| |].
    + intros x Hx. rewrite matches_id. auto.
    + now rewrite matches_id, softDeleted_hasId.
  - apply in_or_app. simpl. auto.
  - apply softDeleted_inactive.
Qed.

End ReadPaths.

(** C1 at work: the roaster deleted through the TypeScript service is still
    in the store with [isActive = false]; the list and the search leave it
    out, and so does the get-by-id of the JavaScript service, but the
    get-by-id of the TypeScript service returns it. *)
Lemma getRoasterById_returns_deleted :
  let out := TS.deleteRoaster (P := Reference.platform) Sample.roasters
                              Sample.idA 300 in
  let gone := Spec.softDeleted 300 Sample.roasterA in
  fst out = ok deleted (Some "Roaster deleted successfully")
  /\ Store.docs (snd out) = [gone; Sample.roasterB]
  /\ getField "isActive" gone = Some (VBool false)
  /\ data (TS.getRoasters (P := Reference.platform) (snd out) Sample.noParams)
     = Some (VArr [VObj Sample.roasterB])
  /\ data (TS.searchRoasters (P := Reference.platform) (snd out) "flight"
                             Sample.noParams)
     = Some (VArr [])
  /\ JS.getRoasterById (P := Reference.platform) (snd out) Sample.idA
     = fail "Roaster not found"
  /\ TS.getRoasterById (P := Reference.platform) (snd out) Sample.idA
     = ok (VObj gone) None.
Proof. vm_compute. repeat split. Qed.

(** ** The connection cache *)

Section ConnectionFacts.
Import Connection.

(** Once the stored promise is rejected, the TypeScript manager fails
    every call and changes nothing: no other attempt is made. *)
Lemma TS_rejected_forever c up :
  cachedClient c = None -> cachedDb c = None -> mongoDbPromise c = None ->
  mongoClientPromise c = Some Rejected ->
  TS.getCollection up c = (Throw, c).
Proof.
  intros H1 H2 H3 H4.
  unfold TS.getCollection, TS.connectToDatabase, TS.connectToClient.
  now rewrite H2, H3, H1, H4.
Qed.

(** The JavaScript manager clears the promise when the attempt fails, and
    the next call connects. *)
Lemma JS_retries c :
  cachedClient c = None -> cachedDb c = None -> mongoDbPromise c = None ->
  mongoClientPromise c = None ->
  snd (JS.getCollection false c) = countAttempt c
  /\ fst (JS.getCollection false c) = Throw
  /\ fst (JS.getCollection true (snd (JS.getCollection false c)))
     = Ok (S (attempts c)).
Proof.
  intros H1 H2 H3 H4. destruct c as [cc cd cp dp n]. simpl in *. subst.
  repeat split.
Qed.

End ConnectionFacts.

(** C9 at work: the first call finds the store down; the TypeScript manager
    keeps the rejected promise, so the calls that follow fail without a new
    attempt even when the store is up again, whereas the JavaScript manager
    is left empty and connects at the next call. *)
Lemma connectToClient_keeps_rejected_promise :
  let c1 := snd (Connection.TS.getCollection false Connection.empty) in
  let j1 := snd (Connection.JS.getCollection false Connection.empty) in
  fst (Connection.TS.getCollection false Connection.empty) = Throw
  /\ Connection.mongoClientPromise c1 = Some Connection.Rejected
  /\ Connection.TS.getCollection true c1 = (Throw, c1)
  /\ Connection.attempts (snd (Connection.TS.getCollection true c1)) = 1%nat
  /\ Connection.mongoClientPromise j1 = None
  /\ fst (Connection.JS.getCollection true j1) = Ok 1%nat
  /\ Connection.attempts (snd (Connection.JS.getCollection true j1)) = 2%nat.
Proof. vm_compute. repeat split. Qed.

(** ** The theorems at work on the sample data *)

Lemma delete_idempotent_witness :
  Store.reachable Sample.roasters = true
  /\ ObjectId_isValid (Platform := Reference.platform) Sample.idA = true
  /\ fst (TS.delete (P := Reference.platform) Roaster
            (snd (TS.delete (P := Reference.platform) Roaster Sample.roasters
                    Sample.idA 300))
            Sample.idA 400)
     = ok deleted (Some "Roaster deleted successfully").
Proof.
  split; [reflexivity|]. split; [reflexivity|].
  destruct (@delete_idempotent Reference.platform Roaster Sample.roasters
              Sample.idA 300 400 eq_refl eq_refl) as (_ & _ & H).
  destruct H as (_ & H & _).
  - exists Sample.roasterA. split; [simpl; auto | reflexivity].
  - exact H.
Defined.

(** The PUT of a roaster's [businessName]; the update of a farmer with no
    data; the update object the farmers route builds from a body that
    names the city only. *)
Lemma update_is_partial_witness :
  (exists d',
      Routes.handleUpdate (P := Reference.platform) Roaster Sample.idA
        (VObj [("businessName", VStr " Flight ")]) Sample.roasters 300
      = (respond 200 (ok (VObj d') (Some "Roaster updated successfully")),
         Store.withDocs Sample.roasters [d'; Sample.roasterB])
      /\ Spec.merged Sample.roasterA [("businessName", VStr "Flight")] 300 d')
  /\ (exists d',
         TS.updateFarmer (P := Reference.platform) Sample.farmersT Sample.idA
                         [] 300
         = (ok (VObj d') (Some "Farmer updated successfully"),
            Store.withDocs Sample.farmersT [d'])
         /\ JS.updateFarmer (P := Reference.platform) Sample.farmersT
                            Sample.idA [] 300
            = (ok (Store.modifyResult (Some d'))
                  (Some "Farmer updated successfully"),
               Store.withDocs Sample.farmersT [d'])
         /\ forall key,
             getField key d'
             = if String.eqb key "updatedAt" then Some (VDate 300)
               else getField key Sample.farmerT)
  /\ (exists u,
         Routes.updateDataOf (P := Reference.platform) Farmer Sample.putCity
         = Ok u
         /\ getField "location" u
            = Some (VObj [("state", VUndefined); ("city", VStr "Campinas");
                          ("coordinates", VUndefined)])).
Proof.
  split; [|split].
  - destruct (@update_is_partial Reference.platform Roaster Sample.roasters
                Sample.idA 300 [] Sample.roasterA [Sample.roasterB]
                eq_refl eq_refl eq_refl) as (_ & _ & H & _).
    + intros x [].
    + reflexivity.
    + reflexivity.
    + destruct (H (VObj [("businessName", VStr " Flight ")])
                  [("businessName", VStr "Flight")] eq_refl eq_refl)
        as (_ & _ & H2).
      exact (H2 eq_refl).
  - destruct (@update_is_partial Reference.platform Farmer Sample.farmersT
                Sample.idA 300 [] Sample.farmerT []
                eq_refl eq_refl eq_refl) as (_ & H & _).
    + intros x [].
    + reflexivity.
    + reflexivity.
    + exact H.
  - eexists. split; [reflexivity|].
    destruct (@update_is_partial Reference.platform Farmer Sample.farmersT
                Sample.idA 300 [] Sample.farmerT []
                eq_refl eq_refl eq_refl) as (_ & _ & _ & H).
    + intros x [].
    + reflexivity.
    + reflexivity.
    + destruct (H Sample.putCity _
                  (VObj [("city", VStr " Campinas ")]) eq_refl eq_refl
                  eq_refl eq_refl)
        as (s & c & co & s' & c' & E1 & E2 & E3 & E4 & E5 & E6).
      injection E1 as <-. injection E2 as <-.
      injection E3 as <-. injection E4 as <-.
      injection E5 as <-. exact E6.
Defined.

(** C4 as stated fails.  The update of the service with no field at all
    succeeds: it writes [updatedAt] and reports success.  And a PUT of the
    farmers route whose body names the city only replaces the stored
    [location] as a whole: the state and the coordinates the record had are
    gone. *)
Lemma update_takes_empty_data :
  let r := TS.updateRoaster (P := Reference.platform) Sample.roasters
                            Sample.idA [] 300 in
  let put := Routes.handleUpdate (P := Reference.platform) Farmer Sample.idA
               Sample.putCity Sample.farmersT 300 in
  success (fst r) = true
  /\ message (fst r) = Some "Roaster updated successfully"
  /\ map (getField "updatedAt") (Store.docs (snd r))
     = [Some (VDate 300); Some (VDate 200)]
  /\ getField "location" Sample.farmerT
     = Some (VObj [("state", VStr "SP"); ("city", VStr "Santos");
                   ("coordinates",
                    VObj [("lat", VNum (-24)); ("lng", VNum (-46))])])
  /\ status (fst put) = 200
  /\ map (getField "location") (Store.docs (snd put))
     = [Some (VObj [("state", VNull); ("city", VStr "Campinas");
                    ("coordinates", VNull)])].
Proof. vm_compute. repeat split. Qed.

(** A page 0 is refused by the TypeScript route; a limit of 500 is run as
    100 by the JavaScript list; a page -1 makes the JavaScript list fail
    and its farmers route answer 400. *)
Lemma pagination_parameters_witness :
  let q := {| Routes.q_page := Some "0"; Routes.q_limit := None;
              Routes.q_sortBy := None; Routes.q_sortOrder := None;
              Routes.q_search := None; Routes.q_tier := None |} in
  let q' := {| Routes.q_page := Some "-1"; Routes.q_limit := None;
               Routes.q_sortBy := None; Routes.q_sortOrder := None;
               Routes.q_search := None; Routes.q_tier := None |} in
  (badPage (parseInt10 (Platform := Reference.platform) "0") = true
   /\ Routes.handleGetFarmers (P := Reference.platform) q Sample.farmers
      = respond 400 (fail "Invalid page number"))
  /\ (exists rows,
         JS.getFarmers (P := Reference.platform) Sample.farmers
                       (Sample.pageOf 1 500)
         = okPage rows 1 100 1)
  /\ JS.getFarmers (P := Reference.platform) Sample.farmers
                   (Sample.pageOf (-1) 10)
     = JS.failPage "Failed to fetch farmers"
  /\ status (Routes.handleGetFarmersJS (P := Reference.platform) q'
                                       Sample.farmers) = 400.
Proof.
  split; [split; [reflexivity|]|split; [|split]].
  - destruct (@pagination_parameters Reference.platform Farmer
                {| Routes.q_page := Some "0"; Routes.q_limit := None;
                   Routes.q_sortBy := None; Routes.q_sortOrder := None;
                   Routes.q_search := None; Routes.q_tier := None |}
                Sample.farmers Sample.noParams) as [H _].
    exact (H eq_refl).
  - destruct (@pagination_parameters Reference.platform Farmer
                {| Routes.q_page := None; Routes.q_limit := None;
                   Routes.q_sortBy := None; Routes.q_sortOrder := None;
                   Routes.q_search := None; Routes.q_tier := None |}
                Sample.farmers (Sample.pageOf 1 500)) as (_ & _ & _ & H & _).
    destruct (H eq_refl) as [Hok _].
    destruct Hok as (rows & E & _); [simpl; lia|].
    exists rows. exact E.
  - destruct (@pagination_parameters Reference.platform Farmer
                {| Routes.q_page := None; Routes.q_limit := None;
                   Routes.q_sortBy := None; Routes.q_sortOrder := None;
                   Routes.q_search := None; Routes.q_tier := None |}
                Sample.farmers (Sample.pageOf (-1) 10)) as (_ & _ & _ & H & _).
    destruct (H eq_refl) as [_ Hfail].
    apply Hfail. simpl. lia.
  - destruct (@pagination_parameters Reference.platform Farmer
                {| Routes.q_page := Some "-1"; Routes.q_limit := None;
                   Routes.q_sortBy := None; Routes.q_sortOrder := None;
                   Routes.q_search := None; Routes.q_tier := None |}
                Sample.farmers Sample.noParams) as (_ & _ & _ & _ & H).
    exact (H eq_refl eq_refl).
Defined.

Lemma invalid_id_is_validation_failure_witness :
  ObjectId_isValid (Platform := Reference.platform) "nope" = false
  /\ status (Routes.handleGet (P := Reference.platform) Roaster "nope"
               Sample.roasters) = 400
  /\ TS.getById (P := Reference.platform) Roaster Sample.roasters "nope"
     = fail "Invalid roaster ID".
Proof.
  split; [reflexivity|].
  destruct (@invalid_id_is_validation_failure Reference.platform Roaster "nope"
              Sample.roasters [] VUndefined 300 eq_refl)
    as (_ & H1 & H2 & _).
  split; [exact H2|]. destruct (H1 eq_refl) as [H _]. exact H.
Defined.

Lemma page_beyond_last_witness :
  TS.getList (P := Reference.platform) Roaster Sample.roasters (Sample.pageOf 2 10)
  = beyondPage 2 10 2.
Proof.
  destruct (@page_beyond_last Reference.platform Roaster Sample.roasters
              (Sample.pageOf 2 10) 2 eq_refl eq_refl) as [H _].
  - lia.
  - apply H; [reflexivity | lia | simpl; lia].
Defined.


(** * Further properties of the services, the routes and the connection managers *)

(** ** What the lists return *)

Section ListRows.
Context {P : Platform}.
Import Store.

Lemma rows_active k st q params r v :
  (r = TS.getList k st params \/ r = TS.search k st q params
   \/ r = JS.getList k st params \/ r = JS.search k st q params) ->
  In v (rowsOf r) ->
  exists d, v = VObj d /\ In d (docs st) /\ isActive d = true.
Proof.
  intros Hr Hv. destruct (success r) eqn:Es.
  - destruct (@lists_return_active P k st q params r Hr Es)
      as (rows & Hd & Hrows).
    unfold rowsOf in Hv. rewrite Hd in Hv. apply in_map_iff in Hv.
    destruct Hv as (d & <- & Hin). exists d.
    destruct (Hrows d Hin). auto.
  - exfalso. unfold rowsOf in Hv.
    destruct Hr as [-> | [-> | [-> | ->]]];
      unfold TS.getList, TS.search, JS.getList, JS.search in *;
      destruct (reachable st); simpl negb in *; cbv iota in *;
      try (simpl in Hv; exact Hv);
      match type of Es with
      | success (match ?x with _ => _ end) = false =>
          destruct x as [r|] eqn:Ex; [|simpl in Hv; exact Hv]
      end.
    + unfold TS.paged in Ex.
      destruct (countDocuments _ _); cbn [bind] in Ex; [|discriminate].
      destruct (cursor _ _ _ _ _ _); cbn [bind] in Ex; [|discriminate].
      injection Ex as <-. discriminate.
    + unfold TS.paged in Ex.
      destruct (countDocuments _ _); cbn [bind] in Ex; [|discriminate].
      destruct (cursor _ _ _ _ _ _); cbn [bind] in Ex; [|discriminate].
      injection Ex as <-. discriminate.
    + unfold JS.paged in Ex.
      destruct (cursor _ _ _ _ _ _); cbn [bind] in Ex; [|discriminate].
      destruct (countDocuments _ _); cbn [bind] in Ex; [|discriminate].
      injection Ex as <-. discriminate.
    + unfold JS.paged in Ex.
      destruct (cursor _ _ _ _ _ _); cbn [bind] in Ex; [|discriminate].
      destruct (countDocuments _ _); cbn [bind] in Ex; [|discriminate].
      injection Ex as <-. discriminate.
Qed.

(** X1. Whatever the query and the pagination, every row that the list or
    the search of either service returns is a record of the store whose
    [isActive] is [true]. *)
Theorem lists_only_active (k : kind) (st : store) (q : string)
        (params : PaginationParams) (v : value) :
  In v (rowsOf (TS.getList k st params))
  \/ In v (rowsOf (TS.search k st q params))
  \/ In v (rowsOf (JS.getList k st params))
  \/ In v (rowsOf (JS.search k st q params)) ->
  exists d, v = VObj d /\ In d (docs st) /\ isActive d = true.
Proof.
  intros [H | [H | [H | H]]].
  - apply (@rows_active k st q params _ v (or_introl eq_refl) H).
  - apply (@rows_active k st q params _ v (or_intror (or_introl eq_refl)) H).
  - apply (@rows_active k st q params _ v
             (or_intror (or_intror (or_introl eq_refl))) H).
  - apply (@rows_active k st q params _ v
             (or_intror (or_intror (or_intror eq_refl))) H).
Qed.

End ListRows.

Lemma lists_only_active_witness :
  exists d,
    VObj Sample.roasterB = VObj d /\ In d (Store.docs Sample.roasters)
    /\ Store.isActive d = true.
Proof.
  apply (@lists_only_active Reference.platform Roaster Sample.roasters ""
           Sample.noParams (VObj Sample.roasterB)).
  left. simpl. auto.
Defined.

(** ** Page arithmetic *)

Section PageArithmetic.
Context {P : Platform}.
Import Store.

Lemma ceilDiv_positive tot lim :
  1 <= lim -> ceilDiv tot lim = Fin ((tot + lim - 1) / lim).
Proof.
  intros Hl. unfold ceilDiv.
  assert (E : (lim =? 0) = false) by lia. rewrite E. f_equal.
  pose proof (Z.div_mod (- tot) lim ltac:(lia)) as Hdm.
  pose proof (Z.mod_pos_bound (- tot) lim ltac:(lia)) as Hb.
  apply Z.div_unique with (r := lim - 1 - (- tot) mod lim); lia.
Qed.

Lemma hasNext_meaning p lim tot :
  1 <= lim -> ltNum p (ceilDiv tot lim) = (p * lim <? tot).
Proof.
  intros Hl. rewrite ceilDiv_positive by assumption. simpl.
  destruct (p * lim <? tot) eqn:E.
  - apply Z.ltb_lt. apply Z.ltb_lt in E.
    assert (p + 1 <= (tot + lim - 1) / lim); [|lia].
    apply Z.div_le_lower_bound; lia.
  - apply Z.ltb_ge. apply Z.ltb_ge in E.
    assert ((tot + lim - 1) / lim < p + 1); [|lia].
    apply Z.div_lt_upper_bound; lia.
Qed.

(** X2. Page arithmetic.  On a reachable store, with page [p >= 1] and
    limit [lim >= 1] (the values the service works with), the list of both
    services succeeds; it returns [min lim (max 0 (total - (p-1)*lim))]
    rows, where [total] counts the active records; [totalPages] is
    [(total + lim - 1) / lim], and [hasNext] holds exactly when
    [p * lim < total]. *)
Theorem page_arithmetic (k : kind) (st : store) (params : PaginationParams) :
  reachable st = true ->
  let tot := activeCount st in
  (let p := orElse (p_page params) 1 in
   let lim := orElse (p_limit params) 10 in
   1 <= p -> 1 <= lim ->
   exists rows,
     TS.getList k st params = okPage rows p lim tot
     /\ Z.of_nat (length rows) = Z.min lim (Z.max 0 (tot - (p - 1) * lim))
     /\ ceilDiv tot lim = Fin ((tot + lim - 1) / lim)
     /\ ltNum p (ceilDiv tot lim) = (p * lim <? tot))
  /\ (let p := JS.orNum (p_page params) 1 in
      let lim := Z.min (JS.orNum (p_limit params) 10) 100 in
      1 <= p -> 1 <= lim ->
      exists rows,
        JS.getList k st params = okPage rows p lim tot
        /\ Z.of_nat (length rows) = Z.min lim (Z.max 0 (tot - (p - 1) * lim))
        /\ ceilDiv tot lim = Fin ((tot + lim - 1) / lim)
        /\ ltNum p (ceilDiv tot lim) = (p * lim <? tot)).
Proof.
  intros Hr tot. split; intros p lim Hp Hl.
  - eexists. split; [|split; [|split]].
    + unfold TS.getList, TS.paged. rewrite Hr. simpl negb. cbv iota.
      rewrite countDocuments_active. cbn [bind].
      fold p lim. rewrite cursor_rows by (try reflexivity; nia).
      cbn [bind]. reflexivity.
    + rewrite page_length by nia. rewrite inOrder_length, filter_active.
      reflexivity.
    + now apply ceilDiv_positive.
    + now apply hasNext_meaning.
  - eexists. split; [|split; [|split]].
    + unfold JS.getList, JS.paged. rewrite Hr. simpl negb. cbv iota.
      fold p lim. rewrite cursor_rows by (try reflexivity; nia).
      cbn [bind]. rewrite countDocuments_active. cbn [bind]. reflexivity.
    + rewrite page_length by nia. rewrite inOrder_length, filter_active.
      reflexivity.
    + now apply ceilDiv_positive.
    + now apply hasNext_meaning.
Qed.

End PageArithmetic.

Lemma page_arithmetic_witness :
  exists rows,
    TS.getList (P := Reference.platform) Roaster Sample.roasters
               (Sample.pageOf 2 1)
    = okPage rows 2 1 2
    /\ Z.of_nat (length rows) = 1
    /\ ltNum 2 (ceilDiv 2 1) = false.
Proof.
  destruct (@page_arithmetic Reference.platform Roaster Sample.roasters
              (Sample.pageOf 2 1) eq_refl) as [H _].
  destruct H as (rows & H1 & H2 & _ & H4); [simpl; lia | simpl; lia |].
  exists rows. split; [exact H1|]. split; [exact H2 | exact H4].
Defined.

(** ** Pages side by side, and their order *)

Section PageOrder.
Context {P : Platform}.
Import Store Spec.

Lemma TS_getList_rows k st params :
  reachable st = true ->
  1 <= orElse (p_page params) 1 ->
  1 <= orElse (p_limit params) 10 ->
  rowsOf (TS.getList k st params)
  = map VObj
      (firstn (Z.to_nat (orElse (p_limit params) 10))
         (skipn (Z.to_nat ((orElse (p_page params) 1 - 1)
                           * orElse (p_limit params) 10))
            (inOrder [CTrue "isActive"]
               (orElse (p_sortBy params) "createdAt")
               (if String.eqb (orElse (p_sortOrder params) "desc") "asc"
                then 1 else -1)
               ((orElse (p_page params) 1 - 1) * orElse (p_limit params) 10)
               (orElse (p_limit params) 10)
               (docs st)
               (List.filter isActive (docs st))))).
Proof.
  intros Hr Hp Hl. unfold TS.getList, TS.paged. rewrite Hr. simpl negb.
  cbv iota. rewrite countDocuments_active. cbn [bind].
  rewrite cursor_rows by (try reflexivity; nia). cbn [bind].
  unfold rowsOf, okPage. simpl data. now rewrite filter_active.
Qed.

(** Without ties the store has no choice of order. *)
Lemma inOrder_distinct f sortBy dir s n ds found :
  dir <> 0 ->
  distinctKeys (splitDots "" sortBy) found ->
  inOrder f sortBy dir s n ds found = sortDocs (splitDots "" sortBy) dir found.
Proof.
  intros Hd Hk.
  apply (@sorted_unique (splitDots "" sortBy) dir _ _ Hd).
  - intros a b Ha Hb. apply Hk; now apply (inOrder_In f sortBy dir s n ds).
  - rewrite inOrder_perm. symmetry. apply sortDocs_perm.
  - now apply inOrder_sorted.
  - now apply sortDocs_sorted.
Qed.

Lemma firstn_plus (a b : nat) (l : list doc) :
  firstn (a + b) l = firstn a l ++ firstn b (skipn a l).
Proof.
  revert l. induction a as [|a IH]; intros l; [reflexivity|].
  destruct l as [|x l]; simpl.
  - now rewrite firstn_nil.
  - now rewrite IH.
Qed.

Lemma pages_glue (m : nat) (l : list doc) (n : nat) :
  flat_map (fun i => map VObj (firstn m (skipn ((i - 1) * m) l))) (seq 1 n)
  = map VObj (firstn (n * m) l).
Proof.
  induction n as [|n IH]; [reflexivity|].
  rewrite seq_S, flat_map_app, IH. cbn [flat_map]. rewrite app_nil_r.
  replace (1 + n - 1)%nat with n by lia.
  replace (S n * m)%nat with (n * m + m)%nat by lia.
  rewrite firstn_plus, map_app. reflexivity.
Qed.

(** X3. Pages neither overlap nor skip.  On a reachable store on which
    no two active records have equal sort keys, and with limit [lim >= 1],
    the rows of the pages 1 to [n] of the TypeScript list, put end to end,
    are the rows of the single page 1 asked with the limit [n * lim] and
    the same sort.  (Records with equal keys come in an order the store
    chooses for each query.) *)
Theorem pages_concatenate (k : kind) (st : store) (sortBy sortOrder : option string)
        (lim : Z) (n : nat) :
  reachable st = true ->
  1 <= lim ->
  (1 <= n)%nat ->
  distinctKeys (splitDots "" (orElse sortBy "createdAt"))
               (List.filter isActive (docs st)) ->
  let page p l := {| p_page := Some p; p_limit := Some l;
                     p_sortBy := sortBy; p_sortOrder := sortOrder |} in
  flat_map (fun i => rowsOf (TS.getList k st (page (Z.of_nat i) lim))) (seq 1 n)
  = rowsOf (TS.getList k st (page 1 (Z.of_nat n * lim))).
Proof.
  intros Hr Hl Hn Hk page.
  assert (Hd : (if String.eqb (orElse sortOrder "desc") "asc" then 1 else -1)
               <> 0) by (destruct (String.eqb _ _); lia).
  rewrite (@TS_getList_rows k st (page 1 (Z.of_nat n * lim)) Hr)
    by (simpl; nia).
  simpl orElse. rewrite inOrder_distinct by assumption. simpl skipn.
  replace (Z.to_nat (Z.of_nat n * lim)) with (n * Z.to_nat lim)%nat by nia.
  rewrite <- pages_glue.
  assert (Hext : forall l : list nat,
             (forall i, In i l -> (1 <= i)%nat) ->
             flat_map (fun i => rowsOf (TS.getList k st (page (Z.of_nat i) lim))) l
             = flat_map
                 (fun i => map VObj
                    (firstn (Z.to_nat lim)
                       (skipn ((i - 1) * Z.to_nat lim)
                          (sortDocs
                             (splitDots "" (orElse sortBy "createdAt"))
                             (if String.eqb (orElse sortOrder "desc") "asc"
                              then 1 else -1)
                             (List.filter isActive (docs st)))))) l).
  { induction l as [|i l IH]; intros Hi; [reflexivity|]. simpl.
    rewrite IH by (intros j Hj; apply Hi; simpl; auto).
    f_equal.
    rewrite (@TS_getList_rows k st (page (Z.of_nat i) lim) Hr);
      [|simpl; specialize (Hi i (or_introl eq_refl)); lia | simpl; lia].
    simpl orElse. rewrite inOrder_distinct by assumption.
    replace (Z.to_nat ((Z.of_nat i - 1) * lim))
      with ((i - 1) * Z.to_nat lim)%nat; [reflexivity|].
    specialize (Hi i (or_introl eq_refl)). nia. }
  apply Hext. intros i Hi. apply in_seq in Hi. lia.
Qed.

(** X4. The rows come in the order asked for.  On a reachable store, with
    page and limit at least 1, the rows of the TypeScript list are records
    such that, for any two neighbours, the first does not come after the
    second under the sort field and direction of the request ([createdAt],
    descending, when the request names none). *)
Theorem list_is_sorted (k : kind) (st : store) (params : PaginationParams) :
  reachable st = true ->
  1 <= orElse (p_page params) 1 ->
  1 <= orElse (p_limit params) 10 ->
  exists rows,
    rowsOf (TS.getList k st params) = map VObj rows
    /\ Sorted (fun a b =>
                 before (splitDots "" (orElse (p_sortBy params) "createdAt"))
                        (if String.eqb (orElse (p_sortOrder params) "desc") "asc"
                         then 1 else -1)
                        a b = true) rows.
Proof.
  intros Hr Hp Hl. eexists. split.
  - now apply TS_getList_rows.
  - apply Sorted_firstn, Sorted_skipn, inOrder_sorted.
    destruct (String.eqb _ _); lia.
Qed.

End PageOrder.

Lemma pages_concatenate_witness :
  rowsOf (TS.getList (P := Reference.platform) Roaster Sample.roasters
                     (Sample.pageOf 1 1))
  ++ rowsOf (TS.getList (P := Reference.platform) Roaster Sample.roasters
                        (Sample.pageOf 2 1))
  = rowsOf (TS.getList (P := Reference.platform) Roaster Sample.roasters
                       (Sample.pageOf 1 2)).
Proof.
  pose proof (@pages_concatenate Reference.platform Roaster Sample.roasters
                None None 1 2 eq_refl) as H.
  rewrite <- app_nil_r at 1. rewrite <- app_assoc.
  apply H; [lia | lia |].
  intros a b [<- | [<- | []]] [<- | [<- | []]] E;
    first [reflexivity | discriminate E].
Defined.

Lemma list_is_sorted_witness :
  exists rows,
    rowsOf (TS.getList (P := Reference.platform) Roaster Sample.roasters
                       Sample.noParams) = map VObj rows
    /\ Sorted (fun a b => Store.before ["createdAt"] (-1) a b = true) rows.
Proof.
  apply (@list_is_sorted Reference.platform Roaster Sample.roasters
           Sample.noParams eq_refl); simpl; lia.
Defined.

(** ** What a request leaves of the store *)

Section StoreShape.
Context {P : Platform}.
Import Store Routes Spec.

Lemma idsOf_replace st pre d d' post :
  docs st = pre ++ d :: post ->
  getField "_id" d' = getField "_id" d ->
  idsOf (withDocs st (pre ++ d' :: post)) = idsOf st.
Proof.
  intros E H. unfold idsOf. simpl. rewrite E, !map_app. simpl. now rewrite H.
Qed.

Lemma JS_delete_effect k st id now :
  snd (JS.delete k st id now) = st
  \/ exists pre d post,
       docs st = pre ++ d :: post
       /\ snd (JS.delete k st id now)
          = withDocs st (pre ++ softDeleted now d :: post).
Proof.
  destruct (ObjectId_isValid id) eqn:Hv;
    [|left; unfold JS.delete; now rewrite Hv].
  destruct (reachable st) eqn:Hr;
    [|left; unfold JS.delete; now rewrite Hv, Hr].
  destruct (@JS_delete_outcome P k st id now Hr Hv)
    as [[_ ->] | (pre & d & post & E & _ & _ & ->)].
  - now left.
  - right. exists pre, d, post. auto.
Qed.

(** The record a PUT leaves in place of [d]: outside the fields the route
    can reach and [updatedAt], it is [d]. *)
Lemma put_frame k reqBody u d now key :
  updateDataOf k reqBody = Ok u ->
  ~ In key (updatable k) -> key <> "updatedAt" ->
  getField key (updated d u now) = getField key d.
Proof.
  intros Hu Hk Hne. destruct (updateData_shaped _ _ Hu) as (Hn & Hi & _).
  rewrite (@updated_merged d u now Hn key).
  apply String.eqb_neq in Hne. rewrite Hne.
  assert (Hnone : getField key u = None).
  { apply getField_None_keys. intros Hin. apply Hk, Hi, Hin. }
  now rewrite Hnone.
Qed.

Lemma handleUpdate_effect k id reqBody st now :
  snd (handleUpdate k id reqBody st now) = st
  \/ exists u pre d post,
       updateDataOf k reqBody = Ok u
       /\ docs st = pre ++ d :: post
       /\ snd (handleUpdate k id reqBody st now)
          = withDocs st (pre ++ updated d u now :: post).
Proof.
  unfold handleUpdate.
  destruct (truthy reqBody); simpl negb; cbv iota; [|now left].
  destruct (updateDataOf k reqBody) as [u|] eqn:Hu; [|now left].
  destruct (noKeys u); [now left|].
  destruct (TS_update_effect k st id u now) as [H | (pre & d & post & E & H)].
  - left. destruct (TS.update k st id u now). exact H.
  - right. exists u, pre, d, post. split; [reflexivity|]. split; [assumption|].
    destruct (TS.update k st id u now). exact H.
Qed.

Lemma updatable_not_id k : ~ In "_id" (updatable k).
Proof. destruct k; simpl; intuition discriminate. Qed.

Lemma TS_delete_keeps_ids k st id now :
  idsOf (snd (TS.delete k st id now)) = idsOf st.
Proof.
  destruct (TS_delete_effect k st id now)
    as [-> | (pre & d & post & E & ->)]; [reflexivity|].
  eapply idsOf_replace; [exact E|]. now rewrite softDeleted_field.
Qed.

Lemma handler_keeps_ids k method id reqBody st now :
  idsOf (snd (handler k method id reqBody st now)) = idsOf st.
Proof.
  unfold handler.
  destruct (String.eqb method "OPTIONS"); [reflexivity|].
  destruct id as [j|]; [|reflexivity].
  destruct (String.eqb j ""); [reflexivity|].
  destruct (String.eqb method "GET"); [reflexivity|].
  destruct (String.eqb method "PUT").
  - destruct (handleUpdate_effect k j reqBody st now)
      as [-> | (u & pre & d & post & Hu & E & ->)]; [reflexivity|].
    eapply idsOf_replace; [exact E|].
    apply (@put_frame k reqBody u d now "_id" Hu);
      [apply updatable_not_id | discriminate].
  - destruct (String.eqb method "DELETE"); [|reflexivity].
    unfold handleDelete. pose proof (TS_delete_keeps_ids k st j now) as HT.
    destruct (TS.delete k st j now). exact HT.
Qed.

(** X5. No request removes, adds, reorders or renames a stored record,
    except a create, which appends one.  Whatever the method, id and body,
    a request to an [[id]] route leaves the list of the stored [_id]s as it
    was; so do the delete operations of both services; a POST to a
    JavaScript create route leaves the list as it was or appends the id
    the store gave. *)
Theorem requests_keep_ids (k : kind) (method : string) (id : option string)
        (i : string) (reqBody : value) (st : store) (now : Z) (fresh : string) :
  idsOf (snd (handler k method id reqBody st now)) = idsOf st
  /\ idsOf (snd (TS.delete k st i now)) = idsOf st
  /\ idsOf (snd (JS.delete k st i now)) = idsOf st
  /\ (idsOf (snd (handleCreate k reqBody st now fresh)) = idsOf st
      \/ idsOf (snd (handleCreate k reqBody st now fresh))
         = idsOf st ++ [Some (VOid fresh)]).
Proof.
  split; [apply handler_keeps_ids|].
  split; [apply TS_delete_keeps_ids|]. split.
  - destruct (JS_delete_effect k st i now)
      as [-> | (pre & d & post & E & ->)]; [reflexivity|].
    eapply idsOf_replace; [exact E|]. now rewrite softDeleted_field.
  - unfold handleCreate.
    destruct (createDataOf k reqBody) as [[answer|data]|];
      [now left| |now left].
    unfold JS.create.
    destruct (reachable st); simpl negb; cbv iota; [|now left].
    unfold insertOne. destruct (existsb (hasId fresh) (docs st)); [now left|].
    right. simpl. unfold idsOf. simpl. now rewrite map_app.
Qed.

(** X6. A PUT reaches the fields of its list only.  Whatever the id and
    the body, a PUT to an [[id]] route leaves the store as it was or
    replaces one record in place, and the replacing record agrees with the
    replaced one on every field that is neither [updatedAt] nor one of the
    fields the route copies from the body ([_id], [createdAt],
    [totalOrders] and any field unknown to the route are such fields). *)
Theorem put_reaches_listed_fields (k : kind) (id : string) (reqBody : value)
        (st : store) (now : Z) :
  let out := handleUpdate k id reqBody st now in
  snd out = st
  \/ exists pre d d' post,
       docs st = pre ++ d :: post
       /\ snd out = withDocs st (pre ++ d' :: post)
       /\ forall key,
            ~ In key (updatable k) -> key <> "updatedAt" ->
            getField key d' = getField key d.
Proof.
  destruct (handleUpdate_effect k id reqBody st now)
    as [H | (u & pre & d & post & Hu & E & H)]; [now left|].
  right. exists pre, d, (updated d u now), post.
  split; [assumption|]. split; [assumption|].
  intros key Hk Hne. now apply (@put_frame k reqBody u d now key Hu).
Qed.

Lemma delete_succeeded k st id now out :
  out = TS.delete k st id now \/ out = JS.delete k st id now ->
  success (fst out) = true ->
  reachable st = true /\ ObjectId_isValid id = true
  /\ exists pre d post,
       docs st = pre ++ d :: post
       /\ (forall x, In x pre -> hasId (ObjectId_new id) x = false)
       /\ hasId (ObjectId_new id) d = true
       /\ snd out = withDocs st (pre ++ softDeleted now d :: post).
Proof.
  intros Hout Hs.
  assert (Hrv : reachable st = true /\ ObjectId_isValid id = true).
  { destruct Hout as [-> | ->]; unfold TS.delete, JS.delete in Hs;
      destruct (reachable st); destruct (ObjectId_isValid id);
      try discriminate; auto. }
  destruct Hrv as [Hr Hv]. split; [assumption|]. split; [assumption|].
  assert (Hoc : deleteOutcome k st (ObjectId_new id) now out).
  { destruct Hout as [-> | ->].
    - apply (@TS_delete_outcome P k st id now Hr Hv).
    - apply (@JS_delete_outcome P k st id now Hr Hv). }
  destruct Hoc as [[_ ->] | (pre & d & post & E & Hp & Hd & ->)];
    [discriminate|].
  exists pre, d, post. auto.
Qed.

(** X7. A delete writes two fields of one record.  When the delete of
    either service succeeds, the store differs from the one before in one
    record only, the first with the id, and that record differs in
    [isActive], now [false], and [updatedAt], now the clock, only. *)
Theorem delete_writes_two_fields (k : kind) (st : store) (id : string) (now : Z)
        (out : ApiResponse * store) :
  out = TS.delete k st id now \/ out = JS.delete k st id now ->
  success (fst out) = true ->
  exists pre d d' post,
    docs st = pre ++ d :: post
    /\ (forall x, In x pre -> hasId (ObjectId_new id) x = false)
    /\ hasId (ObjectId_new id) d = true
    /\ snd out = withDocs st (pre ++ d' :: post)
    /\ forall key,
         getField key d' =
         if String.eqb key "isActive" then Some (VBool false)
         else if String.eqb key "updatedAt" then Some (VDate now)
         else getField key d.
Proof.
  intros Hout Hs.
  destruct (@delete_succeeded k st id now out Hout Hs)
    as (_ & _ & pre & d & post & E & Hp & Hd & H).
  exists pre, d, (softDeleted now d), post. repeat split; auto.
  intros key. apply softDeleted_field.
Qed.

End StoreShape.

Lemma delete_writes_two_fields_witness :
  exists pre d d' post,
    Store.docs Sample.roasters = pre ++ d :: post
    /\ snd (TS.delete (P := Reference.platform) Roaster Sample.roasters
              Sample.idB 300)
       = Store.withDocs Sample.roasters (pre ++ d' :: post)
    /\ getField "businessName" d' = getField "businessName" d.
Proof.
  destruct (@delete_writes_two_fields Reference.platform Roaster Sample.roasters
              Sample.idB 300 _ (or_introl eq_refl) eq_refl)
    as (pre & d & d' & post & E & _ & _ & H & Hf).
  exists pre, d, d', post. split; [exact E|]. split; [exact H|].
  exact (Hf "businessName").
Defined.

(** ** Records that are not active *)

Section Inactive.
Context {P : Platform}.
Import Store Spec.

Lemma hasId_id oid d : hasId oid d = true -> getField "_id" d = Some (VOid oid).
Proof.
  unfold hasId. destruct (getField "_id" d) as [[]|]; try discriminate.
  intros H. apply String.eqb_eq in H. now subst.
Qed.

Lemma unique_id oid pre d post x :
  NoDup (map (getField "_id") (pre ++ d :: post)) ->
  hasId oid d = true -> In x post -> hasId oid x = false.
Proof.
  intros Hn Hd Hx. destruct (hasId oid x) eqn:E; [|reflexivity]. exfalso.
  rewrite map_app in Hn. simpl in Hn. apply NoDup_remove_2 in Hn.
  apply Hn. apply in_or_app. right.
  rewrite (@hasId_id oid d Hd), <- (@hasId_id oid x E). now apply in_map.
Qed.

Lemma inactive_unmatched oid ds :
  (forall x, In x ds -> hasId oid x = true -> isActive x = false) ->
  forall x, In x ds -> matches [CId oid; CTrue "isActive"] x = false.
Proof.
  intros H x Hx. rewrite matches_id_active.
  destruct (hasId oid x) eqn:E; [|reflexivity]. simpl. now apply H.
Qed.

Lemma JS_getById_inactive k st id :
  ObjectId_isValid id = true -> reachable st = true ->
  (forall x, In x (docs st) ->
             hasId (ObjectId_new id) x = true -> isActive x = false) ->
  JS.getById k st id = fail (Noun k ++ " not found").
Proof.
  intros Hv Hr H. unfold JS.getById. rewrite Hv, Hr. simpl negb. cbv iota.
  rewrite findOne_missing; [reflexivity|].
  now apply inactive_unmatched.
Qed.

Lemma withDocs_same st : withDocs st (docs st) = st.
Proof. now destruct st. Qed.

(** X8. The JavaScript services do not show or change a record that is not
    active.  On a reachable store and for a well-formed id, when every
    record with the id has an [isActive] other than [true], the get-by-id
    answers "not found", and the update and the change of subscription
    tier leave the store as it was.  The update reports success all the
    same: its answer carries the reply of the driver, which holds no
    record.  So does the change of tier for a tier among basic, premium
    and enterprise; any other tier is refused. *)
Theorem JS_leaves_inactive_untouched (k : kind) (st : store) (id tier : string)
        (u : doc) (now : Z) :
  ObjectId_isValid id = true -> reachable st = true ->
  (forall x, In x (docs st) ->
             hasId (ObjectId_new id) x = true -> isActive x = false) ->
  JS.getById k st id = fail (Noun k ++ " not found")
  /\ JS.update k st id u now
     = (ok (modifyResult None) (Some (Noun k ++ " updated successfully")%string),
        st)
  /\ snd (JS.updateSubscriptionTier st id tier now) = st
  /\ (In tier tiers ->
      fst (JS.updateSubscriptionTier st id tier now)
      = ok (modifyResult None) (Some "Subscription tier updated successfully"))
  /\ (~ In tier tiers ->
      fst (JS.updateSubscriptionTier st id tier now)
      = fail "Invalid subscription tier. Must be basic, premium, or enterprise").
Proof.
  intros Hv Hr H.
  pose proof (@inactive_unmatched (ObjectId_new id) (docs st) H) as Hm.
  split; [|split].
  - now apply JS_getById_inactive.
  - unfold JS.update, findOneAndUpdate. rewrite Hv, Hr. simpl negb. cbv iota.
    rewrite setFirst_missing by assumption. simpl negb. cbv iota.
    now rewrite withDocs_same.
  - unfold JS.updateSubscriptionTier, findOneAndUpdate. rewrite Hv, Hr.
    destruct (existsb (String.eqb tier) ["basic"; "premium"; "enterprise"])
      eqn:Et; simpl negb; cbv iota.
    + rewrite setFirst_missing by assumption. simpl negb. cbv iota.
      rewrite withDocs_same. split; [reflexivity|]. split; [reflexivity|].
      intros Hn. exfalso. apply Hn. apply existsb_exists in Et.
      destruct Et as (x & Hx & Ex). apply String.eqb_eq in Ex. now subst.
    + split; [reflexivity|]. split; [|reflexivity].
      intros Hin. exfalso.
      assert (Ht : existsb (String.eqb tier) tiers = true)
        by (apply existsb_exists; exists tier; split;
            [assumption | apply String.eqb_refl]).
      unfold tiers in Ht. congruence.
Qed.

(** X9. A deleted record leaves the lists.  In a store whose ids are
    distinct, after a successful delete through either service, no row of
    the list or the search of either service has the id, whatever the
    query and the pagination, and the get-by-id of the JavaScript service
    answers "not found". *)
Theorem deleted_record_leaves_lists (k : kind) (st : store) (id : string)
        (now : Z) (out : ApiResponse * store) (q : string)
        (params : PaginationParams) (r : ApiResponse) :
  NoDup (idsOf st) ->
  out = TS.delete k st id now \/ out = JS.delete k st id now ->
  success (fst out) = true ->
  r = TS.getList k (snd out) params \/ r = TS.search k (snd out) q params
  \/ r = JS.getList k (snd out) params \/ r = JS.search k (snd out) q params ->
  (forall d, In (VObj d) (rowsOf r) -> hasId (ObjectId_new id) d = false)
  /\ JS.getById k (snd out) id = fail (Noun k ++ " not found").
Proof.
  intros Hn Hout Hs Hr.
  destruct (@delete_succeeded P k st id now out Hout Hs)
    as (Hre & Hv & pre & d & post & E & Hp & Hd & H).
  unfold idsOf in Hn. rewrite E in Hn.
  assert (Hgone : forall x, In x (docs (snd out)) ->
                            hasId (ObjectId_new id) x = true ->
                            isActive x = false).
  { rewrite H. simpl. intros x Hx Hid. apply in_app_or in Hx.
    destruct Hx as [Hx | [<- | Hx]].
    - rewrite (Hp x Hx) in Hid. discriminate.
    - apply softDeleted_inactive.
    - rewrite (@unique_id (ObjectId_new id) pre d post x Hn Hd Hx) in Hid.
      discriminate. }
  split.
  - intros d0 Hin.
    destruct (@rows_active P k (snd out) q params r (VObj d0) Hr Hin)
      as (d1 & [= <-] & Hin1 & Ha).
    destruct (hasId (ObjectId_new id) d0) eqn:Hid; [|reflexivity].
    rewrite (Hgone d0 Hin1 Hid) in Ha. discriminate.
  - apply (@JS_getById_inactive k (snd out) id Hv).
    + rewrite H. exact Hre.
    + exact Hgone.
Qed.

End Inactive.

Lemma JS_leaves_inactive_untouched_witness :
  let st := Store.withDocs Sample.roasters
              [Spec.softDeleted 300 Sample.roasterA; Sample.roasterB] in
  JS.getById (P := Reference.platform) Roaster st Sample.idA
  = fail "Roaster not found"
  /\ JS.update (P := Reference.platform) Roaster st Sample.idA
               [("businessName", VStr "Flight")] 400
     = (ok (Store.modifyResult None) (Some "Roaster updated successfully"), st)
  /\ JS.updateSubscriptionTier (P := Reference.platform) st Sample.idA
                               "premium" 400
     = (ok (Store.modifyResult None)
           (Some "Subscription tier updated successfully"), st).
Proof.
  destruct (@JS_leaves_inactive_untouched Reference.platform Roaster
              (Store.withDocs Sample.roasters
                 [Spec.softDeleted 300 Sample.roasterA; Sample.roasterB])
              Sample.idA "premium" [("businessName", VStr "Flight")] 400
              eq_refl eq_refl) as (H1 & H2 & H3 & H4 & _).
  - intros x [<- | [<- | []]] Hid; vm_compute in Hid; vm_compute; congruence.
  - split; [exact H1|]. split; [exact H2|].
    rewrite (surjective_pairing (JS.updateSubscriptionTier _ _ _ _)).
    rewrite H3, H4; [reflexivity|]. simpl. auto.
Defined.

Lemma deleted_record_leaves_lists_witness :
  JS.getById (P := Reference.platform) Roaster
    (snd (TS.delete (P := Reference.platform) Roaster Sample.roasters
            Sample.idB 300))
    Sample.idB
  = fail "Roaster not found".
Proof.
  refine (proj2 (@deleted_record_leaves_lists Reference.platform Roaster
                   Sample.roasters Sample.idB 300 _ "" Sample.noParams _
                   _ (or_introl eq_refl) eq_refl (or_introl eq_refl))).
  vm_compute. repeat constructor; simpl; intuition discriminate.
Defined.

(** ** Creating a record *)

Section Creates.
Context {P : Platform}.
Import Store Routes Spec.

Lemma insertOne_outcome d fresh ds :
  insertOne d fresh ds = Throw
  \/ ((forall x, In x ds -> hasId fresh x = false)
      /\ insertOne d fresh ds = Ok (ds ++ [("_id", VOid fresh) :: bsonDoc d])).
Proof.
  unfold insertOne. destruct (existsb (hasId fresh) ds) eqn:E; [now left|].
  right. split; [|reflexivity]. intros x Hx.
  destruct (hasId fresh x) eqn:Ex; [|reflexivity].
  assert (existsb (hasId fresh) ds = true) as Ht
      by (apply existsb_exists; exists x; auto).
  congruence.
Qed.

Lemma hasId_inserted fresh d : hasId fresh (("_id", VOid fresh) :: d) = true.
Proof. unfold hasId. simpl. apply String.eqb_refl. Qed.

Lemma getField_inserted key fresh d :
  key <> "_id" -> getField key (("_id", VOid fresh) :: d) = getField key d.
Proof. intros Hk. simpl. apply String.eqb_neq in Hk. now rewrite Hk. Qed.

Lemma JS_create_outcome k st data now fresh :
  let d := ("_id", VOid fresh)
           :: bsonDoc (assign data [("createdAt", VDate now);
                                    ("updatedAt", VDate now)]) in
  (success (fst (JS.create k st data now fresh)) = false
   /\ snd (JS.create k st data now fresh) = st)
  \/ (reachable st = true
      /\ (forall x, In x (docs st) -> hasId fresh x = false)
      /\ JS.create k st data now fresh
         = (ok (VObj d) (Some (Noun k ++ " created successfully")%string),
            withDocs st (docs st ++ [d]))).
Proof.
  intros d. unfold JS.create.
  destruct (reachable st); simpl negb; cbv iota; [|left; split; reflexivity].
  destruct (insertOne_outcome
              (assign data [("createdAt", VDate now); ("updatedAt", VDate now)])
              fresh (docs st)) as [-> | [Hno ->]]; [left; split; reflexivity|].
  right. split; [reflexivity|]. split; [assumption|].
  fold d. rewrite findOne_found; [reflexivity| |].
  - intros x Hx. rewrite matches_id. auto.
  - rewrite matches_id. apply hasId_inserted.
Qed.

Lemma TS_create_outcome k st data now fresh :
  let newDoc := assign data [("createdAt", VDate now); ("updatedAt", VDate now);
                             ("totalOrders", VNum 0); ("isActive", VBool true)] in
  (success (fst (TS.create k st data now fresh)) = false
   /\ snd (TS.create k st data now fresh) = st)
  \/ (reachable st = true
      /\ (forall x, In x (docs st) -> hasId fresh x = false)
      /\ TS.create k st data now fresh
         = (ok (VObj (setField "_id" (VOid fresh) newDoc))
               (Some (Noun k ++ " created successfully")%string),
            withDocs st (docs st ++ [("_id", VOid fresh) :: bsonDoc newDoc]))).
Proof.
  intros newDoc. unfold TS.create.
  destruct (reachable st); simpl negb; cbv iota; [|left; split; reflexivity].
  fold newDoc.
  destruct (insertOne_outcome newDoc fresh (docs st)) as [-> | [Hno ->]];
    [left; split; reflexivity|].
  right. auto.
Qed.

(** The record the store has just appended is the one its id finds. *)
Lemma getById_inserted k st fresh d0 :
  reachable st = true ->
  ObjectId_isValid fresh = true -> ObjectId_new fresh = fresh ->
  (forall x, In x (docs st) -> hasId fresh x = false) ->
  let d := ("_id", VOid fresh) :: d0 in
  TS.getById k (withDocs st (docs st ++ [d])) fresh = ok (VObj d) None
  /\ (isActive d = true ->
      JS.getById k (withDocs st (docs st ++ [d])) fresh = ok (VObj d) None).
Proof.
  intros Hr Hv Hn Hno d. split.
  - unfold TS.getById. simpl reachable. rewrite Hr, Hv, Hn. simpl negb.
    cbv iota. simpl docs. rewrite findOne_found; [reflexivity| |].
    + intros x Hx. rewrite matches_id. auto.
    + rewrite matches_id. apply hasId_inserted.
  - intros Ha. unfold JS.getById. simpl reachable. rewrite Hr, Hv, Hn.
    simpl negb. cbv iota. simpl docs. rewrite findOne_found; [reflexivity| |].
    + intros x Hx. rewrite matches_id_active, (Hno x Hx). reflexivity.
    + rewrite matches_id_active, Ha. unfold d. now rewrite hasId_inserted.
Qed.

Lemma activeCount_appended st d :
  isActive d = true ->
  activeCount (withDocs st (docs st ++ [d])) = activeCount st + 1.
Proof.
  intros Ha. unfold activeCount. simpl docs. rewrite filter_app. simpl.
  rewrite Ha, length_app. simpl. lia.
Qed.

Ltac crunch_refusal :=
  repeat match goal with
    | H : bind ?r _ = Ok _ |- _ =>
        destruct r eqn:?; cbn [bind] in H; [|discriminate H]
    | H : (if ?c then _ else _) = Ok _ |- _ => destruct c eqn:?
    | H : Ok (inr _) = Ok (inl _) |- _ => discriminate H
    | H : Ok (inl _) = Ok (inl _) |- _ => injection H as H; subst
    end.

(** The answers the create routes send before calling the service are
    refusals. *)
Lemma createData_refusal k reqBody answer :
  createDataOf k reqBody = Ok (inl answer) -> status answer = 400.
Proof.
  destruct k; simpl; unfold farmerCreateData, roasterCreateData; intros H;
    crunch_refusal; reflexivity.
Qed.

Lemma roasterCreateDataTS_refusal reqBody answer :
  roasterCreateDataTS reqBody = Ok (inl answer) -> status answer = 400.
Proof.
  unfold roasterCreateDataTS; intros H; crunch_refusal; reflexivity.
Qed.

(** X10. A created record is found.  When a JavaScript create route
    answers 201, the store is the one before with one record appended; the
    answer carries that record, the get-by-id of both services finds it
    under the id the store gave, and the number of active records has
    grown by one.  (The id the store gives is a well-formed object id in
    canonical form.) *)
Theorem created_record_is_found (k : kind) (reqBody : value) (st : store)
        (now : Z) (fresh : string) :
  ObjectId_isValid fresh = true -> ObjectId_new fresh = fresh ->
  status (fst (handleCreate k reqBody st now fresh)) = 201 ->
  exists d,
    docs (snd (handleCreate k reqBody st now fresh)) = docs st ++ [d]
    /\ option_map data (body (fst (handleCreate k reqBody st now fresh)))
       = Some (Some (VObj d))
    /\ JS.getById k (snd (handleCreate k reqBody st now fresh)) fresh
       = ok (VObj d) None
    /\ TS.getById k (snd (handleCreate k reqBody st now fresh)) fresh
       = ok (VObj d) None
    /\ activeCount (snd (handleCreate k reqBody st now fresh))
       = activeCount st + 1.
Proof.
  intros Hv Hn. unfold handleCreate.
  destruct (createDataOf k reqBody) as [[answer|data]|] eqn:E.
  - simpl. rewrite (createData_refusal _ _ E). discriminate.
  - pose proof (createData_isActive _ _ E) as Ha.
    destruct (created_fields data now fresh Ha) as (_ & _ & Hact).
    destruct (JS_create_outcome k st data now fresh)
      as [[Hs Hst] | (Hr & Hno & ->)].
    + destruct (JS.create k st data now fresh) as [r st']. simpl in Hs.
      rewrite Hs. simpl. discriminate.
    + simpl. intros _.
      assert (Hactive : isActive (("_id", VOid fresh)
                                  :: bsonDoc (assign data
                                                [("createdAt", VDate now);
                                                 ("updatedAt", VDate now)]))
                        = true).
      { unfold isActive. now rewrite Hact. }
      destruct (@getById_inserted k st fresh
                  (bsonDoc (assign data [("createdAt", VDate now);
                                         ("updatedAt", VDate now)]))
                  Hr Hv Hn Hno) as [HT HJ].
      eexists. split; [reflexivity|]. split; [reflexivity|].
      split; [exact (HJ Hactive)|]. split; [exact HT|].
      now apply activeCount_appended.
  - simpl. discriminate.
Qed.

(** X11. A create that is not answered 201 writes nothing: each create
    route answers 201 or leaves the store as it was, each create operation
    of the services succeeds or leaves the store as it was, and the create
    route of the TypeScript farmers page never answers 201 and never
    writes. *)
Theorem refused_create_writes_nothing (k : kind) (reqBody : value) (data : doc)
        (st : store) (now : Z) (fresh : string) :
  (status (fst (handleCreate k reqBody st now fresh)) = 201
   \/ snd (handleCreate k reqBody st now fresh) = st)
  /\ (status (fst (handleCreateRoasterTS reqBody st now fresh)) = 201
      \/ snd (handleCreateRoasterTS reqBody st now fresh) = st)
  /\ (status (fst (handleCreateFarmer reqBody st)) <> 201
      /\ snd (handleCreateFarmer reqBody st) = st)
  /\ (success (fst (JS.create k st data now fresh)) = true
      \/ snd (JS.create k st data now fresh) = st)
  /\ (success (fst (TS.create k st data now fresh)) = true
      \/ snd (TS.create k st data now fresh) = st).
Proof.
  assert (HJ : forall dt, success (fst (JS.create k st dt now fresh)) = true
                          \/ snd (JS.create k st dt now fresh) = st).
  { intros dt. destruct (JS_create_outcome k st dt now fresh)
      as [[_ H] | (_ & _ & ->)]; [now right | now left]. }
  assert (HT : forall j dt, success (fst (TS.create j st dt now fresh)) = true
                            \/ snd (TS.create j st dt now fresh) = st).
  { intros j dt. destruct (TS_create_outcome j st dt now fresh)
      as [[_ H] | (_ & _ & ->)]; [now right | now left]. }
  split; [|split; [|split; [|split; [apply HJ | apply HT]]]].
  - unfold handleCreate.
    destruct (createDataOf k reqBody) as [[answer|dt]|]; [now right| |now right].
    destruct (HJ dt) as [H | H];
      destruct (JS.create k st dt now fresh) as [r st']; simpl in H.
    + rewrite H. now left.
    + destruct (success r); [now left | now right].
  - unfold handleCreateRoasterTS.
    destruct (truthy reqBody); simpl negb; cbv iota; [|now right].
    destruct (roasterCreateDataTS reqBody) as [[answer|dt]|];
      [now right| |now right].
    unfold TS.createRoaster.
    destruct (HT Roaster dt) as [H | H];
      destruct (TS.create Roaster st dt now fresh) as [r st']; simpl in H.
    + rewrite H. now left.
    + now right.
  - unfold handleCreateFarmer.
    destruct (truthy reqBody); simpl negb; cbv iota;
      [|split; [discriminate | reflexivity]].
    match goal with
    | |- context [match ?x with Ok _ => _ | Throw => _ end] =>
        destruct x as [answer|] eqn:E
    end; [|split; [discriminate | reflexivity]].
    split; [|reflexivity]. simpl.
    repeat match type of E with
      | bind ?r _ = Ok _ =>
          destruct r eqn:?; cbn [bind] in E; [|discriminate E]
      | (if ?c then _ else _) = Ok _ => destruct c eqn:?
      | match ?v with _ => _ end = Ok _ => destruct v
      end;
      try discriminate E; injection E as <-; discriminate.
Qed.

End Creates.

Lemma created_record_is_found_witness :
  exists d,
    JS.getById (P := Reference.platform) Roaster
      (snd (Routes.handleCreate (P := Reference.platform) Roaster
              Sample.newRoaster Sample.roasters 300 Sample.idC))
      Sample.idC
    = ok (VObj d) None.
Proof.
  destruct (@created_record_is_found Reference.platform Roaster
              Sample.newRoaster Sample.roasters 300 Sample.idC
              eq_refl eq_refl ltac:(vm_compute; reflexivity))
    as (d & _ & _ & H & _).
  exists d. exact H.
Defined.

(** ** The create route of the TypeScript roasters page *)

Section CreateRoaster.
Context {P : Platform}.
Import Store Routes Spec.

Lemma includes_In allowed v :
  includes allowed v = true -> exists s, v = VStr s /\ In s allowed.
Proof.
  destruct v; simpl; try discriminate. intros H.
  apply existsb_exists in H. destruct H as (x & Hin & Hx).
  apply String.eqb_eq in Hx. subst x. eauto.
Qed.

Lemma roasterCreateDataTS_data reqBody data :
  roasterCreateDataTS reqBody = Ok (inr data) ->
  exists businessName ownerName location contact businessType description
         subscriptionTier,
    data = [("businessName", businessName); ("ownerName", ownerName);
            ("location", location); ("contact", contact);
            ("businessType", VStr businessType);
            ("description", description);
            ("subscriptionTier", VStr subscriptionTier)]
    /\ In businessType ["roastery"; "cafe"; "both"]
    /\ In subscriptionTier ["basic"; "premium"; "enterprise"].
Proof.
  unfold roasterCreateDataTS. intros H.
  repeat match goal with
    | H : bind ?r _ = Ok _ |- _ =>
        destruct r eqn:?; cbn [bind] in H; [|discriminate H]
    | H : (if ?c then _ else _) = Ok _ |- _ => destruct c eqn:?
    | H : Ok (inl _) = Ok (inr _) |- _ => discriminate H
    | H : Ok (inr _) = Ok (inr _) |- _ => injection H as H; subst
    end.
  repeat match goal with
    | H : negb (includes _ _) = false |- _ =>
        apply negb_false_iff, includes_In in H;
        destruct H as (? & -> & ?)
    end.
  do 7 eexists. split; [reflexivity|]. split; assumption.
Qed.

(** X12. What the TypeScript roasters page creates.  When its create route
    answers 201, the store is the one before with one record appended,
    which the get-by-id finds under the id the store gave.  Whatever the
    body says, the record is active, has no orders, and carries the clock
    as [createdAt] and [updatedAt]; its [businessType] is one of roastery,
    cafe, both and its [subscriptionTier] one of basic, premium,
    enterprise.  The answer carries the record as the service built it:
    field by field, the stored record is what the driver writes for it. *)
Theorem TS_route_creates_roaster (reqBody : value) (st : store) (now : Z)
        (fresh : string) :
  ObjectId_isValid fresh = true -> ObjectId_new fresh = fresh ->
  status (fst (handleCreateRoasterTS reqBody st now fresh)) = 201 ->
  exists d,
    docs (snd (handleCreateRoasterTS reqBody st now fresh)) = docs st ++ [d]
    /\ TS.getById Roaster (snd (handleCreateRoasterTS reqBody st now fresh))
         fresh = ok (VObj d) None
    /\ getField "isActive" d = Some (VBool true)
    /\ getField "totalOrders" d = Some (VNum 0)
    /\ getField "createdAt" d = Some (VDate now)
    /\ getField "updatedAt" d = Some (VDate now)
    /\ (exists s, In s ["roastery"; "cafe"; "both"]
                  /\ getField "businessType" d = Some (VStr s))
    /\ (exists s, In s ["basic"; "premium"; "enterprise"]
                  /\ getField "subscriptionTier" d = Some (VStr s))
    /\ (exists returned,
           option_map data
             (body (fst (handleCreateRoasterTS reqBody st now fresh)))
           = Some (Some (VObj returned))
           /\ forall key,
                getField key d = option_map bson (getField key returned))
    /\ activeCount (snd (handleCreateRoasterTS reqBody st now fresh))
       = activeCount st + 1.
Proof.
  intros Hv Hn. unfold handleCreateRoasterTS.
  destruct (truthy reqBody); simpl negb; cbv iota; [|discriminate].
  destruct (roasterCreateDataTS reqBody) as [[answer|data]|] eqn:E.
  - simpl. rewrite (roasterCreateDataTS_refusal _ E). discriminate.
  - unfold TS.createRoaster.
    destruct (TS_create_outcome Roaster st data now fresh)
      as [[Hs Hst] | (Hr & Hno & ->)].
    + destruct (TS.create Roaster st data now fresh) as [r st']. simpl in Hs.
      rewrite Hs. simpl. discriminate.
    + intros _.
      destruct (roasterCreateDataTS_data _ E)
        as (bn & on & loc & ct & bt & desc & tier & -> & Hbt & Htier).
      destruct (@getById_inserted P Roaster st fresh
                  (bsonDoc (assign
                     [("businessName", bn); ("ownerName", on);
                      ("location", loc); ("contact", ct);
                      ("businessType", VStr bt); ("description", desc);
                      ("subscriptionTier", VStr tier)]
                     [("createdAt", VDate now); ("updatedAt", VDate now);
                      ("totalOrders", VNum 0); ("isActive", VBool true)]))
                  Hr Hv Hn Hno) as [HT _].
      eexists. split; [reflexivity|]. split; [exact HT|].
      split; [reflexivity|]. split; [reflexivity|].
      split; [reflexivity|]. split; [reflexivity|].
      split; [exists bt; split; [assumption | reflexivity]|].
      split; [exists tier; split; [assumption | reflexivity]|].
      split.
      * eexists. split; [reflexivity|]. intros key.
        destruct (String.eqb key "_id") eqn:Ek.
        -- apply String.eqb_eq in Ek. subst key. reflexivity.
        -- apply String.eqb_neq in Ek.
           rewrite getField_inserted by assumption.
           rewrite getField_setField_ne by congruence.
           apply getField_bsonDoc.
      * apply activeCount_appended. reflexivity.
  - simpl. discriminate.
Qed.

End CreateRoaster.

Lemma TS_route_creates_roaster_witness :
  exists d,
    TS.getById (P := Reference.platform) Roaster
      (snd (Routes.handleCreateRoasterTS (P := Reference.platform)
              Sample.newRoasterTS Sample.roasters 300 Sample.idC))
      Sample.idC
    = ok (VObj d) None
    /\ getField "isActive" d = Some (VBool true)
    /\ getField "totalOrders" d = Some (VNum 0).
Proof.
  destruct (@TS_route_creates_roaster Reference.platform
              Sample.newRoasterTS Sample.roasters 300 Sample.idC
              eq_refl eq_refl ltac:(vm_compute; reflexivity))
    as (d & _ & H & Ha & Ho & _).
  exists d. auto.
Defined.

(** ** Ids stay distinct *)

Section UniqueIds.
Context {P : Platform}.
Import Store Routes Spec.

Lemma NoDup_appended st fresh :
  NoDup (idsOf st) ->
  (forall x, In x (docs st) -> hasId fresh x = false) ->
  NoDup (idsOf st ++ [Some (VOid fresh)]).
Proof.
  intros Hn Hno.
  apply (Permutation_NoDup (Permutation_cons_append _ _)).
  constructor; [|assumption].
  intros Hin. apply in_map_iff in Hin. destruct Hin as (x & Hx & Hin).
  specialize (Hno x Hin). unfold hasId in Hno. rewrite Hx in Hno.
  now rewrite String.eqb_refl in Hno.
Qed.

Lemma handleCreate_ids k reqBody st now fresh :
  NoDup (idsOf st) ->
  NoDup (idsOf (snd (handleCreate k reqBody st now fresh))).
Proof.
  intros Hn. unfold handleCreate.
  destruct (createDataOf k reqBody) as [[answer|data]|];
    [assumption| |assumption].
  destruct (JS_create_outcome k st data now fresh)
    as [[_ Hst] | (_ & Hno & ->)].
  - destruct (JS.create k st data now fresh) as [r st']. simpl in Hst.
    subst st'. now destruct (success r).
  - simpl. unfold idsOf. simpl. rewrite map_app. simpl.
    now apply NoDup_appended.
Qed.

Lemma handleCreateRoasterTS_ids reqBody st now fresh :
  NoDup (idsOf st) ->
  NoDup (idsOf (snd (handleCreateRoasterTS reqBody st now fresh))).
Proof.
  intros Hn. unfold handleCreateRoasterTS.
  destruct (truthy reqBody); simpl negb; cbv iota; [|assumption].
  destruct (roasterCreateDataTS reqBody) as [[answer|data]|];
    [assumption| |assumption].
  unfold TS.createRoaster.
  destruct (TS_create_outcome Roaster st data now fresh)
    as [[_ Hst] | (_ & Hno & ->)].
  - destruct (TS.create Roaster st data now fresh) as [r st']. simpl in Hst.
    now subst st'.
  - simpl. unfold idsOf. simpl. rewrite map_app. simpl.
    now apply NoDup_appended.
Qed.

Lemma indexHandler_ids method st onGet onPost :
  NoDup (idsOf st) -> NoDup (idsOf (snd onPost)) ->
  NoDup (idsOf (snd (indexHandler method st onGet onPost))).
Proof.
  intros Hn Hp. unfold indexHandler.
  destruct (String.eqb method "OPTIONS"); [assumption|].
  destruct (String.eqb method "GET"); [assumption|].
  destruct (String.eqb method "POST"); assumption.
Qed.

Lemma handleCreateFarmer_store reqBody st :
  snd (handleCreateFarmer reqBody st) = st.
Proof.
  unfold handleCreateFarmer.
  destruct (truthy reqBody); simpl negb; cbv iota; [|reflexivity].
  match goal with
  | |- context [match ?x with Ok _ => _ | Throw => _ end] => destruct x
  end; reflexivity.
Qed.

(** X13. The ids of the stored records stay distinct.  When no two records
    of the store have the same [_id], none have after a request to any of
    the routes: an [[id]] route, or the list-and-create route of the
    farmers or of the roasters, in its TypeScript or its JavaScript
    version, whatever the method, the query and the body. *)
Theorem ids_stay_unique (k : kind) (method : string) (id : option string)
        (q : ListQuery) (reqBody : value) (st : store) (now : Z)
        (fresh : string) :
  NoDup (idsOf st) ->
  NoDup (idsOf (snd (handler k method id reqBody st now)))
  /\ NoDup (idsOf (snd (farmersIndex method q reqBody st)))
  /\ NoDup (idsOf (snd (roastersIndex method q reqBody st now fresh)))
  /\ NoDup (idsOf (snd (farmersIndexJS method q reqBody st now fresh)))
  /\ NoDup (idsOf (snd (roastersIndexJS method q reqBody st now fresh))).
Proof.
  intros Hn. split; [now rewrite handler_keeps_ids|].
  split; [|split; [|split]].
  - apply indexHandler_ids; [assumption|].
    now rewrite handleCreateFarmer_store.
  - apply indexHandler_ids; [assumption|].
    now apply handleCreateRoasterTS_ids.
  - apply indexHandler_ids; [assumption|].
    now apply handleCreate_ids.
  - apply indexHandler_ids; [assumption|].
    now apply handleCreate_ids.
Qed.

End UniqueIds.

Lemma ids_stay_unique_witness :
  NoDup (idsOf (snd (Routes.roastersIndexJS (P := Reference.platform) "POST"
                       (Routes.Build_ListQuery None None None None None None)
                       Sample.newRoaster Sample.roasters 300 Sample.idC))).
Proof.
  refine (proj2 (proj2 (proj2 (proj2
            (@ids_stay_unique Reference.platform Roaster "POST" None
               (Routes.Build_ListQuery None None None None None None)
               Sample.newRoaster Sample.roasters 300 Sample.idC _))))).
  vm_compute. repeat constructor; simpl; intuition discriminate.
Defined.

(** ** Subscription tiers *)

Section Tiers.
Context {P : Platform}.
Import Store Routes Spec.

Lemma matches_tier tier d :
  matches [CStr "subscriptionTier" tier; CTrue "isActive"] d
  = (hasTier tier d && isActive d)%bool.
Proof. simpl. unfold hasTier, isActive. now rewrite andb_true_r. Qed.

Lemma find_tier tier ds :
  find [CStr "subscriptionTier" tier; CTrue "isActive"] ds
  = Ok (List.filter (fun d => hasTier tier d && isActive d)%bool ds).
Proof.
  unfold find. simpl accepted. cbv iota. f_equal.
  apply filter_ext. intros d. apply matches_tier.
Qed.

Lemma known_tier tier :
  existsb (String.eqb tier) ["basic"; "premium"; "enterprise"] = true
  <-> In tier tiers.
Proof.
  rewrite existsb_exists. split.
  - intros (x & Hin & Hx). apply String.eqb_eq in Hx. now subst x.
  - intros Hin. exists tier. split; [assumption | apply String.eqb_refl].
Qed.

Lemma TS_tier_rows st tier :
  reachable st = true ->
  exists rows,
    TS.getRoastersByTier st tier = ok (VArr (map VObj rows)) None
    /\ Permutation rows
         (List.filter (fun d => hasTier tier d && isActive d)%bool (docs st))
    /\ Sorted (fun a b => before ["createdAt"] (-1) a b = true) rows.
Proof.
  intros Hr. unfold TS.getRoastersByTier. rewrite Hr. simpl negb. cbv iota.
  rewrite cursor_page by (reflexivity || lia).
  eexists. split; [reflexivity|]. unfold limit. simpl. split.
  - rewrite inOrder_perm.
    rewrite (filter_ext _ _ (matches_tier tier)). reflexivity.
  - apply (@inOrder_sorted P _ "createdAt" (-1)). discriminate.
Qed.

Lemma list_by_tier_aux st tier :
  reachable st = true ->
  exists rows,
    TS.getRoastersByTier st tier = ok (VArr (map VObj rows)) None
    /\ Permutation rows
         (List.filter (fun d => hasTier tier d && isActive d)%bool (docs st)).
Proof.
  intros Hr. destruct (TS_tier_rows st tier Hr) as (rows & E & Hp & _).
  exists rows. split; assumption.
Qed.

(** X14. The list by tier.  On a reachable store, the list by tier of the
    TypeScript service answers, for any string as tier, with the active
    records whose [subscriptionTier] is that string, each once, newest
    first; the one of the JavaScript service answers, for a tier among
    basic, premium and enterprise, with the same records in store order,
    and refuses any other tier.  Neither pages the list. *)
Theorem list_by_tier (st : store) (tier : string) :
  reachable st = true ->
  (exists rows,
      TS.getRoastersByTier st tier = ok (VArr (map VObj rows)) None
      /\ Permutation rows
           (List.filter (fun d => hasTier tier d && isActive d)%bool (docs st))
      /\ Sorted (fun a b => before ["createdAt"] (-1) a b = true) rows)
  /\ (In tier tiers ->
      JS.getRoastersByTier st tier
      = ok (VArr (map VObj
                    (List.filter (fun d => hasTier tier d && isActive d)%bool
                                 (docs st)))) None)
  /\ (~ In tier tiers ->
      JS.getRoastersByTier st tier
      = fail "Invalid subscription tier. Must be basic, premium, or enterprise").
Proof.
  intros Hr. split; [|split].
  - now apply TS_tier_rows.
  - intros Hin. apply known_tier in Hin.
    unfold JS.getRoastersByTier. rewrite Hin, Hr, find_tier. reflexivity.
  - intros Hin. unfold JS.getRoastersByTier.
    destruct (existsb (String.eqb tier) _) eqn:E; [|reflexivity].
    apply known_tier in E. contradiction.
Qed.

End Tiers.

Lemma list_by_tier_witness :
  JS.getRoastersByTier (P := Reference.platform) Sample.roasters "premium"
  = ok (VArr [VObj Sample.roasterB]) None.
Proof.
  refine (proj1 (proj2 (@list_by_tier Reference.platform Sample.roasters
                          "premium" eq_refl)) _).
  simpl. auto.
Defined.

Section TierRoutes.
Context {P : Platform}.
Import Store Routes Spec.

Lemma tier_not_empty tier : In tier tiers -> String.eqb tier "" = false.
Proof.
  intros [<- | [<- | [<- | []]]]; reflexivity.
Qed.

(** X15. A tier in the query takes the whole answer.  On a reachable store,
    when the query of the roasters list route names a tier among basic,
    premium and enterprise, the answer is 200 with every active record of
    the tier and no pagination, whatever the search, the sort, the page and
    the limit of the query; the TypeScript route only wants the page and
    the limit to pass its checks first. *)
Theorem tier_query_is_unpaged (q : ListQuery) (st : store) (tier : string) :
  reachable st = true -> In tier tiers -> q_tier q = Some tier ->
  handleGetRoasters q st
  = respond 200
      (ok (VArr (map VObj
                   (List.filter (fun d => hasTier tier d && isActive d)%bool
                                (docs st)))) None)
  /\ (badPage (parseInt10 (orElse (q_page q) "1")) = false ->
      badLimit (parseInt10 (orElse (q_limit q) "10")) = false ->
      exists rows,
        handleGetRoastersTS q st = respond 200 (ok (VArr (map VObj rows)) None)
        /\ Permutation rows
             (List.filter (fun d => hasTier tier d && isActive d)%bool
                          (docs st))).
Proof.
  intros Hr Hin Hq.
  pose proof (@tier_not_empty tier Hin) as Hne.
  pose proof (proj2 (known_tier tier) Hin) as Hk.
  destruct (@list_by_tier_aux P st tier Hr) as (rows & HT & Hperm).
  split.
  - unfold handleGetRoasters. rewrite Hq. simpl orElse. rewrite Hne, Hk.
    simpl andb. cbv iota.
    unfold JS.getRoastersByTier. rewrite Hk, Hr, find_tier. reflexivity.
  - intros Hp Hl. exists rows. split; [|assumption].
    unfold handleGetRoastersTS. rewrite Hq. simpl orElse.
    unfold badPage in Hp. unfold badLimit in Hl.
    destruct (parseInt10 (orElse (q_page q) "1")) as [pg|]; [|discriminate].
    rewrite Hp.
    destruct (parseInt10 (orElse (q_limit q) "10")) as [lim|]; [|discriminate].
    rewrite Hl, Hne, Hk. simpl andb. cbv iota. now rewrite HT.
Qed.

End TierRoutes.

Lemma tier_query_is_unpaged_witness :
  Routes.handleGetRoasters (P := Reference.platform)
    (Routes.Build_ListQuery (Some "7") (Some "1") None None (Some "cup")
                            (Some "premium"))
    Sample.roasters
  = respond 200 (ok (VArr [VObj Sample.roasterB]) None).
Proof.
  refine (proj1 (@tier_query_is_unpaged Reference.platform
                   (Routes.Build_ListQuery (Some "7") (Some "1") None None
                                           (Some "cup") (Some "premium"))
                   Sample.roasters "premium" eq_refl _ eq_refl)).
  simpl. auto.
Defined.

Section TierUpdate.
Context {P : Platform}.
Import Store Routes Spec.

Lemma tier_set_field tier now d key :
  getField key (assign d (bsonDoc [("subscriptionTier", VStr tier);
                                   ("updatedAt", VDate now)])) =
  if String.eqb key "subscriptionTier" then Some (VStr tier)
  else if String.eqb key "updatedAt" then Some (VDate now)
  else getField key d.
Proof.
  rewrite getField_set.
  - simpl. destruct (String.eqb key "subscriptionTier"); [reflexivity|].
    destruct (String.eqb key "updatedAt"); reflexivity.
  - repeat constructor; simpl; intuition discriminate.
Qed.

(** X16. The change of subscription tier writes two fields of one record.
    In the TypeScript service it fails and leaves the store as it was, or
    it replaces in place the first record with the id and answers with the
    new record.  In the JavaScript service it fails and leaves the store as
    it was; or, for a tier among basic, premium and enterprise, it reports
    success with the reply of the driver: with no record in it and the
    store as it was when no active record has the id, and otherwise with
    the new record in it and the first active record with the id replaced
    in place.  In both the new record differs from the old one in
    [subscriptionTier], now the tier, and [updatedAt], now the clock,
    only. *)
Theorem change_of_tier (st : store) (id tier : string) (now : Z) :
  ((success (fst (TS.updateSubscriptionTier st id tier now)) = false
    /\ snd (TS.updateSubscriptionTier st id tier now) = st)
   \/ exists pre d d' post,
        docs st = pre ++ d :: post
        /\ (forall x, In x pre -> hasId (ObjectId_new id) x = false)
        /\ hasId (ObjectId_new id) d = true
        /\ TS.updateSubscriptionTier st id tier now
           = (ok (VObj d') (Some "Subscription tier updated successfully"),
              withDocs st (pre ++ d' :: post))
        /\ forall key,
             getField key d' =
             if String.eqb key "subscriptionTier" then Some (VStr tier)
             else if String.eqb key "updatedAt" then Some (VDate now)
             else getField key d)
  /\ ((success (fst (JS.updateSubscriptionTier st id tier now)) = false
       /\ snd (JS.updateSubscriptionTier st id tier now) = st)
      \/ (In tier tiers
          /\ (forall x, In x (docs st) ->
                (hasId (ObjectId_new id) x && isActive x)%bool = false)
          /\ JS.updateSubscriptionTier st id tier now
             = (ok (modifyResult None)
                   (Some "Subscription tier updated successfully"), st))
      \/ exists pre d d' post,
           docs st = pre ++ d :: post
           /\ In tier tiers
           /\ (forall x, In x pre ->
                 (hasId (ObjectId_new id) x && isActive x)%bool = false)
           /\ hasId (ObjectId_new id) d = true /\ isActive d = true
           /\ JS.updateSubscriptionTier st id tier now
              = (ok (modifyResult (Some d'))
                    (Some "Subscription tier updated successfully"),
                 withDocs st (pre ++ d' :: post))
           /\ forall key,
                getField key d' =
                if String.eqb key "subscriptionTier" then Some (VStr tier)
                else if String.eqb key "updatedAt" then Some (VDate now)
                else getField key d).
Proof.
  split.
  - unfold TS.updateSubscriptionTier, findOneAndUpdate.
    destruct (reachable st); simpl negb; cbv iota; [|left; split; reflexivity].
    destruct (ObjectId_isValid id); simpl negb; cbv iota;
      [|left; split; reflexivity].
    destruct (first_match [CId (ObjectId_new id)] (docs st))
      as [H | (pre & d & post & E & Hp & Hd)].
    + left. rewrite setFirst_missing by assumption. split; reflexivity.
    + right. rewrite E, setFirst_found by assumption.
      exists pre, d. eexists. exists post.
      split; [reflexivity|]. split.
      { intros x Hx. rewrite <- matches_id. auto. }
      split; [now rewrite <- matches_id|].
      split; [reflexivity|]. intros key. apply tier_set_field.
  - unfold JS.updateSubscriptionTier, findOneAndUpdate.
    destruct (existsb (String.eqb tier) _) eqn:Et;
      [|destruct (ObjectId_isValid id); left; split; reflexivity].
    destruct (ObjectId_isValid id); simpl negb; cbv iota;
      [|left; split; reflexivity].
    destruct (reachable st); simpl negb; cbv iota; [|left; split; reflexivity].
    destruct (first_match [CId (ObjectId_new id); CTrue "isActive"] (docs st))
      as [H | (pre & d & post & E & Hp & Hd)].
    + right. left. rewrite setFirst_missing by assumption.
      simpl negb. cbv iota. rewrite withDocs_same.
      split; [now apply known_tier|]. split; [|reflexivity].
      intros x Hx. rewrite <- matches_id_active. auto.
    + right. right. rewrite E, setFirst_found by assumption.
      simpl negb. cbv iota.
      rewrite matches_id_active in Hd. apply andb_true_iff in Hd.
      destruct Hd as [Hd Ha].
      exists pre, d. eexists. exists post.
      split; [reflexivity|]. split; [now apply known_tier|]. split.
      { intros x Hx. rewrite <- matches_id_active. auto. }
      split; [assumption|]. split; [assumption|].
      split; [reflexivity|]. intros key. apply tier_set_field.
Qed.

End TierUpdate.

(** ** When the store cannot be reached *)

Section Unreachable.
Context {P : Platform}.
Import Store Routes Spec.

(** X17. A store that cannot be reached.  No route writes.  The list
    routes of the JavaScript pages answer 400; those of the TypeScript
    pages answer 200, with a body whose [success] is [false], once the
    page and the limit have passed their checks.  The GET and the DELETE of an [[id]] route answer 400,
    also for a malformed id, and no create route answers 201. *)
Theorem unreachable_store (k : kind) (q : ListQuery) (id : string)
        (reqBody : value) (st : store) (now : Z) (fresh : string) :
  reachable st = false ->
  (status (handleGetFarmersJS q st) = 400
   /\ status (handleGetRoasters q st) = 400)
  /\ (badPage (parseInt10 (orElse (q_page q) "1")) = false ->
      badLimit (parseInt10 (orElse (q_limit q) "10")) = false ->
      status (handleGetFarmers q st) = 200
      /\ option_map success (body (handleGetFarmers q st)) = Some false
      /\ status (handleGetRoastersTS q st) = 200
      /\ option_map success (body (handleGetRoastersTS q st)) = Some false)
  /\ (id <> "" ->
      status (fst (handler k "GET" (Some id) reqBody st now)) = 400
      /\ status (fst (handler k "DELETE" (Some id) reqBody st now)) = 400)
  /\ status (fst (handleCreate k reqBody st now fresh)) <> 201
  /\ status (fst (handleCreateRoasterTS reqBody st now fresh)) <> 201
  /\ snd (handler k "DELETE" (Some id) reqBody st now) = st
  /\ snd (handler k "PUT" (Some id) reqBody st now) = st
  /\ snd (handleCreate k reqBody st now fresh) = st
  /\ snd (handleCreateRoasterTS reqBody st now fresh) = st.
Proof.
  intros Hr.
  split; [split|split; [|split; [|split; [|split; [|split; [|split; [|split]]]]]]].
  - unfold handleGetFarmersJS, JS.searchFarmers, JS.getFarmers,
      JS.search, JS.getList. rewrite Hr. simpl negb. cbv iota.
    now destruct (negb _).
  - unfold handleGetRoasters. destruct (_ && _)%bool eqn:E.
    + apply andb_true_iff in E. destruct E as [_ E].
      unfold JS.getRoastersByTier. rewrite E, Hr. reflexivity.
    + unfold JS.searchRoasters, JS.getRoasters, JS.search, JS.getList.
      rewrite Hr. simpl negb. cbv iota.
      now destruct (negb (String.eqb (orElse (q_search q) "") "")).
  - intros Hp Hl. unfold handleGetFarmers, handleGetRoastersTS,
      TS.getRoastersByTier, TS.searchFarmers, TS.getFarmers,
      TS.searchRoasters, TS.getRoasters, TS.search, TS.getList.
    unfold badPage in Hp. unfold badLimit in Hl.
    destruct (parseInt10 (orElse (q_page q) "1")) as [pg|]; [|discriminate].
    rewrite Hp.
    destruct (parseInt10 (orElse (q_limit q) "10")) as [lim|]; [|discriminate].
    rewrite Hl, Hr. simpl negb. cbv iota.
    destruct (negb (String.eqb (orElse (q_search q) "") ""));
      destruct (_ && _)%bool; repeat split; reflexivity.
  - intros Hid. apply String.eqb_neq in Hid.
    unfold handler. simpl String.eqb. cbv iota. rewrite Hid.
    unfold handleGet, handleDelete, TS.getById, TS.delete. rewrite Hr.
    simpl negb. cbv iota. destruct k; split; reflexivity.
  - unfold handleCreate.
    destruct (createDataOf k reqBody) as [[answer|data]|] eqn:E.
    + simpl. rewrite (createData_refusal _ _ E). discriminate.
    + unfold JS.create. rewrite Hr. simpl. discriminate.
    + simpl. discriminate.
  - unfold handleCreateRoasterTS.
    destruct (truthy reqBody); simpl negb; cbv iota; [|simpl; discriminate].
    destruct (roasterCreateDataTS reqBody) as [[answer|data]|] eqn:E.
    + simpl. rewrite (roasterCreateDataTS_refusal _ E). discriminate.
    + unfold TS.createRoaster, TS.create. rewrite Hr. simpl. discriminate.
    + simpl. discriminate.
  - unfold handler. simpl String.eqb. cbv iota.
    destruct (String.eqb id ""); [reflexivity|].
    unfold handleDelete, TS.delete. now rewrite Hr.
  - unfold handler. simpl String.eqb. cbv iota.
    destruct (String.eqb id ""); [reflexivity|].
    unfold handleUpdate.
    destruct (truthy reqBody); simpl negb; cbv iota; [|reflexivity].
    destruct (updateDataOf k reqBody) as [u|]; [|reflexivity].
    destruct (noKeys u); [reflexivity|].
    unfold TS.update. now rewrite Hr.
  - unfold handleCreate.
    destruct (createDataOf k reqBody) as [[answer|data]|];
      [reflexivity| |reflexivity].
    unfold JS.create. now rewrite Hr.
  - unfold handleCreateRoasterTS.
    destruct (truthy reqBody); simpl negb; cbv iota; [|reflexivity].
    destruct (roasterCreateDataTS reqBody) as [[answer|data]|];
      [reflexivity| |reflexivity].
    unfold TS.createRoaster, TS.create. now rewrite Hr.
Qed.

End Unreachable.

Lemma unreachable_store_witness :
  status (Routes.handleGetFarmers (P := Reference.platform)
            (Routes.Build_ListQuery None None None None None None)
            {| Store.reachable := false; Store.docs := [Sample.farmerA] |})
  = 200
  /\ status (Routes.handleGetFarmersJS (P := Reference.platform)
               (Routes.Build_ListQuery None None None None None None)
               {| Store.reachable := false; Store.docs := [Sample.farmerA] |})
     = 400.
Proof.
  destruct (@unreachable_store Reference.platform Farmer
              (Routes.Build_ListQuery None None None None None None)
              Sample.idA VNull
              {| Store.reachable := false; Store.docs := [Sample.farmerA] |}
              300 Sample.idC eq_refl)
    as ((HJ & _) & HT & _).
  split; [|exact HJ].
  exact (proj1 (HT ltac:(vm_compute; reflexivity) ltac:(vm_compute; reflexivity))).
Defined.

(** ** The connection managers *)

Section Managers.
Import Connection.

Ltac by_cases c :=
  destruct c as [cc cd cp dp n];
  unfold TS.getCollection, TS.connectToDatabase, TS.connectToClient,
    TS.closeConnection, JS.isConnected, JS.getCollection,
    JS.connectToDatabase, JS.connectToClient, JS.closeConnection,
    connect, await in *;
  simpl in *.

(** X18. A connection is opened once.  When a call of [getCollection]
    returns a handle, every later call of the same manager returns that
    handle and leaves the cache as it is: no other attempt to connect is
    made, and the store is not asked whether it still answers. *)
Theorem connection_is_reused (up up' : bool) (c : cache) (h : nat) :
  (fst (TS.getCollection up c) = Ok h ->
   TS.getCollection up' (snd (TS.getCollection up c))
   = (Ok h, snd (TS.getCollection up c)))
  /\ (fst (JS.getCollection up c) = Ok h ->
      JS.getCollection up' (snd (JS.getCollection up c))
      = (Ok h, snd (JS.getCollection up c))).
Proof.
  split; intros H; by_cases c;
    destruct cd as [db|]; simpl in *;
    try (injection H as ->; reflexivity);
    destruct dp as [db|]; simpl in *;
    try (destruct up; simpl in *; try discriminate;
         injection H as ->; reflexivity);
    destruct cc as [cl|]; simpl in *;
    try (destruct up; simpl in *; try discriminate;
         injection H as ->; reflexivity);
    destruct cp as [[cl|]|]; simpl in *;
    destruct up; simpl in *; try discriminate;
    injection H as <-; reflexivity.
Qed.

(** X19. What [isConnected] tells.  As long as no rejected promise is
    stored, [isConnected] of the JavaScript manager is [true] exactly when
    the store answers during the call; and neither it, nor
    [getCollection], nor [closeConnection] leaves a rejected promise
    stored. *)
Theorem isConnected_tells (up closes : bool) (c : cache) :
  mongoClientPromise c <> Some Rejected ->
  fst (JS.isConnected up c) = up
  /\ mongoClientPromise (snd (JS.isConnected up c)) <> Some Rejected
  /\ mongoClientPromise (snd (JS.getCollection up c)) <> Some Rejected
  /\ mongoClientPromise (snd (JS.closeConnection closes c)) <> Some Rejected.
Proof.
  intros H. by_cases c.
  destruct cd as [db|], dp as [db'|], cc as [cl|], cp as [[cl'|]|], up, closes;
    simpl in *; repeat split; try assumption; try discriminate;
    congruence.
Qed.

(** X20. Closing and connecting again.  Take a cache that holds a client
    and the fulfilled promise it came from, and close the connection.  At
    the next [getCollection] the TypeScript manager, whose promises are
    still stored, makes no attempt to connect and returns a handle on the
    closed client, whether the store answers or not; the JavaScript
    manager, whose cache is cleared, makes one attempt, and returns a
    handle on the client it opens when the store answers. *)
Theorem close_then_connect (up : bool) (c : cache) (cl : nat) :
  cachedClient c = Some cl ->
  mongoClientPromise c = Some (Fulfilled cl) ->
  (attempts (snd (TS.getCollection up (snd (TS.closeConnection true c))))
   = attempts c
   /\ fst (TS.getCollection up (snd (TS.closeConnection true c)))
      = Ok (match mongoDbPromise c with Some db => db | None => cl end))
  /\ (attempts (snd (JS.getCollection up (snd (JS.closeConnection true c))))
      = S (attempts c)
      /\ fst (JS.getCollection up (snd (JS.closeConnection true c)))
         = if up then Ok (attempts c) else Throw).
Proof.
  intros H1 H2. by_cases c. subst cc cp. simpl.
  destruct dp as [db|], up; simpl; repeat split.
Qed.

(** X21. The health route after a failed check.  Take a cache with nothing
    stored and a first GET of the health route while the store is down.
    Over the TypeScript manager every later GET answers 503, also when the
    store is up again; over the JavaScript manager a later GET answers 200
    when the store is up and 503 when it is down. *)
Theorem health_after_failure (env env' : HealthEnv) (up : bool) (c : cache) :
  cachedClient c = None -> cachedDb c = None ->
  mongoClientPromise c = None -> mongoDbPromise c = None ->
  status (fst (Health.handler TS.connectToDatabase "GET" env false c)) = 503
  /\ status (fst (Health.handler JS.connectToDatabase "GET" env false c)) = 503
  /\ status
       (fst (Health.handler TS.connectToDatabase "GET" env' up
               (snd (Health.handler TS.connectToDatabase "GET" env false c))))
     = 503
  /\ status
       (fst (Health.handler JS.connectToDatabase "GET" env' up
               (snd (Health.handler JS.connectToDatabase "GET" env false c))))
     = (if up then 200 else 503).
Proof.
  intros H1 H2 H3 H4. destruct c as [cc cd cp dp n]. simpl in *. subst.
  destruct up; repeat split.
Qed.

End Managers.

Lemma connection_is_reused_witness :
  Connection.TS.getCollection false
    (snd (Connection.TS.getCollection true Connection.empty))
  = (Ok 0%nat, snd (Connection.TS.getCollection true Connection.empty)).
Proof.
  exact (proj1 (connection_is_reused true false Connection.empty 0) eq_refl).
Defined.

Lemma isConnected_tells_witness :
  fst (Connection.JS.isConnected true Connection.empty) = true.
Proof.
  refine (proj1 (@isConnected_tells true true Connection.empty _)).
  discriminate.
Defined.

Lemma close_then_connect_witness :
  fst (Connection.TS.getCollection false
         (snd (Connection.TS.closeConnection true
                 (snd (Connection.TS.getCollection true Connection.empty)))))
  = Ok 0%nat.
Proof.
  exact (proj2 (proj1 (@close_then_connect false
                         (snd (Connection.TS.getCollection true
                                 Connection.empty))
                         0 eq_refl eq_refl))).
Defined.

Lemma health_after_failure_witness :
  status
    (fst (Health.handler Connection.TS.connectToDatabase "GET" Sample.env true
            (snd (Health.handler Connection.TS.connectToDatabase "GET"
                    Sample.env false Connection.empty))))
  = 503.
Proof.
  exact (proj1 (proj2 (proj2
           (@health_after_failure Sample.env Sample.env true Connection.empty
              eq_refl eq_refl eq_refl eq_refl)))).
Defined.

(** ** The values a PUT can store *)

Section PutValues.
Context {P : Platform}.
Import Store Routes Spec.

Lemma typedAt_nil key good : typedAt key good [].
Proof. intros v H. discriminate H. Qed.

Lemma typedAt_other key good key' v u :
  key' <> key -> typedAt key good u -> typedAt key good (setField key' v u).
Proof.
  intros Hne H x Hx. rewrite getField_setField_ne in Hx by congruence. auto.
Qed.

Lemma typedAt_same key good v u :
  good v = true -> typedAt key good (setField key v u).
Proof.
  intros Hg x Hx. rewrite getField_setField_eq in Hx. now injection Hx as <-.
Qed.

Lemma typedAt_setIfDefined key good key' x f u u' :
  setIfDefined key' x f u = Ok u' ->
  key' <> key -> typedAt key good u -> typedAt key good u'.
Proof.
  unfold setIfDefined. intros H Hne Hs.
  destruct (isUndefined x).
  - injection H as <-. assumption.
  - destruct (f x) as [y|]; simpl in H; [|discriminate].
    injection H as <-. now apply typedAt_other.
Qed.

Ltac crunch_u :=
  repeat match goal with
    | H : bind ?r _ = Ok _ |- _ =>
        destruct r eqn:?; cbn [bind] in H; [|discriminate H]
    | H : (if ?c then _ else _) = Ok _ |- _ => destruct c eqn:?
    | H : Ok _ = Ok _ |- _ => injection H as H; subst
    | H : Throw = Ok _ |- _ => discriminate H
    | H : match ?v with _ => _ end = Ok _ |- _ => destruct v
    end.

Ltac good :=
  first [ assumption
        | simpl; assumption
        | match goal with
          | E : (_ && ?g)%bool = true |- ?g = true =>
              apply andb_true_iff in E; apply E
          end ].

Ltac typed :=
  repeat first
    [ assumption
    | apply typedAt_nil
    | match goal with
      | H : setIfDefined _ _ _ ?u = Ok ?u' |- typedAt _ _ ?u' =>
          eapply typedAt_setIfDefined; [ exact H | discriminate | ]
      | |- typedAt ?key _ (setField ?key _ _) => apply typedAt_same; good
      | |- typedAt _ _ (setField _ _ _) =>
          apply typedAt_other; [ discriminate | ]
      | |- typedAt _ _ (if ?c then _ else _) => destruct c eqn:?
      | |- typedAt _ _ (match ?c with _ => _ end) => destruct c eqn:?
      end ].

Ltac step_typed key good H :=
  match type of H with
  | bind ?r _ = Ok _ =>
      let E := fresh "E" in
      let x := fresh "x" in
      destruct r as [x|] eqn:E; cbn [bind] in H; [|discriminate H];
      match type of x with
      | value => idtac
      | _ =>
          let S := fresh "S" in
          assert (S : typedAt key good x) by (clear H; crunch_u; typed);
          clear E
      end
  end.

Lemma roaster_businessType reqBody u :
  roasterUpdateData reqBody = Ok u ->
  typedAt "businessType" (includes ["roastery"; "cafe"; "both"]) u.
Proof.
  unfold roasterUpdateData. intros H.
  repeat step_typed "businessType" (includes ["roastery"; "cafe"; "both"]) H.
  injection H as <-. typed.
Qed.

Lemma roaster_subscriptionTier reqBody u :
  roasterUpdateData reqBody = Ok u ->
  typedAt "subscriptionTier" (includes ["basic"; "premium"; "enterprise"]) u.
Proof.
  unfold roasterUpdateData. intros H.
  repeat step_typed "subscriptionTier"
         (includes ["basic"; "premium"; "enterprise"]) H.
  injection H as <-. typed.
Qed.

Lemma farmer_rating reqBody u :
  farmerUpdateData reqBody = Ok u -> typedAt "rating" ratingInRange u.
Proof.
  unfold farmerUpdateData. intros H.
  repeat step_typed "rating" ratingInRange H.
  injection H as <-. typed.
Qed.

Lemma typedAt_absent k reqBody u key good :
  updateDataOf k reqBody = Ok u -> ~ In key (updatable k) -> typedAt key good u.
Proof.
  intros Hu Hk v Hv. destruct (updateData_shaped _ _ Hu) as (_ & Hi & _).
  exfalso. apply Hk, Hi. unfold keys.
  assert (Hsome : getField key u <> None) by congruence.
  rewrite getField_None_keys in Hsome.
  destruct (in_dec string_dec key (keys u)); [assumption | contradiction].
Qed.

Lemma updateData_typed k reqBody u :
  updateDataOf k reqBody = Ok u ->
  typedAt "businessType" (includes ["roastery"; "cafe"; "both"]) u
  /\ typedAt "subscriptionTier" (includes ["basic"; "premium"; "enterprise"]) u
  /\ typedAt "rating" ratingInRange u.
Proof.
  intros Hu. destruct k.
  - split; [|split].
    + apply (@typedAt_absent Farmer reqBody u _ _ Hu). simpl. intuition discriminate.
    + apply (@typedAt_absent Farmer reqBody u _ _ Hu). simpl. intuition discriminate.
    + now apply farmer_rating with (reqBody := reqBody).
  - split; [|split].
    + now apply roaster_businessType with (reqBody := reqBody).
    + now apply roaster_subscriptionTier with (reqBody := reqBody).
    + apply (@typedAt_absent Roaster reqBody u _ _ Hu). simpl. intuition discriminate.
Qed.

Lemma put_value key good k reqBody u d now :
  updateDataOf k reqBody = Ok u -> key <> "updatedAt" ->
  typedAt key good u ->
  getField key (updated d u now) = getField key d
  \/ exists v, good v = true /\ getField key (updated d u now) = Some (bson v).
Proof.
  intros Hu Hne Ht. destruct (updateData_shaped _ _ Hu) as (Hn & _ & _).
  rewrite (@updated_merged d u now Hn key).
  apply String.eqb_neq in Hne. rewrite Hne.
  destruct (getField key u) as [v|] eqn:E; [|now left].
  right. exists v. split; [now apply Ht | reflexivity].
Qed.

(** X22. The values a PUT can store.  Whatever the id and the body, a PUT
    to an [[id]] route leaves the store as it was or replaces one record
    in place, and in the replacing record [businessType] is as before or
    one of roastery, cafe, both; [subscriptionTier] is as before or one of
    basic, premium, enterprise; and [rating] is as before or a number
    between 0 and 5. *)
Theorem put_stores_checked_values (k : kind) (id : string) (reqBody : value)
        (st : store) (now : Z) :
  snd (handleUpdate k id reqBody st now) = st
  \/ exists pre d d' post,
       docs st = pre ++ d :: post
       /\ snd (handleUpdate k id reqBody st now)
          = withDocs st (pre ++ d' :: post)
       /\ (getField "businessType" d' = getField "businessType" d
           \/ exists s, In s ["roastery"; "cafe"; "both"]
                        /\ getField "businessType" d' = Some (VStr s))
       /\ (getField "subscriptionTier" d' = getField "subscriptionTier" d
           \/ exists s, In s tiers
                        /\ getField "subscriptionTier" d' = Some (VStr s))
       /\ (getField "rating" d' = getField "rating" d
           \/ exists r, (0 <= r)%Q /\ (r <= 5)%Q
                        /\ getField "rating" d' = Some (VNum r)).
Proof.
  destruct (handleUpdate_effect k id reqBody st now)
    as [H | (u & pre & d & post & Hu & E & H)]; [now left|].
  right. exists pre, d, (updated d u now), post.
  split; [assumption|]. split; [assumption|].
  destruct (updateData_typed _ _ Hu) as (Hb & Ht & Hr).
  split; [|split].
  - destruct (@put_value "businessType" _ k reqBody u d now Hu
                ltac:(discriminate) Hb) as [Hs | (v & Hv & Hs)];
      [now left|].
    right. apply includes_In in Hv. destruct Hv as (s & -> & Hin).
    exists s. auto.
  - destruct (@put_value "subscriptionTier" _ k reqBody u d now Hu
                ltac:(discriminate) Ht) as [Hs | (v & Hv & Hs)];
      [now left|].
    right. apply includes_In in Hv. destruct Hv as (s & -> & Hin).
    exists s. auto.
  - destruct (@put_value "rating" _ k reqBody u d now Hu
                ltac:(discriminate) Hr) as [Hs | (v & Hv & Hs)];
      [now left|].
    right. destruct v; simpl in Hv; try discriminate.
    apply andb_true_iff in Hv. destruct Hv as [H0 H5].
    apply Qle_bool_iff in H0. apply Qle_bool_iff in H5.
    exists q. auto.
Qed.

End PutValues.

(** ** The two versions of the services *)

Section Versions.
Context {P : Platform}.
Import Store Routes Spec.

(** X23. The two versions of a list agree on a reachable store when the
    pagination is in range (a page of at least 1 or none, a limit between
    1 and 100 or none) and the sort is spelled out (no sort field and no
    order, or a sort field with the order asc or desc): the list of the
    TypeScript service and the list of the JavaScript service then return
    the same answer. *)
Theorem lists_agree (k : kind) (st : store) (params : PaginationParams) :
  reachable st = true ->
  pageInRange params = true -> sortSpelledOut params = true ->
  TS.getList k st params = JS.getList k st params.
Proof.
  intros Hr Hp Hs. unfold TS.getList, JS.getList, TS.paged, JS.paged.
  rewrite Hr. simpl negb. cbv iota.
  unfold pageInRange in Hp. apply andb_true_iff in Hp. destruct Hp as [Hp Hl].
  assert (Epg : JS.orNum (p_page params) 1 = orElse (p_page params) 1
                /\ 1 <= orElse (p_page params) 1).
  { destruct (p_page params) as [p|]; simpl; [|lia].
    apply Z.leb_le in Hp. destruct (p =? 0) eqn:E; lia. }
  assert (Elim : Z.min (JS.orNum (p_limit params) 10) 100
                 = orElse (p_limit params) 10
                 /\ 1 <= orElse (p_limit params) 10).
  { destruct (p_limit params) as [l|]; simpl; [|lia].
    apply andb_true_iff in Hl. destruct Hl as [H1 H2].
    apply Z.leb_le in H1. apply Z.leb_le in H2.
    destruct (l =? 0) eqn:E; lia. }
  destruct Epg as [-> Hpg]. destruct Elim as [-> Hlim].
  assert (Esort :
            (if JS.given (p_sortBy params)
             then orElse (p_sortBy params) "" else "createdAt")
            = orElse (p_sortBy params) "createdAt"
            /\ (if JS.given (p_sortBy params)
                then (if String.eqb (orElse (p_sortOrder params) "") "desc"
                      then -1 else 1)
                else -1)
               = (if String.eqb (orElse (p_sortOrder params) "desc") "asc"
                  then 1 else -1)).
  { unfold sortSpelledOut in Hs.
    destruct (p_sortBy params) as [s|], (p_sortOrder params) as [o|];
      try discriminate; simpl; [|split; reflexivity].
    apply andb_true_iff in Hs. destruct Hs as [Hs Ho]. rewrite Hs.
    split; [reflexivity|].
    apply orb_true_iff in Ho. destruct Ho as [Ho | Ho];
      apply String.eqb_eq in Ho; subst o; reflexivity. }
  destruct Esort as [-> ->].
  rewrite countDocuments_active. cbn [bind].
  destruct (@cursor_runs P [CTrue "isActive"]
              (orElse (p_sortBy params) "createdAt")
              (if String.eqb (orElse (p_sortOrder params) "desc") "asc"
               then 1 else -1)
              ((orElse (p_page params) 1 - 1) * orElse (p_limit params) 10)
              (orElse (p_limit params) 10) (docs st) eq_refl) as [rows ->];
    [nia|].
  reflexivity.
Qed.

End Versions.

Lemma lists_agree_witness :
  TS.getList (P := Reference.platform) Roaster Sample.roasters
    (Sample.pageOf 2 1)
  = JS.getList (P := Reference.platform) Roaster Sample.roasters
      (Sample.pageOf 2 1).
Proof.
  exact (@lists_agree Reference.platform Roaster Sample.roasters
           (Sample.pageOf 2 1) eq_refl eq_refl eq_refl).
Defined.

(** ** A PUT that is answered 200 *)

Section PutOk.
Context {P : Platform}.
Import Store Routes Spec.

Lemma statusOf_fail k e : statusOf k (fail e) <> 200.
Proof.
  unfold statusOf. simpl. destruct (String.eqb e _); discriminate.
Qed.

Lemma put_ok k id reqBody st now :
  status (fst (handleUpdate k id reqBody st now)) = 200 ->
  exists u pre d post,
    updateDataOf k reqBody = Ok u
    /\ truthy reqBody = true /\ noKeys u = false
    /\ reachable st = true /\ ObjectId_isValid id = true
    /\ docs st = pre ++ d :: post
    /\ (forall x, In x pre -> hasId (ObjectId_new id) x = false)
    /\ hasId (ObjectId_new id) d = true
    /\ handleUpdate k id reqBody st now
       = (respond 200 (ok (VObj (updated d u now))
                          (Some (Noun k ++ " updated successfully")%string)),
          withDocs st (pre ++ updated d u now :: post)).
Proof.
  unfold handleUpdate.
  destruct (truthy reqBody) eqn:Hb; simpl negb; cbv iota; [|discriminate].
  destruct (updateDataOf k reqBody) as [u|] eqn:Hu; [|discriminate].
  destruct (noKeys u) eqn:Hk; [discriminate|].
  destruct (reachable st) eqn:Hr;
    [|unfold TS.update; rewrite Hr; simpl; intros H;
      now apply statusOf_fail in H].
  destruct (ObjectId_isValid id) eqn:Hv;
    [|unfold TS.update; rewrite Hr, Hv; simpl; intros H;
      now apply statusOf_fail in H].
  destruct (first_id (ObjectId_new id) (docs st))
    as [Hno | (pre & d & post & E & Hp & Hd)].
  - rewrite (@TS_update_missing P k st id u now Hr Hv Hno). simpl.
    intros H. now apply statusOf_fail in H.
  - rewrite (@TS_update_found P k st id u now pre d post Hr Hv E Hp Hd).
    intros _. exists u, pre, d, post. repeat split; auto.
Qed.

Lemma hasId_updated k reqBody u d now oid :
  updateDataOf k reqBody = Ok u ->
  hasId oid (updated d u now) = hasId oid d.
Proof.
  intros Hu. unfold hasId.
  rewrite (@put_frame P k reqBody u d now "_id" Hu);
    [reflexivity | apply updatable_not_id | discriminate].
Qed.

(** X24. A GET after a PUT.  When a PUT to an [[id]] route is answered 200,
    a GET of the same id on the store it leaves is answered 200 with the
    record the PUT returned. *)
Theorem get_after_put (k : kind) (id : string) (reqBody : value) (st : store)
        (now : Z) :
  status (fst (handleUpdate k id reqBody st now)) = 200 ->
  exists d',
    option_map data (body (fst (handleUpdate k id reqBody st now)))
    = Some (Some (VObj d'))
    /\ handleGet k id (snd (handleUpdate k id reqBody st now))
       = respond 200 (ok (VObj d') None).
Proof.
  intros H.
  destruct (put_ok k id reqBody st now H)
    as (u & pre & d & post & Hu & _ & _ & Hr & Hv & E & Hp & Hd & ->).
  exists (updated d u now). split; [reflexivity|].
  unfold handleGet, TS.getById. simpl. rewrite Hr, Hv. simpl negb. cbv iota.
  rewrite findOne_found; [reflexivity| |].
  - intros x Hx. rewrite matches_id. auto.
  - rewrite matches_id. now rewrite (@hasId_updated k reqBody u d now (ObjectId_new id) Hu).
Qed.

(** X25. A PUT sent twice.  When a PUT to an [[id]] route is answered 200,
    the same PUT on the store it leaves is answered 200 again, replaces
    the same record, and changes no field of it but [updatedAt], which
    becomes the clock of the second request. *)
Theorem put_twice (k : kind) (id : string) (reqBody : value) (st : store)
        (now1 now2 : Z) :
  status (fst (handleUpdate k id reqBody st now1)) = 200 ->
  status (fst (handleUpdate k id reqBody
                 (snd (handleUpdate k id reqBody st now1)) now2)) = 200
  /\ exists pre d1 d2 post,
       docs (snd (handleUpdate k id reqBody st now1)) = pre ++ d1 :: post
       /\ docs (snd (handleUpdate k id reqBody
                       (snd (handleUpdate k id reqBody st now1)) now2))
          = pre ++ d2 :: post
       /\ getField "updatedAt" d2 = Some (VDate now2)
       /\ forall key, key <> "updatedAt" -> getField key d2 = getField key d1.
Proof.
  intros H.
  destruct (put_ok k id reqBody st now1 H)
    as (u & pre & d & post & Hu & Hb & Hk & Hr & Hv & E & Hp & Hd & ->).
  simpl snd.
  assert (Hd1 : hasId (ObjectId_new id) (updated d u now1) = true)
    by now rewrite (@hasId_updated k reqBody u d now1 (ObjectId_new id) Hu).
  unfold handleUpdate. rewrite Hb, Hu, Hk. simpl negb. cbv iota.
  rewrite (@TS_update_found P k
             (withDocs st (pre ++ updated d u now1 :: post)) id u now2
             pre (updated d u now1) post Hr Hv eq_refl Hp Hd1).
  split; [reflexivity|].
  exists pre, (updated d u now1), (updated (updated d u now1) u now2), post.
  split; [reflexivity|]. split; [reflexivity|].
  destruct (updateData_shaped _ _ Hu) as (Hn & _ & _).
  split.
  - rewrite (@updated_merged (updated d u now1) u now2 Hn "updatedAt").
    reflexivity.
  - intros key Hne.
    rewrite (@updated_merged (updated d u now1) u now2 Hn key).
    rewrite (@updated_merged d u now1 Hn key).
    apply String.eqb_neq in Hne. rewrite Hne.
    now destruct (getField key u).
Qed.

End PutOk.

Lemma get_after_put_witness :
  exists d',
    Routes.handleGet (P := Reference.platform) Roaster Sample.idA
      (snd (Routes.handleUpdate (P := Reference.platform) Roaster Sample.idA
              Sample.putBody Sample.roasters 300))
    = respond 200 (ok (VObj d') None)
    /\ getField "totalOrders" d' = Some (VNum 5).
Proof.
  destruct (@get_after_put Reference.platform Roaster Sample.idA
              Sample.putBody Sample.roasters 300
              ltac:(vm_compute; reflexivity)) as (d' & Hd & Hg).
  exists d'. split; [exact Hg|].
  vm_compute in Hd. injection Hd as <-. reflexivity.
Defined.

Lemma put_twice_witness :
  status (fst (Routes.handleUpdate (P := Reference.platform) Roaster
                 Sample.idA Sample.putBody
                 (snd (Routes.handleUpdate (P := Reference.platform) Roaster
                         Sample.idA Sample.putBody Sample.roasters 300))
                 400))
  = 200.
Proof.
  exact (proj1 (@put_twice Reference.platform Roaster Sample.idA
                  Sample.putBody Sample.roasters 300 400
                  ltac:(vm_compute; reflexivity))).
Defined.

(** ** The values a create route of the JavaScript pages can store *)

Section CreateValues.
Context {P : Platform}.
Import Store Routes Spec.

Lemma tier_checked v :
  (truthy v && negb (includes ["basic"; "premium"; "enterprise"] v))%bool
  = false ->
  exists s, In s tiers /\ orValue v (VStr "basic") = VStr s.
Proof.
  intros H. unfold orValue. destruct (truthy v) eqn:Ht.
  - simpl in H. apply negb_false_iff, includes_In in H.
    destruct H as (s & -> & Hin). exists s. auto.
  - exists "basic". split; [simpl; auto | reflexivity].
Qed.

Lemma number_checked v hi :
  (negb (isUndefined v) && notNumberIn v 0 hi)%bool = false ->
  exists q,
    orValue v (VNum 0) = VNum q /\ (0 <= q)%Q
    /\ forall h, hi = Some h -> (0 <= h)%Q -> (q <= h)%Q.
Proof.
  intros H. unfold orValue.
  destruct v; simpl in H; try discriminate.
  - exists 0%Q. simpl. repeat split; [apply Qle_refl | auto].
  - apply orb_false_iff in H. destruct H as [H0 Hh].
    apply negb_false_iff, Qle_bool_iff in H0.
    destruct (truthy (VNum q)).
    + exists q. repeat split; [assumption|].
      intros h ->. intros _. now apply negb_false_iff, Qle_bool_iff in Hh.
    + exists 0%Q. repeat split; [apply Qle_refl | auto].
Qed.

Lemma created_field data now fresh key :
  key <> "_id" -> key <> "createdAt" -> key <> "updatedAt" ->
  getField key (("_id", VOid fresh)
                :: bsonDoc (assign data [("createdAt", VDate now);
                                         ("updatedAt", VDate now)]))
  = option_map bson (getField key data).
Proof.
  intros H1 H2 H3. rewrite getField_inserted by assumption.
  rewrite getField_bsonDoc. f_equal.
  apply getField_assign_absent. simpl.
  apply String.eqb_neq in H2. apply String.eqb_neq in H3.
  now rewrite H2, H3.
Qed.

Lemma roasterCreateData_checked reqBody data :
  roasterCreateData reqBody = Ok (inr data) ->
  (exists s, In s tiers /\ getField "subscriptionTier" data = Some (VStr s))
  /\ (exists c, (0 <= c)%Q /\ getField "roastingCapacity" data = Some (VNum c))
  /\ (exists l, getField "specialties" data = Some (VArr l)).
Proof.
  unfold roasterCreateData. intros H.
  repeat match goal with
    | H : bind ?r _ = Ok _ |- _ =>
        destruct r eqn:?; cbn [bind] in H; [|discriminate H]
    | H : (if ?c then _ else _) = Ok _ |- _ => destruct c eqn:?
    | H : Ok (inl _) = Ok (inr _) |- _ => discriminate H
    | H : Ok (inr _) = Ok (inr _) |- _ => injection H as H; subst
    end.
  cbn [getField String.eqb Ascii.eqb Bool.eqb].
  split; [|split].
  - match goal with
    | E : (truthy ?v && negb (includes _ ?v))%bool = false |- _ =>
        destruct (tier_checked v E) as (s & Hin & ->)
    end. eauto.
  - match goal with
    | E : (negb (isUndefined ?v) && notNumberIn ?v 0 None)%bool = false |- _ =>
        destruct (@number_checked v None E) as (q & -> & Hq & _)
    end. eauto.
  - match goal with
    | |- context [if isArray ?v then _ else _] => destruct v; simpl; eauto
    end.
Qed.

Lemma farmerCreateData_checked reqBody data :
  farmerCreateData reqBody = Ok (inr data) ->
  (exists r, (0 <= r)%Q /\ (r <= 5)%Q /\ getField "rating" data = Some (VNum r))
  /\ (exists f, (0 <= f)%Q /\ getField "farmSize" data = Some (VNum f))
  /\ (exists l, getField "coffeeVarieties" data = Some (VArr l))
  /\ (exists l, getField "certifications" data = Some (VArr l)).
Proof.
  unfold farmerCreateData. intros H.
  repeat match goal with
    | H : bind ?r _ = Ok _ |- _ =>
        destruct r eqn:?; cbn [bind] in H; [|discriminate H]
    | H : (if ?c then _ else _) = Ok _ |- _ => destruct c eqn:?
    | H : Ok (inl _) = Ok (inr _) |- _ => discriminate H
    | H : Ok (inr _) = Ok (inr _) |- _ => injection H as H; subst
    end.
  cbn [getField String.eqb Ascii.eqb Bool.eqb].
  split; [|split; [|split]].
  - match goal with
    | E : (negb (isUndefined ?v) && notNumberIn ?v 0 (Some _))%bool = false
      |- _ =>
        destruct (@number_checked v _ E) as (q & -> & Hq & Hh)
    end.
    exists q. split; [assumption|]. split; [|reflexivity].
    apply (Hh _ eq_refl). discriminate.
  - match goal with
    | E : (negb (isUndefined ?v) && notNumberIn ?v 0 None)%bool = false |- _ =>
        destruct (@number_checked v None E) as (q & -> & Hq & _)
    end. eauto.
  - match goal with
    | |- exists l, Some (if isArray ?v then _ else _) = _ =>
        destruct v; simpl; eauto
    end.
  - match goal with
    | |- exists l, Some (if isArray ?v then _ else _) = _ =>
        destruct v; simpl; eauto
    end.
Qed.

(** X26. The values a create route of the JavaScript pages can store.
    When the route answers 201, the store is the one before with one record
    appended.  For a roaster, its [subscriptionTier] is one of basic,
    premium, enterprise, its [roastingCapacity] a number that is not
    negative and its [specialties] an array.  For a farmer, its [rating]
    is a number between 0 and 5, its [farmSize] a number that is not
    negative, and its [coffeeVarieties] and [certifications] are arrays. *)
Theorem create_stores_checked_values (k : kind) (reqBody : value) (st : store)
        (now : Z) (fresh : string) :
  status (fst (handleCreate k reqBody st now fresh)) = 201 ->
  exists d,
    docs (snd (handleCreate k reqBody st now fresh)) = docs st ++ [d]
    /\ match k with
       | Roaster =>
           (exists s, In s tiers
                      /\ getField "subscriptionTier" d = Some (VStr s))
           /\ (exists c, (0 <= c)%Q
                         /\ getField "roastingCapacity" d = Some (VNum c))
           /\ (exists l, getField "specialties" d = Some (VArr l))
       | Farmer =>
           (exists r, (0 <= r)%Q /\ (r <= 5)%Q
                      /\ getField "rating" d = Some (VNum r))
           /\ (exists f, (0 <= f)%Q /\ getField "farmSize" d = Some (VNum f))
           /\ (exists l, getField "coffeeVarieties" d = Some (VArr l))
           /\ (exists l, getField "certifications" d = Some (VArr l))
       end.
Proof.
  unfold handleCreate.
  destruct (createDataOf k reqBody) as [[answer|data]|] eqn:E.
  - simpl. rewrite (createData_refusal _ _ E). discriminate.
  - destruct (JS_create_outcome k st data now fresh)
      as [[Hs Hst] | (Hr & Hno & ->)].
    + destruct (JS.create k st data now fresh) as [r st']. simpl in Hs.
      rewrite Hs. simpl. discriminate.
    + intros _. eexists. split; [reflexivity|].
      destruct k; simpl in E.
      * destruct (farmerCreateData_checked _ E)
          as ((r & H0 & H5 & Hr') & (f & Hf & Hf') & (l1 & Hl1) & (l2 & Hl2)).
        rewrite !created_field by discriminate.
        rewrite Hr', Hf', Hl1, Hl2. simpl.
        repeat split; eexists; repeat split; eassumption || reflexivity.
      * destruct (roasterCreateData_checked _ E)
          as ((s & Hin & Hs') & (c & Hc & Hc') & (l & Hl)).
        rewrite !created_field by discriminate.
        rewrite Hs', Hc', Hl. simpl.
        repeat split; eexists; repeat split; eassumption || reflexivity.
  - simpl. discriminate.
Qed.

End CreateValues.

Lemma create_stores_checked_values_witness :
  exists d,
    Store.docs (snd (Routes.handleCreate (P := Reference.platform) Roaster
                       Sample.newRoaster Sample.roasters 300 Sample.idC))
    = Store.docs Sample.roasters ++ [d]
    /\ exists s, In s tiers /\ getField "subscriptionTier" d = Some (VStr s).
Proof.
  destruct (@create_stores_checked_values Reference.platform Roaster
              Sample.newRoaster Sample.roasters 300 Sample.idC
              ltac:(vm_compute; reflexivity)) as (d & Hd & Ht & _).
  exists d. split; [exact Hd | exact Ht].
Defined.
